(** * job-agent: a shallow embedding of agent.py and the properties of its pipeline

    The pipeline of [agent.py] is search -> dedupe -> rank -> tailor ->
    render -> send.  Python values that come out of JSON are embedded as
    [pyval]; Python strings are lists of code points; the calls that leave
    the process (HTTP, the language model, the clock, files, SMTP, the log)
    are embedded in a state-and-exception monad over a [world] that holds the
    answers of the environment and the trace of the calls performed. *)

From Stdlib Require Import ZArith NArith Lia.
From stdpp Require Import base list strings sorting gmap.

Local Open Scope Z_scope.
#[local] Set Warnings "-register-all,-clear-no-such-hyp".

(** ** Python strings *)

(** A Python [str] is a sequence of Unicode code points. *)
Definition char := N.
Definition str := list char.

Module Lit.

(** Decoder of the UTF-8 bytes of a Rocq string literal: [acc] is the code
    point under construction and [need] the number of continuation bytes
    still expected. *)
Fixpoint utf8_go (bs : list N) (acc : N) (need : nat) : str :=
  match bs with
  | [] => []
  | b :: bs' =>
      match need with
      | O =>
          if (b <? 128)%N then b :: utf8_go bs' 0%N O
          else if (b <? 224)%N then utf8_go bs' (b - 192)%N 1%nat
          else if (b <? 240)%N then utf8_go bs' (b - 224)%N 2%nat
          else utf8_go bs' (b - 240)%N 3%nat
      | S O => (acc * 64 + (b - 128))%N :: utf8_go bs' 0%N O
      | S n => utf8_go bs' (acc * 64 + (b - 128))%N n
      end
  end.

Fixpoint bytes_of (s : string) : list N :=
  match s with
  | EmptyString => []
  | String a s' => Ascii.N_of_ascii a :: bytes_of s'
  end.

(** The double quote (code point 34) is written [~] inside the literals of
    this file; the tilde itself occurs in no literal of agent.py. *)
Definition unquote (c : char) : char := if (c =? 126)%N then 34%N else c.

Definition lit (s : string) : str := unquote <$> utf8_go (bytes_of s) 0%N O.

End Lit.

Notation "'u' s" := (Lit.lit s%string) (at level 1, s at level 0, only parsing).

Module PyStr.

(** [str.isspace] of one code point: the characters [str.strip] removes. *)
Definition is_space (c : char) : bool :=
  ((9 <=? c) && (c <=? 13) || (28 <=? c) && (c <=? 32)
   || (c =? 133) || (c =? 160) || (c =? 5760)
   || (8192 <=? c) && (c <=? 8202)
   || (c =? 8232) || (c =? 8233) || (c =? 8239) || (c =? 8287)
   || (c =? 12288))%N.

Fixpoint lstrip (s : str) : str :=
  match s with
  | [] => []
  | c :: s' => if is_space c then lstrip s' else s
  end.

Definition rstrip (s : str) : str := reverse (lstrip (reverse s)).

(** [s.strip()] *)
Definition strip (s : str) : str := rstrip (lstrip s).

(** [s.startswith(p)] *)
Fixpoint startswith (s p : str) : bool :=
  match p, s with
  | [], _ => true
  | _ :: _, [] => false
  | a :: p', b :: s' => (a =? b)%N && startswith s' p'
  end.

(** [s.replace(old, new)] for a non-empty [old]: the occurrences of [old]
    are found from left to right and do not overlap; [skip] counts the
    characters of a matched occurrence that are still to be passed over. *)
Fixpoint replace_go (old new s : str) (skip : nat) : str :=
  match s with
  | [] => []
  | c :: s' =>
      match skip with
      | S k => replace_go old new s' k
      | O =>
          if startswith s old
          then new ++ replace_go old new s' (length old - 1)
          else c :: replace_go old new s' O
      end
  end.

Definition replace (s old new : str) : str := replace_go old new s O.

(** [s.split(sep)] for a non-empty [sep]; [cur] is the current piece,
    reversed. *)
Fixpoint split_go (sep s : str) (skip : nat) (cur : str) : list str :=
  match s with
  | [] => [reverse cur]
  | c :: s' =>
      match skip with
      | S k => split_go sep s' k cur
      | O =>
          if startswith s sep
          then reverse cur :: split_go sep s' (length sep - 1) []
          else split_go sep s' O (c :: cur)
      end
  end.

Definition split (s sep : str) : list str := split_go sep s O [].

(** [sep.join(parts)] *)
Fixpoint join (sep : str) (parts : list str) : str :=
  match parts with
  | [] => []
  | [p] => p
  | p :: ps => p ++ sep ++ join sep ps
  end.

(** Decimal digits of a number, as [str(int)] prints them. *)
Fixpoint of_uint (d : Decimal.uint) : str :=
  match d with
  | Decimal.Nil => []
  | Decimal.D0 d' => 48%N :: of_uint d'
  | Decimal.D1 d' => 49%N :: of_uint d'
  | Decimal.D2 d' => 50%N :: of_uint d'
  | Decimal.D3 d' => 51%N :: of_uint d'
  | Decimal.D4 d' => 52%N :: of_uint d'
  | Decimal.D5 d' => 53%N :: of_uint d'
  | Decimal.D6 d' => 54%N :: of_uint d'
  | Decimal.D7 d' => 55%N :: of_uint d'
  | Decimal.D8 d' => 56%N :: of_uint d'
  | Decimal.D9 d' => 57%N :: of_uint d'
  end.

Definition of_Z (z : Z) : str :=
  match Z.to_int z with
  | Decimal.Pos d => of_uint d
  | Decimal.Neg d => 45%N :: of_uint d
  end.

Definition of_nat (n : nat) : str := of_Z (Z.of_nat n).

End PyStr.

(** Python's slice [x[:k]] on a sequence: a negative bound counts from the
    end. *)
Definition slice_to {A} (k : Z) (l : list A) : list A :=
  if 0 <=? k then take (Z.to_nat k) l
  else take (Z.to_nat (Z.of_nat (length l) + k)) l.


(** ** Python values and exceptions *)

(** The values [json.loads] and [Response.json] produce, without floats:
    JSON numbers are integers here.  A [PDict] lists the items of the dict in
    insertion order, with distinct keys. *)
Inductive pyval :=
| PNone
| PBool (b : bool)
| PInt (z : Z)
| PStr (s : str)
| PList (l : list pyval)
| PDict (kv : list (str * pyval)).

(** The exceptions (subclasses of [Exception]) the pipeline can meet: the
    four the interpreter raises on the operations below, the one
    [raise_for_status] raises, and those raised inside a library call
    (requests, json, anthropic, smtplib, open). *)
Inductive exn :=
| AttributeError
| TypeError
| KeyError
| IndexError
| HTTPError (status : Z)
| LibraryError (cls msg : str).

Inductive result (A : Type) :=
| Ok (a : A)
| Raise (e : exn).
Arguments Ok {A} a.
Arguments Raise {A} e.

Definition rbind {A B} (c : result A) (k : A -> result B) : result B :=
  match c with
  | Ok a => k a
  | Raise e => Raise e
  end.

Notation "'let?' x ':=' c 'in' k" := (rbind c (fun x => k))
  (at level 10, x name, c at level 100, k at level 200).

Fixpoint rmap {A B} (f : A -> result B) (l : list A) : result (list B) :=
  match l with
  | [] => Ok []
  | a :: l' => let? b := f a in let? bs := rmap f l' in Ok (b :: bs)
  end.

Fixpoint rfold {A S} (f : S -> A -> result S) (s : S) (l : list A) : result S :=
  match l with
  | [] => Ok s
  | a :: l' => let? s' := f s a in rfold f s' l'
  end.

(** What the Python runtime and the json module compute and this file leaves
    abstract: the JSON parser, [repr] of a list or dict, [<] between two
    lists, and [str] of an exception. *)
Record runtime := {
  json_loads : str -> result pyval;
  repr_container : pyval -> str;
  list_lt : list pyval -> list pyval -> result bool;
  exn_str : exn -> str;
}.

Module Py.

(** Truth value of [v], as [if v], [not v] and [v or w] test it. *)
Definition truthy (v : pyval) : bool :=
  match v with
  | PNone => false
  | PBool b => b
  | PInt z => negb (z =? 0)
  | PStr s => match s with [] => false | _ => true end
  | PList l => match l with [] => false | _ => true end
  | PDict kv => match kv with [] => false | _ => true end
  end.

(** [v or w], both operands already evaluated. *)
Definition or (v w : pyval) : pyval := if truthy v then v else w.

Fixpoint dict_lookup (k : str) (kv : list (str * pyval)) : option pyval :=
  match kv with
  | [] => None
  | (k', v) :: kv' => if bool_decide (k' = k) then Some v else dict_lookup k kv'
  end.

(** [d.get(k, default)]: only a dict has the method. *)
Definition get (d : pyval) (k : str) (dflt : pyval) : result pyval :=
  match d with
  | PDict kv => Ok (match dict_lookup k kv with Some v => v | None => dflt end)
  | _ => Raise AttributeError
  end.

(** [d[k]] for a string key [k]: a dict looks the key up; a list or a str
    wants an integer index; the other values are not subscriptable. *)
Definition getitem (d : pyval) (k : str) : result pyval :=
  match d with
  | PDict kv =>
      match dict_lookup k kv with
      | Some v => Ok v
      | None => Raise KeyError
      end
  | _ => Raise TypeError
  end.

(** The integer a bool or int stands for in arithmetic and comparisons. *)
Definition as_int (v : pyval) : option Z :=
  match v with
  | PInt z => Some z
  | PBool b => Some (if b then 1 else 0)
  | _ => None
  end.

(** [v + w] *)
Definition add (v w : pyval) : result pyval :=
  match v, w with
  | PStr a, PStr b => Ok (PStr (a ++ b))
  | PList a, PList b => Ok (PList (a ++ b))
  | _, _ =>
      match as_int v, as_int w with
      | Some a, Some b => Ok (PInt (a + b))
      | _, _ => Raise TypeError
      end
  end.

(** [v - w] *)
Definition sub (v w : pyval) : result pyval :=
  match as_int v, as_int w with
  | Some a, Some b => Ok (PInt (a - b))
  | _, _ => Raise TypeError
  end.

(** [v[:k]]: a str or a list is sliced, nothing else can be (a dict
    answers with TypeError up to CPython 3.11, where a slice is not
    hashable). *)
Definition slice (v : pyval) (k : Z) : result pyval :=
  match v with
  | PStr s => Ok (PStr (slice_to k s))
  | PList l => Ok (PList (slice_to k l))
  | _ => Raise TypeError
  end.

(** The items [for x in v] visits. *)
Definition iter (v : pyval) : result (list pyval) :=
  match v with
  | PList l => Ok l
  | PStr s => Ok ((fun c => PStr [c]) <$> s)
  | PDict kv => Ok ((fun p => PStr p.1) <$> kv)
  | _ => Raise TypeError
  end.

(** [l[k]] on a Python list: a negative index counts from the end, an
    index outside [-len, len) raises IndexError. *)
Definition list_getitem {A} (l : list A) (k : Z) : result A :=
  let n := Z.of_nat (length l) in
  let i := if k <? 0 then k + n else k in
  if (i <? 0) || (n <=? i) then Raise IndexError
  else
    match l !! Z.to_nat i with
    | Some a => Ok a
    | None => Raise IndexError
    end.

(** [l[v]] where the index is a Python value. *)
Definition list_getitem_val {A} (l : list A) (v : pyval) : result A :=
  match as_int v with
  | Some k => list_getitem l k
  | None => Raise TypeError
  end.

(** [s < t] on strings: lexicographic on code points. *)
Fixpoint str_lt (s t : str) : bool :=
  match s, t with
  | _, [] => false
  | [], _ :: _ => true
  | a :: s', b :: t' => (a <? b)%N || ((a =? b)%N && str_lt s' t')
  end.

(** [v < w] *)
Definition lt (rt : runtime) (v w : pyval) : result bool :=
  match v, w with
  | PStr a, PStr b => Ok (str_lt a b)
  | PList a, PList b => list_lt rt a b
  | _, _ =>
      match as_int v, as_int w with
      | Some a, Some b => Ok (a <? b)
      | _, _ => Raise TypeError
      end
  end.

(** [str(v)], which is also what an f-string field [{v}] inserts. *)
Definition format (rt : runtime) (v : pyval) : str :=
  match v with
  | PNone => u"None"
  | PBool true => u"True"
  | PBool false => u"False"
  | PInt z => PyStr.of_Z z
  | PStr s => s
  | PList _ | PDict _ => repr_container rt v
  end.

(** What a set stores for a hashable value: [True == 1] and [False == 0]
    are one key each with the integer. *)
Inductive hkey :=
| KNone
| KInt (z : Z)
| KStr (s : str).

(** [hash(v)]: lists and dicts are unhashable. *)
Definition hash_key (v : pyval) : result hkey :=
  match v with
  | PNone => Ok KNone
  | PBool b => Ok (KInt (if b then 1 else 0))
  | PInt z => Ok (KInt z)
  | PStr s => Ok (KStr s)
  | PList _ | PDict _ => Raise TypeError
  end.

#[global] Instance hkey_eq_dec : EqDecision hkey.
Proof. solve_decision. Defined.

Definition hkey_encode (k : hkey) : unit + (Z + str) :=
  match k with
  | KNone => inl tt
  | KInt z => inr (inl z)
  | KStr s => inr (inr s)
  end.

Definition hkey_decode (x : unit + (Z + str)) : hkey :=
  match x with
  | inl _ => KNone
  | inr (inl z) => KInt z
  | inr (inr s) => KStr s
  end.

#[global] Instance hkey_countable : Countable hkey.
Proof.
  apply (inj_countable' hkey_encode hkey_decode).
  intros []; reflexivity.
Defined.

(** [sorted(l, key=..., reverse=True)] on the list of (key, item) pairs:
    CPython reverses the list, sorts it stably in ascending order with
    [<] alone, and reverses the result.  The ascending sort is modelled by
    straight insertion; on keys that [<] orders totally (integers, or
    strings) every stable sort returns the same list. *)
Fixpoint insert_by {A} (lt : A -> A -> result bool) (x : A) (ys : list A)
  : result (list A) :=
  match ys with
  | [] => Ok [x]
  | y :: ys' =>
      let? b := lt y x in
      if b then (let? r := insert_by lt x ys' in Ok (y :: r))
      else Ok (x :: ys)
  end.

Fixpoint sort_by {A} (lt : A -> A -> result bool) (l : list A)
  : result (list A) :=
  match l with
  | [] => Ok []
  | x :: xs => let? s := sort_by lt xs in insert_by lt x s
  end.

Definition sorted_reverse (rt : runtime) (key : pyval -> result pyval)
    (l : list pyval) : result (list pyval) :=
  let? keyed := rmap (fun x => let? k := key x in Ok (k, x)) l in
  let? s := sort_by (fun a b => lt rt a.1 b.1) (reverse keyed) in
  Ok (snd <$> reverse s).

End Py.

Arguments Lit.lit : simpl never.

(** ** The environment of a run *)

Inductive level := INFO | WARNING | ERROR.

(** [requests.get(url, headers=..., params=..., timeout=...)] *)
Record http_request := {
  req_url : str;
  req_headers : list (str * option str);
  req_params : list (str * str);
  req_timeout : Z;
}.

(** A response object: its status and what its [json()] method does. *)
Record response := {
  status_code : Z;
  json_body : result pyval;
}.

Inductive http_outcome :=
| HttpRaise (e : exn)
| HttpReturn (r : response).

(** [client.messages.create(model=..., max_tokens=..., messages=[one user
    message])] *)
Record model_request := {
  mr_model : str;
  mr_max_tokens : Z;
  mr_prompt : str;
}.

(** A block of [msg.content]: only a text block has the attribute [text]. *)
Inductive content_block :=
| TextBlock (text : str)
| OtherBlock.

Inductive model_outcome :=
| ModelRaise (e : exn)
| ModelMessage (content : list content_block).

(** The MIME message [send_email] builds. *)
Record mail := {
  mail_subject : str;
  mail_from : option str;
  mail_to : option str;
  mail_html : str;
}.

Inductive smtp_step :=
| SmtpConnect (host : str) (port : Z)
| SmtpStartTls
| SmtpLogin (user password : option str)
| SmtpSendmail (sender rcpt : option str) (msg : mail)
| SmtpQuit.

(** The calls that leave the process. *)
Inductive event :=
| EvLog (lvl : level) (msg : str)
| EvReadFile (path : str)
| EvHttpGet (req : http_request)
| EvSleep (secs : Z)
| EvModel (req : model_request)
| EvNow (fmt : str)
| EvSmtp (step : smtp_step).

(** The module globals of agent.py after a successful import: [os.getenv]
    without a default gives [None] for an unset variable. *)
Record config := {
  ANTHROPIC_API_KEY : option str;
  RAPIDAPI_KEY : option str;
  SMTP_HOST : str;
  SMTP_PORT : Z;
  SMTP_USER : option str;
  SMTP_PASSWORD : option str;
  FROM_EMAIL : option str;
  TO_EMAIL : option str;
  CV_PATH : str;
  PREFERENCES_PATH : str;
}.

(** The world: how the environment answers the n-th call of each kind, and
    the calls performed so far, oldest first. *)
Record world := {
  http : nat -> http_request -> http_outcome;
  model : nat -> model_request -> model_outcome;
  clock : nat -> str -> str;
  files : nat -> str -> result str;
  smtp : nat -> smtp_step -> option exn;
  trace : list event;
}.

Definition is_http (e : event) : bool :=
  match e with EvHttpGet _ => true | _ => false end.
Definition is_model (e : event) : bool :=
  match e with EvModel _ => true | _ => false end.
Definition is_now (e : event) : bool :=
  match e with EvNow _ => true | _ => false end.
Definition is_read (e : event) : bool :=
  match e with EvReadFile _ => true | _ => false end.
Definition is_smtp (e : event) : bool :=
  match e with EvSmtp _ => true | _ => false end.

Fixpoint count (p : event -> bool) (t : list event) : nat :=
  match t with
  | [] => O
  | e :: t' => if p e then S (count p t') else count p t'
  end.

(** The world after one more call. *)
Definition record (e : event) (w : world) : world :=
  {| http := http w; model := model w; clock := clock w; files := files w;
     smtp := smtp w; trace := trace w ++ [e] |}.

(** ** The monad of the pipeline: state over the world, with exceptions *)

Definition M (A : Type) : Type := world -> result A * world.

Definition ret {A} (a : A) : M A := fun w => (Ok a, w).

Definition bind {A B} (c : M A) (k : A -> M B) : M B :=
  fun w =>
    match c w with
    | (Ok a, w') => k a w'
    | (Raise e, w') => (Raise e, w')
    end.

Notation "'let*' x ':=' c 'in' k" := (bind c (fun x => k))
  (at level 10, x name, c at level 100, k at level 200).

(** A computation that does not touch the world. *)
Definition lift {A} (r : result A) : M A := fun w => (r, w).

(** [try: body  except Exception as e: handler(e)] *)
Definition try_except {A} (body : M A) (handler : exn -> M A) : M A :=
  fun w =>
    match body w with
    | (Ok a, w') => (Ok a, w')
    | (Raise e, w') => handler e w'
    end.

(** [with ... : body], the exit [close] runs whatever [body] does. *)
Definition finally {A} (body : M A) (close : M unit) : M A :=
  fun w =>
    match body w with
    | (r, w') =>
        match close w' with
        | (Ok _, w'') => (r, w'')
        | (Raise e, w'') => (Raise e, w'')
        end
    end.

Definition log (lvl : level) (msg : str) : M unit :=
  fun w => (Ok tt, record (EvLog lvl msg) w).

Definition requests_get (req : http_request) : M response :=
  fun w =>
    match http w (count is_http (trace w)) req with
    | HttpRaise e => (Raise e, record (EvHttpGet req) w)
    | HttpReturn r => (Ok r, record (EvHttpGet req) w)
    end.

(** [r.raise_for_status()] *)
Definition raise_for_status (r : response) : result unit :=
  if (400 <=? status_code r) && (status_code r <? 600)
  then Raise (HTTPError (status_code r))
  else Ok tt.

Definition messages_create (req : model_request) : M (list content_block) :=
  fun w =>
    match model w (count is_model (trace w)) req with
    | ModelRaise e => (Raise e, record (EvModel req) w)
    | ModelMessage c => (Ok c, record (EvModel req) w)
    end.

(** [datetime.now().strftime(fmt)] *)
Definition now_strftime (fmt : str) : M str :=
  fun w => (Ok (clock w (count is_now (trace w)) fmt), record (EvNow fmt) w).

Definition sleep (secs : Z) : M unit :=
  fun w => (Ok tt, record (EvSleep secs) w).

Definition smtp_do (step : smtp_step) : M unit :=
  fun w =>
    match smtp w (count is_smtp (trace w)) step with
    | Some e => (Raise e, record (EvSmtp step) w)
    | None => (Ok tt, record (EvSmtp step) w)
    end.

(** [msg.content[0].text] *)
Definition first_text (content : list content_block) : result str :=
  match content with
  | [] => Raise IndexError
  | TextBlock t :: _ => Ok t
  | OtherBlock :: _ => Raise AttributeError
  end.

(** The canonical listing [parse_jobs] builds, a dict with six fixed keys. *)
Record listing := {
  j_title : pyval;
  j_company : pyval;
  j_location : pyval;
  j_url : pyval;
  j_description : pyval;
  j_posted : pyval;
}.

(** An entry of the list [select_top_jobs] returns, a dict with the keys
    job, score and reason. *)
Record ranked := {
  e_job : listing;
  e_score : pyval;
  e_reason : pyval;
}.

(** ** agent.py *)

Section Agent.

Context (rt : runtime) (cfg : config).

(** [str] of a module global read with [os.getenv]. *)
Definition format_opt (o : option str) : str :=
  match o with
  | Some s => s
  | None => u"None"
  end.

(** [load_file]: [open(path).read()] *)
Definition load_file (path : str) : M str :=
  fun w => (files w (count is_read (trace w)) path, record (EvReadFile path) w).

(** The request of one date-filter tier of [fetch_linkedin_jobs]. *)
Definition search_request (keywords location date_posted : str) : http_request :=
  {| req_url := u"https://jsearch.p.rapidapi.com/search";
     req_headers :=
       [ (u"X-RapidAPI-Key", RAPIDAPI_KEY cfg);
         (u"X-RapidAPI-Host", Some u"jsearch.p.rapidapi.com") ];
     req_params :=
       [ (u"query", keywords
  ++ u" jobs");
         (u"page", u"1");
         (u"num_pages", u"2");
         (u"date_posted", date_posted);
         (u"employment_types", u"FULLTIME,PARTTIME,CONTRACTOR");
         (u"location", location);
         (u"radius", u"100") ];
     req_timeout := 40 |}.

(** One turn of the loop of [fetch_linkedin_jobs]: [Some v] when the turn
    ends in [return v], [None] when the loop goes on to the next tier. *)
Definition fetch_tier (keywords location : str) (limit : Z) (date_posted : str)
  : M (option pyval) :=
  try_except
    (let* r := requests_get (search_request keywords location date_posted) in
     let* _ := lift (raise_for_status r) in
     let* data := lift (json_body r) in
     let* found := lift (Py.get data u"data" (PList [])) in
     let* jobs := lift (Py.slice found limit) in
     ret (if Py.truthy jobs then Some jobs else None))
    (fun e =>
     let* _ := log ERROR (u"Job fetch error: "
  ++ exn_str rt e) in
     ret (Some (PList []))).

Fixpoint fetch_tiers (keywords location : str) (limit : Z) (tiers : list str)
  : M pyval :=
  match tiers with
  | [] => ret (PList [])
  | date_posted :: rest =>
      let* r := fetch_tier keywords location limit date_posted in
      match r with
      | Some jobs => ret jobs
      | None => fetch_tiers keywords location limit rest
      end
  end.

Definition fetch_linkedin_jobs (keywords location : str) (limit : Z) : M pyval :=
  fetch_tiers keywords location limit [ u"3days"; u"week" ].

(** The dict [parse_jobs] appends for one raw record [j]. *)
Definition parse_job (j : pyval) : result listing :=
  let? title := Py.get j u"job_title" PNone in
  let? company := Py.get j u"employer_name" PNone in
  let? city := Py.get j u"job_city" PNone in
  let? left := Py.add (Py.or city (PStr [])) (PStr u", ") in
  let? country := Py.get j u"job_country" PNone in
  let? location := Py.add left (Py.or country (PStr [])) in
  let? apply_link := Py.get j u"job_apply_link" PNone in
  let? url :=
    (if Py.truthy apply_link then Ok apply_link
     else
       let? google_link := Py.get j u"job_google_link" PNone in
       Ok (Py.or google_link (PStr []))) in
  let? description := Py.get j u"job_description" PNone in
  let? description := Py.slice (Py.or description (PStr [])) 3000 in
  let? posted := Py.get j u"job_posted_at_datetime_utc" PNone in
  Ok {| j_title := Py.or title (PStr u"Unknown");
        j_company := Py.or company (PStr u"Unknown");
        j_location := location;
        j_url := url;
        j_description := description;
        j_posted := Py.or posted (PStr []) |}.

Definition parse_jobs (raw_jobs : list pyval) : result (list listing) :=
  rmap parse_job raw_jobs.

(** Lines 118-121 and 173-176: the text between the first two code fences,
    without a leading language tag, when the text starts with a fence. *)
Definition strip_fences (text : str) : result str :=
  if PyStr.startswith text u"```" then
    let? text := Py.list_getitem (PyStr.split text u"```") 1 in
    if PyStr.startswith text u"json" then Ok (drop 4 text) else Ok text
  else Ok text.

(** The prompt of [select_top_jobs]. *)
Definition job_entry (i : nat) (j : listing) : str :=
  u"[JOB "
  ++ PyStr.of_nat (S i)
  ++ u"]
Title: "
  ++ Py.format rt (j_title j)
  ++ u"
Company: "
  ++ Py.format rt (j_company j)
  ++ u"
Location: "
  ++ Py.format rt (j_location j)
  ++ u"
URL: "
  ++ Py.format rt (j_url j)
  ++ u"
Description: "
  ++ Py.format rt (j_description j).

Definition ranking_prompt (jobs : list listing) (cv preferences : str) : str :=
  let job_list := PyStr.join u"

" (imap job_entry jobs) in
  u"You are a career advisor. Based on the CV and job preferences below,
select and rank the TOP 10 most relevant jobs from the list.
Return ONLY a JSON array of objects with keys: index (1-based from the list), score (0-100), reason (1 sentence).

CV:
"
  ++ cv
  ++ u"

PREFERENCES:
"
  ++ preferences
  ++ u"

JOBS:
"
  ++ job_list
  ++ u"

Return ONLY valid JSON, no other text.".

Definition ranking_request (jobs : list listing) (cv preferences : str)
  : model_request :=
  {| mr_model := u"claude-sonnet-4-6";
     mr_max_tokens := 1000;
     mr_prompt := ranking_prompt jobs cv preferences |}.

(** Line 124, for one entry [r] of [top]. *)
Definition rank_entry (jobs : list listing) (r : pyval) : result ranked :=
  let? index := Py.getitem r u"index" in
  let? k := Py.sub index (PInt 1) in
  let? job := Py.list_getitem_val jobs k in
  let? score := Py.getitem r u"score" in
  let? reason := Py.getitem r u"reason" in
  Ok {| e_job := job; e_score := score; e_reason := reason |}.

(** Lines 123-124: from the parsed rankings to the returned list. *)
Definition top_of_rankings (jobs : list listing) (rankings : pyval)
  : result (list ranked) :=
  let? items := Py.iter rankings in
  let? sorted := Py.sorted_reverse rt (fun x => Py.getitem x u"score") items in
  let top := take 10 sorted in
  rmap (rank_entry jobs) top.

Definition select_top_jobs (jobs : list listing) (cv preferences : str)
  : M (list ranked) :=
  match jobs with
  | [] => ret []
  | _ :: _ =>
      let* content := messages_create (ranking_request jobs cv preferences) in
      let* text := lift (first_text content) in
      let text := PyStr.strip text in
      let* text := lift (strip_fences text) in
      let* rankings := lift (json_loads rt text) in
      lift (top_of_rankings jobs rankings)
  end.

Definition tailor_prompt (cv : str) (job : listing) : str :=
  u"You are an expert CV writer. Rewrite the candidate's CV to better match the job description below.
Keep the same structure but:
- Reorder and emphasise relevant experience and skills
- Use keywords from the job description naturally
- Keep it truthful — do not invent experience
- Output clean plain text, ready to copy-paste

JOB TITLE: "
  ++ Py.format rt (j_title job)
  ++ u" at "
  ++ Py.format rt (j_company job)
  ++ u"
JOB DESCRIPTION:
"
  ++ Py.format rt (j_description job)
  ++ u"

ORIGINAL CV:
"
  ++ cv
  ++ u"

Output the tailored CV only.".

Definition tailor_request (cv : str) (job : listing) : model_request :=
  {| mr_model := u"claude-sonnet-4-6";
     mr_max_tokens := 1500;
     mr_prompt := tailor_prompt cv job |}.

Definition tailor_cv (cv : str) (job : listing) : M str :=
  let* content := messages_create (tailor_request cv job) in
  let* text := lift (first_text content) in
  ret (PyStr.strip text).

Definition contacts_prompt (job : listing) (preferences : str) : str :=
  u"For the job below, suggest 2 types of LinkedIn profiles the candidate should message
to get a referral or warm intro. For each, provide:
- profile_type: their likely job title
- why: 1 sentence on why they're valuable to contact
- search_tip: a LinkedIn search query to find them
- message_template: a 2-sentence outreach message template

JOB: "
  ++ Py.format rt (j_title job)
  ++ u" at "
  ++ Py.format rt (j_company job)
  ++ u" ("
  ++ Py.format rt (j_location job)
  ++ u")
CANDIDATE PREFERENCES: "
  ++ preferences
  ++ u"

Return ONLY valid JSON array with 2 objects.".

Definition contacts_request (job : listing) (preferences : str) : model_request :=
  {| mr_model := u"claude-sonnet-4-6";
     mr_max_tokens := 600;
     mr_prompt := contacts_prompt job preferences |}.

Definition suggest_contacts (job : listing) (preferences : str) : M pyval :=
  let* content := messages_create (contacts_request job preferences) in
  let* text := lift (first_text content) in
  let text := PyStr.strip text in
  let* text := lift (strip_fences text) in
  lift (json_loads rt text).

(** The text of the f-string of lines 194-200 around its four fields. *)
Definition contact_open : str :=
  u"
            <div style=~background:#f0f7ff;border-left:3px solid #0077b5;padding:10px;margin:8px 0;border-radius:4px;~>
              <strong>🔗 ".
Definition contact_why : str :=
  u"</strong><br>
              <em>Why:</em> ".
Definition contact_find : str :=
  u"<br>
              <em>Find them:</em> LinkedIn search → <code>".
Definition contact_message : str :=
  u"</code><br>
              <em>Message:</em> ~".
Definition contact_close : str :=
  u"~
            </div>".

(** What one turn of the loop over [contacts] adds to [contact_html], with
    the four fields of [c] already looked up. *)
Definition contact_div (profile_type why search_tip message_template : pyval) : str :=
  contact_open ++ Py.format rt profile_type
  ++ contact_why ++ Py.format rt why
  ++ contact_find ++ Py.format rt search_tip
  ++ contact_message ++ Py.format rt message_template
  ++ contact_close.

Definition contact_block (c : pyval) : result str :=
  let? profile_type := Py.getitem c u"profile_type" in
  let? why := Py.getitem c u"why" in
  let? search_tip := Py.getitem c u"search_tip" in
  let? message_template := Py.getitem c u"message_template" in
  Ok (contact_div profile_type why search_tip message_template).

(** Lines 192-200. *)
Definition render_contacts (contacts : pyval) : result str :=
  let? cs := Py.iter contacts in
  let? blocks := rmap contact_block cs in
  Ok (concat blocks).

(** Line 202. *)
Definition escape_cv (tailored : str) : str :=
  PyStr.replace
    (PyStr.replace (PyStr.replace tailored u"<" u"&lt;") u">" u"&gt;")
    u"
" u"<br>".

(** The f-string of lines 203-226 in three parts: up to the tailored CV,
    between the CV and the contacts, and after the contacts. *)
Definition section_open (i : nat) (entry : ranked) : str :=
  let job := e_job entry in
  u"
        <div style=~border:1px solid #ddd;border-radius:8px;padding:20px;margin:20px 0;font-family:Arial,sans-serif;~>
          <div style=~display:flex;justify-content:space-between;align-items:center;~>
            <h2 style=~color:#0077b5;margin:0~>#"
  ++ PyStr.of_nat i
  ++ u" "
  ++ Py.format rt (j_title job)
  ++ u"</h2>
            <span style=~background:#0077b5;color:#fff;border-radius:20px;padding:4px 12px;font-size:12px;~>
              Match: "
  ++ Py.format rt (e_score entry)
  ++ u"/100
            </span>
          </div>
          <p style=~margin:4px 0;color:#555;font-size:14px;~>🏢 "
  ++ Py.format rt (j_company job)
  ++ u" &nbsp;|&nbsp; 📍 "
  ++ Py.format rt (j_location job)
  ++ u"</p>
          <p style=~color:#333;font-size:13px;margin:6px 0~>"
  ++ Py.format rt (e_reason entry)
  ++ u"</p>
          <a href=~"
  ++ Py.format rt (j_url job)
  ++ u"~ style=~display:inline-block;background:#0077b5;color:#fff;padding:8px 18px;
             border-radius:5px;text-decoration:none;font-size:14px;margin:8px 0;~>Apply on LinkedIn →</a>

          <details style=~margin-top:16px;~>
            <summary style=~cursor:pointer;font-weight:bold;color:#333;~>📄 Tailored CV for this role</summary>
            <div style=~background:#f9f9f9;padding:14px;border-radius:6px;margin-top:8px;
                        font-size:13px;line-height:1.6;white-space:pre-wrap;~>".
Definition section_cv_close : str :=
  u"</div>
          </details>

          <div style=~margin-top:16px;~>
            <strong>👥 Who to contact on LinkedIn</strong>
            ".
Definition section_close : str :=
  u"
          </div>
        </div>".

(** Lines 203-226: the block of job number [i]. *)
Definition section_html (i : nat) (entry : ranked) (cv_escaped contact_html : str)
  : str :=
  section_open i entry ++ cv_escaped ++ section_cv_close ++ contact_html
  ++ section_close.

(** The f-string of lines 228-242 before and after the sections. *)
Definition body_open (today : str) (n : nat) : str :=
  u"
<!DOCTYPE html>
<html>
<head><meta charset=~utf-8~></head>
<body style=~font-family:Arial,sans-serif;max-width:800px;margin:auto;padding:20px;color:#222;~>
  <h1 style=~color:#0077b5~>🔍 Daily Job Digest — "
  ++ today
  ++ u"</h1>
  <p>Here are the <strong>top "
  ++ PyStr.of_nat n
  ++ u" jobs</strong> posted in the last few days, tailored just for you.
  Click any ~Tailored CV~ to expand it.</p>
  ".
Definition body_close : str :=
  u"
  <hr style=~margin-top:40px~>
  <p style=~color:#999;font-size:12px;text-align:center~>
    Powered by your personal Job Agent 🤖 &nbsp;|&nbsp; Good luck today! 💪
  </p>
</body>
</html>".

(** Lines 228-242: the document around the blocks. *)
Definition body_html (today : str) (n : nat) (sections : list str) : str :=
  body_open today n ++ concat sections ++ body_close.

(** The two messages [build_email] logs for job number [i] of [n]. *)
Definition tailoring_log (n i : nat) (job : listing) : str :=
  u"Tailoring CV for job "
  ++ PyStr.of_nat i
  ++ u"/"
  ++ PyStr.of_nat n
  ++ u": "
  ++ Py.format rt (j_title job)
  ++ u" @ "
  ++ Py.format rt (j_company job).

Definition contacts_log (n i : nat) : str :=
  u"Getting contacts for job "
  ++ PyStr.of_nat i
  ++ u"/"
  ++ PyStr.of_nat n.

(** The loop of [build_email] from entry number [i] on, [n] being
    [len(top_jobs)]; it returns the sections appended. *)
Fixpoint build_sections (cv preferences : str) (n i : nat) (entries : list ranked)
  : M (list str) :=
  match entries with
  | [] => ret []
  | entry :: rest =>
      let job := e_job entry in
      let* _ := log INFO (tailoring_log n i job) in
      let* tailored := tailor_cv cv job in
      let* _ := log INFO (contacts_log n i) in
      let* contacts := suggest_contacts job preferences in
      let* contact_html := lift (render_contacts contacts) in
      let cv_escaped := escape_cv tailored in
      let* more := build_sections cv preferences n (S i) rest in
      ret (section_html i entry cv_escaped contact_html :: more)
  end.

Definition build_email (top_jobs : list ranked) (cv preferences : str) : M str :=
  let* today := now_strftime u"%A, %B %d %Y" in
  let* sections := build_sections cv preferences (length top_jobs) 1 top_jobs in
  ret (body_html today (length top_jobs) sections).

(** Line 253: the constructor [MIMEText] encodes the body, as ASCII when
    it can and as UTF-8 otherwise (CPython 3.11: [set_payload] encodes
    with the strict error handler).  A surrogate code point, which a str
    that [json.loads] returns can hold, has no UTF-8 encoding: the
    constructor raises UnicodeEncodeError, with the reason kept here as
    its message.  The headers raise nothing: they are stored as given, and
    serialised (by [as_string], line 258) in an encoded word when they are
    not ASCII. *)
Definition is_surrogate (c : char) : bool := ((55296 <=? c) && (c <=? 57343))%N.

Definition has_surrogate (s : str) : bool := existsb is_surrogate s.

Definition mime_text (html_body : str) : result unit :=
  if has_surrogate html_body
  then Raise (LibraryError u"UnicodeEncodeError" u"surrogates not allowed")
  else Ok tt.

(** [send_email]: the message is built before the connection is made; the
    step [SmtpSendmail] is line 258 as a whole, the message serialised and
    handed to the server; the [with] block ends in a QUIT whatever its
    body did, and what the QUIT raises (a reply other than 221) replaces
    what the body raised.  A connection that fails raises out of the
    constructor, before the block is entered: no QUIT follows. *)
Definition send_email (html_body : str) : M unit :=
  let* today := now_strftime u"%B %d" in
  let* _ := lift (mime_text html_body) in
  let msg := {| mail_subject := u"🔍 Your Top Jobs Today — "
  ++ today;
                mail_from := FROM_EMAIL cfg;
                mail_to := TO_EMAIL cfg;
                mail_html := html_body |} in
  let* _ := smtp_do (SmtpConnect (SMTP_HOST cfg) (SMTP_PORT cfg)) in
  let* _ :=
    finally
      (let* _ := smtp_do SmtpStartTls in
       let* _ := smtp_do (SmtpLogin (SMTP_USER cfg) (SMTP_PASSWORD cfg)) in
       smtp_do (SmtpSendmail (FROM_EMAIL cfg) (TO_EMAIL cfg) msg))
      (smtp_do SmtpQuit) in
  log INFO (u"Email sent to "
  ++ format_opt (TO_EMAIL cfg)).

Definition searches : list (str * str) :=
  [ (u"HR People Operations Marketing", u"Milan Italy");
    (u"Talent Acquisition Content", u"Milan Italy");
    (u"HR Marketing remote", u"Europe") ].

(** Line 280: the identity key of a raw record. *)
Definition identity_key (job : pyval) : result pyval :=
  let? id := Py.get job u"job_id" PNone in
  if Py.truthy id then Ok id else Py.get job u"job_apply_link" (PStr []).

(** Lines 280-283: one turn of the inner loop of [run], on the state
    [(seen_ids, all_raw)]. *)
Definition dedupe_step (st : gset Py.hkey * list pyval) (job : pyval)
  : result (gset Py.hkey * list pyval) :=
  let? job_id := identity_key job in
  let? k := Py.hash_key job_id in
  if decide (k ∈ st.1) then Ok st else Ok ({[k]} ∪ st.1, st.2 ++ [job]).

(** Lines 276-284: the loop over the searches. *)
Fixpoint search_all (ss : list (str * str)) (st : gset Py.hkey * list pyval)
  : M (gset Py.hkey * list pyval) :=
  match ss with
  | [] => ret st
  | (keywords, location) :: rest =>
      let* _ := log INFO (u"Searching: '"
  ++ keywords
  ++ u"' in '"
  ++ location
  ++ u"'") in
      let* results := fetch_linkedin_jobs keywords location 15 in
      let* items := lift (Py.iter results) in
      let* st' := lift (rfold dedupe_step st items) in
      let* _ := sleep 5 in
      search_all rest st'
  end.

Definition run : M unit :=
  let* _ := log INFO u"Job agent starting…" in
  let* cv := load_file (CV_PATH cfg) in
  let* preferences := load_file (PREFERENCES_PATH cfg) in
  let* st := search_all searches (∅, []) in
  let all_raw := st.2 in
  let* _ := log INFO (u"Fetched "
  ++ PyStr.of_nat (length all_raw)
  ++ u" unique raw jobs across all searches") in
  let* jobs := lift (parse_jobs all_raw) in
  let* top_jobs := select_top_jobs jobs cv preferences in
  let* _ := log INFO (u"Selected "
  ++ PyStr.of_nat (length top_jobs)
  ++ u" top jobs") in
  match top_jobs with
  | [] => log WARNING u"No matching jobs found today. Skipping email."
  | _ :: _ =>
      let* html := build_email top_jobs cv preferences in
      let* _ := send_email html in
      log INFO u"Done ✅"
  end.

(** The part of [run] before the test of line 292, returning the [top_jobs]
    it has computed; [run] continues from there (lemma [run_after_ranking]). *)
Definition run_ranking : M (str * str * list ranked) :=
  let* _ := log INFO u"Job agent starting…" in
  let* cv := load_file (CV_PATH cfg) in
  let* preferences := load_file (PREFERENCES_PATH cfg) in
  let* st := search_all searches (∅, []) in
  let all_raw := st.2 in
  let* _ := log INFO (u"Fetched "
  ++ PyStr.of_nat (length all_raw)
  ++ u" unique raw jobs across all searches") in
  let* jobs := lift (parse_jobs all_raw) in
  let* top_jobs := select_top_jobs jobs cv preferences in
  let* _ := log INFO (u"Selected "
  ++ PyStr.of_nat (length top_jobs)
  ++ u" top jobs") in
  ret (cv, preferences, top_jobs).

(** Lines 286-298: what [run] does with [all_raw] once the loop over the
    searches has ended. *)
Definition run_from (cv preferences : str) (all_raw : list pyval) : M unit :=
  let* _ := log INFO (u"Fetched "
  ++ PyStr.of_nat (length all_raw)
  ++ u" unique raw jobs across all searches") in
  let* jobs := lift (parse_jobs all_raw) in
  let* top_jobs := select_top_jobs jobs cv preferences in
  let* _ := log INFO (u"Selected "
  ++ PyStr.of_nat (length top_jobs)
  ++ u" top jobs") in
  match top_jobs with
  | [] => log WARNING u"No matching jobs found today. Skipping email."
  | _ :: _ =>
      let* html := build_email top_jobs cv preferences in
      let* _ := send_email html in
      log INFO u"Done ✅"
  end.

End Agent.

(** ** Vocabulary of the statements *)

(** The keys [parse_jobs] reads. *)
Definition optional_keys : list str :=
  [ u"job_title"; u"employer_name"; u"job_city"; u"job_country";
    u"job_apply_link"; u"job_google_link"; u"job_description";
    u"job_posted_at_datetime_utc" ].

Definition missing_all (kv : list (str * pyval)) : Prop :=
  Forall (fun k => Py.dict_lookup k kv = None) optional_keys.

(** The key under which the set [seen_ids] holds a raw record. *)
Definition raw_key (j : pyval) : result Py.hkey :=
  let? id := identity_key j in Py.hash_key id.

(** First-seen deduplication of a list of (key, record) pairs, [seen] being
    the keys met before. *)
Fixpoint first_seen {A} (seen : gset Py.hkey) (l : list (Py.hkey * A))
  : list (Py.hkey * A) :=
  match l with
  | [] => []
  | (k, a) :: l' =>
      if decide (k ∈ seen) then first_seen seen l'
      else (k, a) :: first_seen ({[k]} ∪ seen) l'
  end.

(** The ascending stable sort of [Py.sort_by] and the descending sort of
    [Py.sorted_reverse], on items whose key is the integer [key x]. *)
Fixpoint insert_asc {A} (key : A -> Z) (x : A) (ys : list A) : list A :=
  match ys with
  | [] => [x]
  | y :: ys' => if key y <? key x then y :: insert_asc key x ys' else x :: ys
  end.

Fixpoint sort_asc {A} (key : A -> Z) (l : list A) : list A :=
  match l with
  | [] => []
  | x :: xs => insert_asc key x (sort_asc key xs)
  end.

Definition sort_desc {A} (key : A -> Z) (l : list A) : list A :=
  reverse (sort_asc key (reverse l)).

(** The integer under key [k] of an entry of the rankings. *)
Definition int_field (k : str) (r : pyval) : option Z :=
  match Py.getitem r k with
  | Ok (PInt z) => Some z
  | _ => None
  end.

Definition score_of (r : pyval) : Z := default 0 (int_field u"score" r).
Definition index_of (r : pyval) : Z := default 0 (int_field u"index" r).

(** An entry as the prompt asks for it: an object with an integer index, an
    integer score and a reason. *)
Definition ranking_entry (r : pyval) : Prop :=
  is_Some (int_field u"index" r) /\ is_Some (int_field u"score" r)
  /\ exists v, Py.getitem r u"reason" = Ok v.

(** The entries [select_top_jobs] keeps: the first ten in descending order
    of score. *)
Definition kept (items : list pyval) : list pyval :=
  take 10 (sort_desc score_of items).

(** An entry of the result built from the entry [r] of the rankings. *)
Definition ranks (jobs : list listing) (r : pyval) (o : ranked) : Prop :=
  jobs !! Z.to_nat (index_of r - 1) = Some (e_job o)
  /\ e_score o = PInt (score_of r)
  /\ Py.getitem r u"reason" = Ok (e_reason o).

(** The model answers the request [req], the next one of the world [w],
    with a message whose text parses to [v] once stripped of white space and
    code fences. *)
Definition model_answers (rt : runtime) (w : world) (req : model_request)
    (v : pyval) : Prop :=
  exists content text text',
    model w (count is_model (trace w)) req = ModelMessage content
    /\ first_text content = Ok text
    /\ strip_fences (PyStr.strip text) = Ok text'
    /\ json_loads rt text' = Ok v.

(** What the body of the [try] of [fetch_linkedin_jobs] computes (lines
    60-63) when the environment answers the request with [o]: the batch, or
    the exception that reaches the [except] clause. *)
Definition tier_outcome (o : http_outcome) (limit : Z) : result pyval :=
  match o with
  | HttpRaise e => Raise e
  | HttpReturn r =>
      let? _ := raise_for_status r in
      let? data := json_body r in
      let? found := Py.get data u"data" (PList []) in
      Py.slice found limit
  end.

(** The world after the error of a tier has been logged (line 67). *)
Definition logged_fetch_error (rt : runtime) (e : exn) (w : world) : world :=
  record (EvLog ERROR (u"Job fetch error: " ++ exn_str rt e)) w.

(** The world after the calls [evs], in this order. *)
Definition records (evs : list event) (w : world) : world :=
  {| http := http w; model := model w; clock := clock w; files := files w;
     smtp := smtp w; trace := trace w ++ evs |}.

(** What line 202 does to one character of the tailored CV. *)
Definition esc_char (c : char) : str :=
  if (c =? 60)%N then u"&lt;"
  else if (c =? 62)%N then u"&gt;"
  else if (c =? 10)%N then u"<br>"
  else [c].

(** A tailored result: a ranked listing with the tailored CV and the
    contacts the model returned for it. *)
Record tailored_result := {
  t_entry : ranked;
  t_cv : str;
  t_contacts : pyval;
}.

(** The answers number [k] and [k+1] of the model [m] are the tailored CV
    and the contacts of [r]. *)
Definition answers_for (rt : runtime)
    (m : nat -> model_request -> model_outcome) (k : nat)
    (cv preferences : str) (r : tailored_result) : Prop :=
  (exists content text,
     m k (tailor_request rt cv (e_job (t_entry r))) = ModelMessage content
     /\ first_text content = Ok text
     /\ PyStr.strip text = t_cv r)
  /\ (exists content text text',
        m (S k) (contacts_request rt (e_job (t_entry r)) preferences)
          = ModelMessage content
        /\ first_text content = Ok text
        /\ strip_fences (PyStr.strip text) = Ok text'
        /\ json_loads rt text' = Ok (t_contacts r)).

Fixpoint tailored_from (rt : runtime)
    (m : nat -> model_request -> model_outcome) (k : nat)
    (cv preferences : str) (rs : list tailored_result) : Prop :=
  match rs with
  | [] => True
  | r :: rs' =>
      answers_for rt m k cv preferences r
      /\ tailored_from rt m (S (S k)) cv preferences rs'
  end.

(** The digest renderer of the specification: a function of the tailored
    results and the date, made of the parts of [build_email] that build
    strings. *)
Fixpoint render_sections (rt : runtime) (i : nat) (rs : list tailored_result)
  : result (list str) :=
  match rs with
  | [] => Ok []
  | r :: rs' =>
      let? contact_html := render_contacts rt (t_contacts r) in
      let? more := render_sections rt (S i) rs' in
      Ok (section_html rt i (t_entry r) (escape_cv (t_cv r)) contact_html :: more)
  end.

Definition render_digest (rt : runtime) (rs : list tailored_result) (today : str)
  : result str :=
  let? sections := render_sections rt 1 rs in
  Ok (body_html today (length rs) sections).

(** The calls of the loop of [build_email] from job number [i] on; the
    loop stops after the calls of the first job whose contacts fail to
    render. *)
Fixpoint tailoring_events (rt : runtime) (cv preferences : str) (n i : nat)
    (rs : list tailored_result) : list event :=
  match rs with
  | [] => []
  | r :: rs' =>
      let job := e_job (t_entry r) in
      EvLog INFO (tailoring_log rt n i job)
      :: EvModel (tailor_request rt cv job)
      :: EvLog INFO (contacts_log n i)
      :: EvModel (contacts_request rt job preferences)
      :: match render_contacts rt (t_contacts r) with
         | Ok _ => tailoring_events rt cv preferences n (S i) rs'
         | Raise _ => []
         end
  end.

(** [needle in s] *)
Fixpoint contains (s needle : str) : bool :=
  PyStr.startswith s needle
  || match s with
     | [] => false
     | _ :: s' => contains s' needle
     end.

(** The four fields of a contact suggestion, when they are strings. *)
Definition contact_fields (c : pyval) (f : str * str * str * str) : Prop :=
  let '(p, y, s, m) := f in
  Py.getitem c u"profile_type" = Ok (PStr p)
  /\ Py.getitem c u"why" = Ok (PStr y)
  /\ Py.getitem c u"search_tip" = Ok (PStr s)
  /\ Py.getitem c u"message_template" = Ok (PStr m).

(** The block of a contact with its four fields put in as they are. *)
Definition contact_verbatim (f : str * str * str * str) : str :=
  let '(p, y, s, m) := f in
  contact_open ++ p ++ contact_why ++ y ++ contact_find ++ s
  ++ contact_message ++ m ++ contact_close.

(** The block of job number [i] with the characters of the tailored CV
    escaped one by one and the contact html [ch]. *)
Definition section_escaped (rt : runtime) (i : nat) (r : tailored_result)
    (ch : str) : str :=
  section_open rt i (t_entry r) ++ (t_cv r ≫= esc_char) ++ section_cv_close
  ++ ch ++ section_close.

(** The date format of the heading of the digest. *)
Definition heading_format : str := u"%A, %B %d %Y".

(** A computation that performs no SMTP step: whatever the world, it only
    adds calls other than [EvSmtp] to the trace. *)
Definition no_smtp {A} (c : M A) : Prop :=
  forall w, exists evs, (c w).2 = records evs w /\ count is_smtp evs = 0%nat.

(** The warning of line 293. *)
Definition skip_warning : event :=
  EvLog WARNING u"No matching jobs found today. Skipping email.".

(** ** Sample data for the examples below *)

Definition sample_cfg : config :=
  {| ANTHROPIC_API_KEY := Some u"key-a";
     RAPIDAPI_KEY := Some u"key-r";
     SMTP_HOST := u"smtp.gmail.com";
     SMTP_PORT := 587;
     SMTP_USER := Some u"me@example.org";
     SMTP_PASSWORD := Some u"secret";
     FROM_EMAIL := Some u"me@example.org";
     TO_EMAIL := Some u"you@example.org";
     CV_PATH := u"cv.txt";
     PREFERENCES_PATH := u"preferences.txt" |}.

(** A raw record with a provider id and no other field. *)
Definition raw_only_id : pyval := PDict [ (u"job_id", PStr u"abc") ].

Definition job_a : listing :=
  {| j_title := PStr u"HR Manager";
     j_company := PStr u"Acme";
     j_location := PStr u"Milan, IT";
     j_url := PStr u"https://example.org/a";
     j_description := PStr u"People operations";
     j_posted := PStr u"2026-01-05" |}.

Definition job_b : listing :=
  {| j_title := PStr u"Recruiter";
     j_company := PStr u"Bolt";
     j_location := PStr u"Rome, IT";
     j_url := PStr u"https://example.org/b";
     j_description := PStr u"Talent acquisition";
     j_posted := PStr u"2026-01-04" |}.

(** An entry of a ranking array. *)
Definition entry (index score : Z) (reason : str) : pyval :=
  PDict [ (u"index", PInt index); (u"score", PInt score); (u"reason", PStr reason) ].

(** A contact suggestion. *)
Definition contact (profile_type why search_tip message_template : str) : pyval :=
  PDict [ (u"profile_type", PStr profile_type); (u"why", PStr why);
          (u"search_tip", PStr search_tip);
          (u"message_template", PStr message_template) ].

Definition text_two : str :=
  u"[{~index~: 2, ~score~: 70, ~reason~: ~ok~}, {~index~: 1, ~score~: 90, ~reason~: ~fit~}]".

Definition text_zero : str := u"[{~index~: 0, ~score~: 50, ~reason~: ~x~}]".

Definition text_far : str := u"[{~index~: 7, ~score~: 50, ~reason~: ~x~}]".

(** Eleven entries, the one with the lowest score pointing outside the
    list of jobs. *)
Definition text_eleven : str :=
  u"[{~index~: 99, ~score~: 1, ~reason~: ~k~}, {~index~: 1, ~score~: 20, ~reason~: ~a~}, {~index~: 1, ~score~: 19, ~reason~: ~b~}, {~index~: 1, ~score~: 18, ~reason~: ~c~}, {~index~: 1, ~score~: 17, ~reason~: ~d~}, {~index~: 1, ~score~: 16, ~reason~: ~e~}, {~index~: 1, ~score~: 15, ~reason~: ~f~}, {~index~: 1, ~score~: 14, ~reason~: ~g~}, {~index~: 1, ~score~: 13, ~reason~: ~h~}, {~index~: 1, ~score~: 12, ~reason~: ~i~}, {~index~: 1, ~score~: 11, ~reason~: ~j~}]".

Definition items_eleven : list pyval :=
  [ entry 99 1 u"k"; entry 1 20 u"a"; entry 1 19 u"b"; entry 1 18 u"c";
    entry 1 17 u"d"; entry 1 16 u"e"; entry 1 15 u"f"; entry 1 14 u"g";
    entry 1 13 u"h"; entry 1 12 u"i"; entry 1 11 u"j" ].

Definition text_contact : str :=
  u"[{~profile_type~: ~HR <b>Lead</b>~, ~why~: ~hires > 10~, ~search_tip~: ~Acme HR~, ~message_template~: ~Hi <name>~}]".

Definition contacts_markup : pyval :=
  PList [ contact u"HR <b>Lead</b>" u"hires > 10" u"Acme HR" u"Hi <name>" ].

(** A stand-in for [json.loads] that knows the texts above. *)
Definition sample_loads (text : str) : result pyval :=
  let t := PyStr.strip text in
  if bool_decide (t = u"[]") then Ok (PList [])
  else if bool_decide (t = text_two) then
    Ok (PList [ entry 2 70 u"ok"; entry 1 90 u"fit" ])
  else if bool_decide (t = text_zero) then Ok (PList [ entry 0 50 u"x" ])
  else if bool_decide (t = text_far) then Ok (PList [ entry 7 50 u"x" ])
  else if bool_decide (t = text_eleven) then Ok (PList items_eleven)
  else if bool_decide (t = text_contact) then Ok contacts_markup
  else Raise (LibraryError u"JSONDecodeError" u"Expecting value").

Definition sample_rt : runtime :=
  {| json_loads := sample_loads;
     repr_container := fun _ => u"[...]";
     list_lt := fun _ _ => Raise TypeError;
     exn_str := fun e =>
       match e with
       | LibraryError _ msg => msg
       | HTTPError s => PyStr.of_Z s ++ u" Error"
       | _ => u"error"
       end |}.

(** A world whose model gives the [answers] in turn, whose searches return
    the [batches] in turn (an empty object afterwards), and where nothing
    fails. *)
Definition sample_world (batches : list pyval) (answers : list str) : world :=
  {| http := fun n _ =>
       HttpReturn {| status_code := 200;
                     json_body := Ok (default (PDict []) (batches !! n)) |};
     model := fun n _ => ModelMessage [ TextBlock (default [] (answers !! n)) ];
     clock := fun _ fmt =>
       if bool_decide (fmt = u"%B %d") then u"January 05"
       else u"Monday, January 05 2026";
     files := fun _ path => Ok (u"contents of " ++ path);
     smtp := fun _ _ => None;
     trace := [] |}.

Definition fenced (text : str) : str :=
  u"```json
" ++ text ++ u"
```".

Definition w_two : world := sample_world [] [ fenced text_two ].
Definition w_zero : world := sample_world [] [ text_zero ].
Definition w_far : world := sample_world [] [ text_far ].
Definition w_eleven : world := sample_world [] [ text_eleven ].
Definition items_two : list pyval := [ entry 2 70 u"ok"; entry 1 90 u"fit" ].
Definition two_jobs : list listing := [ job_a; job_b ].
Definition req_two : model_request := ranking_request sample_rt two_jobs u"cv" u"prefs".

Definition raw_a : pyval :=
  PDict [ (u"job_id", PStr u"abc"); (u"job_title", PStr u"HR Manager") ].
Definition raw_b : pyval :=
  PDict [ (u"job_apply_link", PStr u"https://example.org/b") ].
Definition raw_a_again : pyval :=
  PDict [ (u"job_id", PStr u"abc"); (u"job_title", PStr u"HR Manager (repost)") ].
Definition three_raws : list pyval := [ raw_a; raw_b; raw_a_again ].
Definition three_keys : list Py.hkey :=
  [ Py.KStr u"abc"; Py.KStr u"https://example.org/b"; Py.KStr u"abc" ].

(** A search service that is down, and one whose first tier is empty and
    whose second tier has three records. *)
Definition w_down : world :=
  {| http := fun _ _ => HttpRaise (LibraryError u"ConnectionError" u"unreachable");
     model := model (sample_world [] []);
     clock := clock (sample_world [] []);
     files := files (sample_world [] []);
     smtp := smtp (sample_world [] []);
     trace := [] |}.

Definition w_second_tier : world :=
  sample_world
    [ PDict [ (u"data", PList []) ];
      PDict [ (u"data", PList [ raw_a; raw_b; raw_a_again ]) ] ]
    [].

Definition entry_a : ranked :=
  {| e_job := job_a; e_score := PInt 90; e_reason := PStr u"fit" |}.

Definition cv_markup : str := u"Skills: a<b> & c
Done".

(** A world whose model returns a tailored CV with markup, then a contact
    with markup; and one whose model returns another CV. *)
Definition w_digest : world :=
  sample_world [] [ u"  " ++ cv_markup ++ u"  "; text_contact ].

Definition w_digest_other : world :=
  sample_world [] [ u"Another CV"; text_contact ].

Definition result_a : tailored_result :=
  {| t_entry := entry_a; t_cv := cv_markup; t_contacts := contacts_markup |}.

Definition fields_markup : str * str * str * str :=
  (u"HR <b>Lead</b>", u"hires > 10", u"Acme HR", u"Hi <name>").

(** A world in which every search comes back empty. *)
Definition w_nothing : world := sample_world [] [].

(** ** Vocabulary of the statements: the searches of a run *)

(** The line of line 277. *)
Definition searching_line (keywords location : str) : event :=
  EvLog INFO (u"Searching: '" ++ keywords ++ u"' in '" ++ location ++ u"'").

(** The batches that the searches [ss] fetch from the world [w] on, in the
    order fetched, and the world [w'] after the pause of the last one: each
    search logs its line, fetches its records and pauses five seconds. *)
Fixpoint fetched (rt : runtime) (cfg : config) (ss : list (str * str)) (w : world)
    (batches : list (list pyval)) (w' : world) : Prop :=
  match ss, batches with
  | [], [] => w' = w
  | (keywords, location) :: rest, items :: more =>
      exists results w1,
        fetch_linkedin_jobs rt cfg keywords location 15
          (record (searching_line keywords location) w) = (Ok results, w1)
        /\ Py.iter results = Ok items
        /\ fetched rt cfg rest (record (EvSleep 5) w1) more w'
  | _, _ => False
  end.

(** The world in which the loop over the searches of [run] starts: after
    the first log line and the reading of the two files. *)
Definition run_start (cfg : config) (w : world) : world :=
  records [ EvLog INFO u"Job agent starting…";
            EvReadFile (CV_PATH cfg);
            EvReadFile (PREFERENCES_PATH cfg) ] w.

(** ** Vocabulary of the statements: scores *)




(** ** Sample data, continued *)

(** A world whose first search finds two records and whose second search
    finds a repost of the first of them. *)
Definition w_two_searches : world :=
  sample_world
    [ PDict [ (u"data", PList [ raw_a; raw_b ]) ];
      PDict [ (u"data", PList [ raw_a_again ]) ] ]
    [].

Definition batches_two_searches : list (list pyval) :=
  [ [ raw_a; raw_b ]; [ raw_a_again ]; [] ].

(** Two entries whose scores are a bool and an integer, the first with the
    index 0. *)
Definition items_mixed : list pyval :=
  [ PDict [ (u"index", PInt 0); (u"score", PBool true); (u"reason", PStr u"low") ];
    entry 1 90 u"fit" ].

(** ** Vocabulary of the further properties *)

(** The text a raw record holds under the key [k]: its value when it is a
    string, the empty string otherwise. *)
Definition text_of (k : str) (kv : list (str * pyval)) : str :=
  match Py.dict_lookup k kv with
  | Some (PStr s) => s
  | _ => []
  end.

(** [s or d] on two strings. *)
Definition or_text (s d : str) : str :=
  match s with
  | [] => d
  | _ :: _ => s
  end.

(** A field that is missing, a string, or a value that counts as false
    (null, 0, false, an empty array or object). *)
Definition text_or_false (k : str) (kv : list (str * pyval)) : Prop :=
  match Py.dict_lookup k kv with
  | None => True
  | Some v => (exists s, v = PStr s) \/ Py.truthy v = false
  end.

(** A raw record in which every field [parse_jobs] reads is such a field. *)
Definition textual (kv : list (str * pyval)) : Prop :=
  Forall (fun k => text_or_false k kv) optional_keys.

(** The listing of a textual record, field by field. *)
Definition normalised (kv : list (str * pyval)) : listing :=
  {| j_title := PStr (or_text (text_of u"job_title" kv) u"Unknown");
     j_company := PStr (or_text (text_of u"employer_name" kv) u"Unknown");
     j_location := PStr (text_of u"job_city" kv ++ u", " ++ text_of u"job_country" kv);
     j_url := PStr (or_text (text_of u"job_apply_link" kv)
                      (text_of u"job_google_link" kv));
     j_description := PStr (take 3000 (text_of u"job_description" kv));
     j_posted := PStr (text_of u"job_posted_at_datetime_utc" kv) |}.

(** [len(v)] of a str or a list. *)
Definition seq_len (v : pyval) : option nat :=
  match v with
  | PStr s => Some (length s)
  | PList l => Some (length l)
  | _ => None
  end.

(** The code fence of lines 118 and 173, and its character. *)
Definition fence : str := u"```".
Definition backtick : char := 96%N.

(** ** Sample data of the further properties *)

Definition raw_full : list (str * pyval) :=
  [ (u"job_id", PStr u"abc");
    (u"job_title", PStr u"HR Manager");
    (u"employer_name", PNone);
    (u"job_city", PStr u"Milan");
    (u"job_country", PStr u"IT");
    (u"job_apply_link", PStr []);
    (u"job_google_link", PStr u"https://example.org/g");
    (u"job_description", PStr u"People operations");
    (u"job_posted_at_datetime_utc", PInt 0) ].

Definition text_fenced_tail : str :=
  u"```json
[]
```
That is all.".

(** A stand-in for [json.loads] that parses every text to [v]. *)
Definition rt_parsing (v : pyval) : runtime :=
  {| json_loads := fun _ => Ok v;
     repr_container := repr_container sample_rt;
     list_lt := list_lt sample_rt;
     exn_str := exn_str sample_rt |}.

(** A world whose model answers with prose. *)
Definition w_prose : world := sample_world [] [ u"I cannot rank these jobs." ].

(** A world whose model is unreachable. *)
Definition w_model_down : world :=
  {| http := http (sample_world [] []);
     model := fun _ _ => ModelRaise (LibraryError u"APIConnectionError" u"Connection error.");
     clock := clock (sample_world [] []);
     files := files (sample_world [] []);
     smtp := smtp (sample_world [] []);
     trace := [] |}.

(** Two entries with the same score, and an entry without score. *)
Definition items_tie : list pyval := [ entry 2 50 u"first"; entry 1 50 u"second" ].
Definition entry_no_score : list (str * pyval) :=
  [ (u"index", PInt 1); (u"reason", PStr u"fit") ].

(** White space, as [str.strip] sees it. *)
Definition blank (s : str) : Prop := Forall (fun c => PyStr.is_space c = true) s.

Definition is_log (e : event) : bool :=
  match e with EvLog _ _ => true | _ => false end.

(** A piece of text without angle bracket. *)
Definition no_angle (p : str) : Prop := (60%N ∉ p) /\ (62%N ∉ p).

(** A contact suggestion without the key why. *)
Definition contact_no_why : pyval :=
  PDict [ (u"profile_type", PStr u"HR Lead"); (u"search_tip", PStr u"Acme HR");
          (u"message_template", PStr u"Hi") ].

Definition result_bad : tailored_result :=
  {| t_entry := entry_a; t_cv := cv_markup; t_contacts := PList [ contact_no_why ] |}.

Definition cv_spaced : str := u"
  Tailored CV
 second line  
".

(** A raw record without identity: no provider id (or a null or empty one)
    and no apply link (or an empty one). *)
Definition keyless (j : pyval) : Prop :=
  exists kv,
    j = PDict kv
    /\ match Py.dict_lookup u"job_id" kv with
       | None => True
       | Some v => Py.truthy v = false
       end
    /\ match Py.dict_lookup u"job_apply_link" kv with
       | None => True
       | Some v => v = PStr []
       end.

(** The key of the records without identity: the empty string. *)
Definition empty_key : Py.hkey := Py.KStr [].

(** [seen_ids] when the run begins. *)
Definition no_keys : gset Py.hkey := ∅.

Definition is_sleep (e : event) : bool :=
  match e with EvSleep _ => true | _ => false end.

Definition raw_keyless_a : pyval := PDict [ (u"job_title", PStr u"HR Manager") ].
Definition raw_keyless_b : pyval :=
  PDict [ (u"job_id", PNone); (u"job_title", PStr u"Recruiter");
          (u"job_apply_link", PStr []) ].

(** The date format of the subject of the mail. *)
Definition subject_format : str := u"%B %d".

(** The message [send_email] builds on the date [today]. *)
Definition digest_mail (cfg : config) (today html_body : str) : mail :=
  {| mail_subject := u"🔍 Your Top Jobs Today — " ++ today;
     mail_from := FROM_EMAIL cfg;
     mail_to := TO_EMAIL cfg;
     mail_html := html_body |}.

(** The SMTP steps of [send_email] before it leaves the [with] block. *)
Definition smtp_session (cfg : config) (msg : mail) : list smtp_step :=
  [ SmtpConnect (SMTP_HOST cfg) (SMTP_PORT cfg);
    SmtpStartTls;
    SmtpLogin (SMTP_USER cfg) (SMTP_PASSWORD cfg);
    SmtpSendmail (FROM_EMAIL cfg) (TO_EMAIL cfg) msg ].

(** The line of line 259. *)
Definition sent_line (cfg : config) : event :=
  EvLog INFO (u"Email sent to " ++ format_opt (TO_EMAIL cfg)).

Definition is_sendmail (e : event) : bool :=
  match e with EvSmtp (SmtpSendmail _ _ _) => true | _ => false end.

(** A computation that hands at most [k] messages to the SMTP server. *)
Definition mails_at_most {A} (k : nat) (c : M A) : Prop :=
  forall w, exists evs, (c w).2 = records evs w /\ (count is_sendmail evs <= k)%nat.

(** ** scheduler.py *)

(** [job], lines 14-18: the run, with every exception logged. *)
Definition job (rt : runtime) (cfg : config) : M unit :=
  try_except (run rt cfg)
    (fun e => log ERROR (u"Agent failed: " ++ exn_str rt e)).

(** A world whose SMTP server refuses the login. *)
Definition w_login_refused : world :=
  {| http := http (sample_world [] []);
     model := model (sample_world [] []);
     clock := clock (sample_world [] []);
     files := files (sample_world [] []);
     smtp := fun _ step =>
       match step with
       | SmtpLogin _ _ =>
           Some (LibraryError u"SMTPAuthenticationError" u"Username and Password not accepted")
       | _ => None
       end;
     trace := [] |}.

(** A world without the CV file. *)
Definition w_no_cv : world :=
  {| http := http (sample_world [] []);
     model := model (sample_world [] []);
     clock := clock (sample_world [] []);
     files := fun _ path =>
       if bool_decide (path = u"cv.txt")
       then Raise (LibraryError u"FileNotFoundError" u"No such file or directory: 'cv.txt'")
       else Ok (u"contents of " ++ path);
     smtp := smtp (sample_world [] []);
     trace := [] |}.

(** The jobs and the document of a result, when there is one. *)
Definition ranked_of (r : result (str * str * list ranked)) : list ranked :=
  match r with
  | Ok (_, _, top_jobs) => top_jobs
  | Raise _ => []
  end.

Definition html_of (r : result str) : str :=
  match r with
  | Ok html => html
  | Raise _ => []
  end.

(** A world in which the first search finds two jobs, the model ranks them
    and tailors both, and the SMTP server accepts the mail. *)
Definition w_full : world :=
  sample_world
    [ PDict [ (u"data", PList [ raw_a; raw_b ]) ] ]
    [ text_two; cv_markup; text_contact; cv_markup; text_contact ].

(** The same world with a model that stops answering after the ranking. *)
Definition w_tailoring_fails : world :=
  {| http := http w_full;
     model := fun n req =>
       if (n <? 2)%nat then model w_full n req
       else ModelRaise (LibraryError u"RateLimitError" u"rate limit");
     clock := clock w_full;
     files := files w_full;
     smtp := smtp w_full;
     trace := [] |}.

(** A search whose answer counts as false: no record, or no key data. *)
Definition nothing_found (w : world) : Prop :=
  forall n req, exists b,
    tier_outcome (http w n req) 15 = Ok b /\ Py.truthy b = false.

Definition text_fenced_spaced : str :=
  u"  ```json
[]
```
".

(** A computation that adds at most [k] calls of the kind [p] to the trace,
    and whose result, when it returns, satisfies [Q]. *)
Definition calls_at_most {A} (p : event -> bool) (k : nat) (Q : A -> Prop)
    (c : M A) : Prop :=
  forall w, exists evs,
    (c w).2 = records evs w
    /\ (count p evs <= k)%nat
    /\ forall a, (c w).1 = Ok a -> Q a.

(** What line 253 raises on a body with a surrogate. *)
Definition encode_error : exn :=
  LibraryError u"UnicodeEncodeError" u"surrogates not allowed".

(** What leaves the [with] block of [send_email] when its body ends in [r]
    and the QUIT is answered with [q]. *)
Definition closing (q : option exn) (r : result unit) : result unit :=
  match q with
  | Some e => Raise e
  | None => r
  end.

(** A document with a lone surrogate, as [json.loads] makes one of an
    unpaired escape in a contact field. *)
Definition html_surrogate : str := u"<p>likes " ++ [ 55357%N ] ++ u"</p>".

(** ** The trace *)

Lemma count_app p (t1 t2 : list event) :
  count p (t1 ++ t2) = (count p t1 + count p t2)%nat.
Proof.
  induction t1 as [|e t1 IH]; cbn; [done|].
  destruct (p e); cbn; by rewrite IH.
Qed.

Lemma count_record p e w :
  count p (trace (record e w)) = (count p (trace w) + (if p e then 1 else 0))%nat.
Proof.
  cbn [record trace]. rewrite count_app. cbn. destruct (p e); lia.
Qed.

Lemma record_records e w : record e w = records [e] w.
Proof. reflexivity. Qed.

Lemma records_records evs1 evs2 w :
  records evs2 (records evs1 w) = records (evs1 ++ evs2) w.
Proof. unfold records. cbn. by rewrite <- app_assoc. Qed.

(** ** Lists of results *)

Lemma rmap_length {A B} (f : A -> result B) (l : list A) (bs : list B) :
  rmap f l = Ok bs -> Forall2 (fun a b => f a = Ok b) l bs.
Proof.
  revert bs. induction l as [|a l IH]; intros bs; cbn [rmap].
  - intros [= <-]. constructor.
  - destruct (f a) as [b|e] eqn:Hb; [|discriminate]. cbn [rbind].
    destruct (rmap f l) as [bs'|e]; [|discriminate]. cbn [rbind].
    intros [= <-]. constructor; [done|by apply IH].
Qed.

(** The first item on which [f] raises decides what [rmap f] raises. *)
Lemma rmap_raise_at {A B} (f : A -> result B) (l1 l2 : list A) (x : A) (e : exn) :
  Forall (fun a => exists b, f a = Ok b) l1 -> f x = Raise e ->
  rmap f (l1 ++ x :: l2) = Raise e.
Proof.
  intros H Hx. induction H as [|a l1 [b Hb] _ IH]; cbn [app rmap].
  - by rewrite Hx.
  - by rewrite Hb, IH.
Qed.

(** ** Normalisation: [parse_jobs] *)

Lemma get_missing kv k d :
  Py.dict_lookup k kv = None -> Py.get (PDict kv) k d = Ok d.
Proof. intros H. unfold Py.get. rewrite H. reflexivity. Qed.

(** C3, as the code has it: for a raw record in which every field
    [parse_jobs] reads is missing, the listing has title and company
    Unknown, url, description and posted empty, and location the separator
    alone (comma, space) that joins the empty city and the empty country. *)
Theorem parse_jobs_defaults (kv : list (str * pyval)) :
  missing_all kv ->
  parse_jobs [PDict kv] =
    Ok [ {| j_title := PStr u"Unknown";
            j_company := PStr u"Unknown";
            j_location := PStr u", ";
            j_url := PStr [];
            j_description := PStr [];
            j_posted := PStr [] |} ].
Proof.
  intros H. unfold missing_all, optional_keys in H.
  repeat (apply Forall_cons_1 in H; destruct H as [? H]).
  unfold parse_jobs, rmap, parse_job.
  repeat (rewrite get_missing by assumption; cbn [rbind]).
  reflexivity.
Qed.

Lemma parse_jobs_defaults_witness :
  missing_all [ (u"job_id", PStr u"abc") ] /\
  parse_jobs [raw_only_id] =
    Ok [ {| j_title := PStr u"Unknown";
            j_company := PStr u"Unknown";
            j_location := PStr u", ";
            j_url := PStr [];
            j_description := PStr [];
            j_posted := PStr [] |} ].
Proof.
  assert (Hm : missing_all [ (u"job_id", PStr u"abc") ]).
  { unfold missing_all, optional_keys. repeat constructor. }
  split; [exact Hm | exact (parse_jobs_defaults _ Hm)].
Defined.

(** C3 as stated fails: the location of a record without any field is the
    two characters comma and space, not the empty string. *)
Lemma parse_jobs_location_not_empty :
  parse_jobs [PDict []] =
    Ok [ {| j_title := PStr u"Unknown";
            j_company := PStr u"Unknown";
            j_location := PStr [44; 32]%N;
            j_url := PStr [];
            j_description := PStr [];
            j_posted := PStr [] |} ]
  /\ parse_jobs [PDict []] <>
       Ok [ {| j_title := PStr u"Unknown";
               j_company := PStr u"Unknown";
               j_location := PStr [];
               j_url := PStr [];
               j_description := PStr [];
               j_posted := PStr [] |} ].
Proof.
  split; [reflexivity | discriminate].
Qed.

(** ** Ranking: the empty listing set *)

(** C6: on an empty list of jobs [select_top_jobs] returns the empty list
    and leaves the world as it is: no call of the model (or any other call)
    is added to the trace. *)
Theorem select_top_jobs_empty (rt : runtime) (cv preferences : str) (w : world) :
  select_top_jobs rt [] cv preferences w = (Ok [], w).
Proof. reflexivity. Qed.

(** ** Deduplication: the inner loop of [run] *)

Section Dedupe.

Implicit Types (seen : gset Py.hkey) (raws out : list pyval) (keys : list Py.hkey).

Lemma dedupe_step_key seen out j k :
  raw_key j = Ok k ->
  dedupe_step (seen, out) j =
    Ok (if decide (k ∈ seen) then (seen, out) else ({[k]} ∪ seen, out ++ [j])).
Proof.
  unfold raw_key, dedupe_step. intros H.
  destruct (identity_key j) as [id|e]; cbn in *; [|discriminate].
  rewrite H. cbn. destruct (decide (k ∈ seen)); reflexivity.
Qed.

(** The loop computes [first_seen] on the records paired with their keys. *)
Lemma dedupe_loop raws : forall keys seen out,
  Forall2 (fun j k => raw_key j = Ok k) raws keys ->
  rfold dedupe_step (seen, out) raws =
    Ok (seen ∪ list_to_set keys, out ++ (first_seen seen (zip keys raws)).*2).
Proof.
  induction raws as [|j raws IH]; intros keys seen out H.
  - apply Forall2_nil_inv_l in H as ->. cbn.
    f_equal. f_equal; [set_solver | by rewrite app_nil_r].
  - apply Forall2_cons_inv_l in H as (k & keys' & Hk & H & ->).
    cbn [rfold]. rewrite (dedupe_step_key _ _ _ _ Hk). cbn [rbind zip zip_with first_seen].
    destruct (decide (k ∈ seen)) as [Hin|Hin].
    + rewrite (IH _ _ _ H). f_equal. f_equal. set_solver.
    + rewrite (IH _ _ _ H). cbn. f_equal. f_equal; [set_solver|].
      by rewrite <- app_assoc.
Qed.

Context {A : Type}.
Implicit Types (l : list (Py.hkey * A)).

Lemma first_seen_sublist l : forall seen, sublist (first_seen seen l) l.
Proof.
  induction l as [|[k a] l IH]; intros seen; cbn; [constructor|].
  destruct (decide (k ∈ seen)); [apply sublist_cons | apply sublist_skip]; apply IH.
Qed.

Lemma first_seen_fresh l : forall seen k,
  k ∈ (first_seen seen l).*1 -> k ∉ seen.
Proof.
  induction l as [|[k' a] l IH]; intros seen k; cbn; [by intros ?%elem_of_nil|].
  destruct (decide (k' ∈ seen)) as [Hin|Hin]; [apply IH|].
  cbn. intros [->|Hk]%elem_of_cons; [done|].
  apply IH in Hk. set_solver.
Qed.

Lemma first_seen_NoDup l : forall seen, NoDup (first_seen seen l).*1.
Proof.
  induction l as [|[k a] l IH]; intros seen; cbn; [constructor|].
  destruct (decide (k ∈ seen)); [apply IH|].
  cbn. constructor; [|apply IH].
  intros Hk%first_seen_fresh. set_solver.
Qed.

Lemma first_seen_covers l : forall seen k,
  k ∈ l.*1 -> k ∈ seen \/ k ∈ (first_seen seen l).*1.
Proof.
  induction l as [|[k' a] l IH]; intros seen k; cbn; [by intros ?%elem_of_nil|].
  intros [->|Hk]%elem_of_cons.
  - destruct (decide (k' ∈ seen)); [by left|]. right. cbn. by left.
  - destruct (decide (k' ∈ seen)).
    + by apply IH.
    + cbn. destruct (IH ({[k']} ∪ seen) k Hk) as [Hs|Hs].
      * apply elem_of_union in Hs as [->%elem_of_singleton|Hs]; [right; by left|by left].
      * right. by right.
Qed.

(** The pair kept for a key is the first pair of the list with that key. *)
Lemma first_seen_first l : forall seen i k a,
  l !! i = Some (k, a) -> k ∉ seen -> k ∉ (take i l).*1 ->
  (k, a) ∈ first_seen seen l.
Proof.
  induction l as [|[k' a'] l IH]; intros seen i k a; [by rewrite lookup_nil|].
  destruct i as [|i]; cbn.
  - intros [= -> ->] Hs _. rewrite decide_False by done. by left.
  - intros Hl Hs Hn. apply not_elem_of_cons in Hn as [Hne Hn].
    destruct (decide (k' ∈ seen)).
    + by apply (IH _ i).
    + right. apply (IH _ i); [done| |done]. set_solver.
Qed.

End Dedupe.

(** The records [raws] with identity keys [keys], put through the inner
    loop of [run] from the empty state, leave in [all_raw] a list [out]
    that is a subsequence of [raws] (first-seen order), in which no two
    records share a key, in which every key met has its record, and where
    the record of a key is the first one met with it. *)
Lemma dedupe_loop_first_seen (raws : list pyval) (keys : list Py.hkey) :
  Forall2 (fun j k => raw_key j = Ok k) raws keys ->
  exists seen out okeys,
    rfold dedupe_step (∅, []) raws = Ok (seen, out)
    /\ Forall2 (fun j k => raw_key j = Ok k) out okeys
    /\ sublist (zip okeys out) (zip keys raws)
    /\ NoDup okeys
    /\ (forall k, k ∈ keys -> k ∈ okeys)
    /\ (forall i k j, keys !! i = Some k -> raws !! i = Some j ->
          k ∉ take i keys -> (k, j) ∈ zip okeys out).
Proof.
  intros H.
  pose proof (Forall2_length _ _ _ H) as Hlen.
  set (kept := first_seen ∅ (zip keys raws)).
  assert (Hsub : sublist kept (zip keys raws)) by apply first_seen_sublist.
  assert (Hzip : zip kept.*1 kept.*2 = kept) by apply zip_fst_snd.
  exists (∅ ∪ list_to_set keys), kept.*2, kept.*1.
  split; [by rewrite (dedupe_loop _ _ _ _ H)|].
  split.
  { apply Forall2_same_length_lookup_2; [by rewrite !length_fmap|].
    intros i j k Hj Hk.
    assert (Hp : kept !! i = Some (k, j)).
    { rewrite list_lookup_fmap in Hj. rewrite list_lookup_fmap in Hk.
      destruct (kept !! i) as [[k0 j0]|]; cbn in *; congruence. }
    apply list_elem_of_lookup_2 in Hp.
    eapply elem_of_sublist in Hp; [|exact Hsub].
    apply list_elem_of_lookup in Hp as [n Hn].
    apply lookup_zip_with_Some in Hn as (k1 & j1 & [= <- <-] & Hk1 & Hj1).
    eapply Forall2_lookup_lr in H; eauto. }
  rewrite Hzip.
  split; [done|].
  split; [apply first_seen_NoDup|].
  split.
  { intros k Hk.
    destruct (first_seen_covers (zip keys raws) ∅ k) as [?|?]; [|set_solver|done].
    rewrite fst_zip; [done|lia]. }
  intros i k j Hk Hj Hn.
  apply (first_seen_first _ _ i); [|set_solver|].
  - apply lookup_zip_with_Some. eauto.
  - rewrite zip_with_take, fst_zip; [done|]. rewrite !length_take. lia.
Qed.

(** The repost of a seen id is dropped; a record without id is keyed by its
    apply link. *)
Example dedupe_three :
  match rfold dedupe_step (∅, []) three_raws with
  | Ok st => st.2 = [ raw_a; raw_b ]
  | Raise _ => False
  end.
Proof. vm_compute. reflexivity. Qed.

Lemma rfold_app {A S} (f : S -> A -> result S) (l1 l2 : list A) (s : S) :
  rfold f s (l1 ++ l2) = let? s' := rfold f s l1 in rfold f s' l2.
Proof.
  revert s. induction l1 as [|a l1 IH]; intros s; cbn; [done|].
  destruct (f s a); cbn; [apply IH|done].
Qed.

(** The loop over the searches threads one state through all fetches: when
    it ends, its state is that of the inner loop run once over the records
    of all batches, in the order fetched. *)
Lemma search_all_dedupes (rt : runtime) (cfg : config) (ss : list (str * str)) :
  forall st w st' w',
    search_all rt cfg ss st w = (Ok st', w') ->
    exists batches : list (list pyval),
      length batches = length ss
      /\ rfold dedupe_step st (concat batches) = Ok st'.
Proof.
  induction ss as [|[keywords location] ss IH]; intros st w st' w' H.
  - injection H as <- <-. by exists [].
  - cbn [search_all] in H. unfold bind at 1 in H. cbn [log] in H.
    unfold bind at 1 in H.
    destruct (fetch_linkedin_jobs rt cfg keywords location 15 _) as [[results|e] w1];
      [|discriminate].
    unfold bind at 1, lift at 1 in H.
    destruct (Py.iter results) as [items|e]; [|discriminate].
    unfold bind at 1, lift at 1 in H.
    destruct (rfold dedupe_step st items) as [st1|e] eqn:Hst1; [|discriminate].
    unfold bind at 1 in H. cbn [sleep] in H.
    apply IH in H as (batches & Hlen & Hfold).
    exists (items :: batches). split; [cbn; lia|].
    cbn [concat]. rewrite rfold_app, Hst1. exact Hfold.
Qed.

(** The loop over the searches puts the batches fetched through the inner
    loop one after the other, on one state. *)
Lemma search_all_fetched (rt : runtime) (cfg : config) (ss : list (str * str)) :
  forall w batches w' st st',
    fetched rt cfg ss w batches w' ->
    rfold dedupe_step st (concat batches) = Ok st' ->
    search_all rt cfg ss st w = (Ok st', w').
Proof.
  induction ss as [|[keywords location] ss IH]; intros w batches w' st st' Hf Hfold.
  - destruct batches; [|done]. cbn in Hf, Hfold. by injection Hfold as <-; subst w'.
  - destruct batches as [|items more]; [done|].
    destruct Hf as (results & w1 & Hfetch & Hiter & Hrest).
    cbn [concat] in Hfold. rewrite rfold_app in Hfold.
    destruct (rfold dedupe_step st items) as [st1|e] eqn:E1; [|discriminate].
    cbn [rbind] in Hfold. unfold searching_line in Hfetch.
    cbn [search_all]. unfold bind at 1. cbn [log]. unfold bind at 1. rewrite Hfetch.
    unfold bind at 1, lift at 1. rewrite Hiter.
    unfold bind at 1, lift at 1. rewrite E1.
    unfold bind at 1. cbn [sleep]. by apply (IH _ more).
Qed.

(** [run] up to the end of the loop over the searches, when the two files
    are read. *)
Lemma run_searches (rt : runtime) (cfg : config) (w w' : world)
    (cv preferences : str) (st : gset Py.hkey * list pyval) :
  files w (count is_read (trace w)) (CV_PATH cfg) = Ok cv ->
  files w (S (count is_read (trace w))) (PREFERENCES_PATH cfg) = Ok preferences ->
  search_all rt cfg searches (∅, []) (run_start cfg w) = (Ok st, w') ->
  run rt cfg w = run_from rt cfg cv preferences st.2 w'.
Proof.
  intros Hcv Hpref Hs. unfold run, run_from.
  unfold bind at 1. cbn [log].
  unfold bind at 1, load_file at 1. rewrite count_record. cbn [is_read].
  rewrite Nat.add_0_r. change (files (record _ w)) with (files w). rewrite Hcv.
  unfold bind at 1, load_file at 1. rewrite !count_record. cbn [is_read].
  rewrite Nat.add_0_r, Nat.add_1_r.
  change (files (record _ (record _ w))) with (files w). rewrite Hpref.
  unfold bind at 1.
  rewrite !record_records, !records_records. cbn [app]. fold (run_start cfg w).
  rewrite Hs. reflexivity.
Qed.

(** C4: in a run that reads its two files, let the three searches fetch
    the batches [batches], one after the other, every record of them
    having an identity key (its job_id or else its apply link).  Then the
    loop over the searches ends with a list [out] in [all_raw], and [run]
    goes on with that list; [out] is a subsequence of the records of all
    batches in the order fetched (first-seen order), no two of its records
    share a key, also across batches, every key met has its record in it,
    and the record of a key is the first one fetched with it. *)
Theorem dedupe_first_seen_order (rt : runtime) (cfg : config) (w w' : world)
    (cv preferences : str) (batches : list (list pyval)) (keys : list Py.hkey) :
  files w (count is_read (trace w)) (CV_PATH cfg) = Ok cv ->
  files w (S (count is_read (trace w))) (PREFERENCES_PATH cfg) = Ok preferences ->
  fetched rt cfg searches (run_start cfg w) batches w' ->
  Forall2 (fun j k => raw_key j = Ok k) (concat batches) keys ->
  exists seen out okeys,
    search_all rt cfg searches (∅, []) (run_start cfg w) = (Ok (seen, out), w')
    /\ run rt cfg w = run_from rt cfg cv preferences out w'
    /\ Forall2 (fun j k => raw_key j = Ok k) out okeys
    /\ sublist (zip okeys out) (zip keys (concat batches))
    /\ NoDup okeys
    /\ (forall k, k ∈ keys -> k ∈ okeys)
    /\ (forall i k j, keys !! i = Some k -> concat batches !! i = Some j ->
          k ∉ take i keys -> (k, j) ∈ zip okeys out).
Proof.
  intros Hcv Hpref Hf Hk.
  destruct (dedupe_loop_first_seen _ _ Hk) as (seen & out & okeys & Hfold & Hrest).
  pose proof (search_all_fetched rt cfg searches _ _ _ _ _ Hf Hfold) as Hs.
  exists seen, out, okeys. split; [exact Hs|].
  split; [exact (run_searches rt cfg w w' cv preferences _ Hcv Hpref Hs)|].
  exact Hrest.
Qed.

Lemma dedupe_first_seen_order_witness :
  exists seen out okeys,
    search_all sample_rt sample_cfg searches (∅, []) (run_start sample_cfg w_two_searches)
      = (Ok (seen, out),
         (search_all sample_rt sample_cfg searches (∅, [])
            (run_start sample_cfg w_two_searches)).2)
    /\ run sample_rt sample_cfg w_two_searches
         = run_from sample_rt sample_cfg u"contents of cv.txt"
             u"contents of preferences.txt" out
             (search_all sample_rt sample_cfg searches (∅, [])
                (run_start sample_cfg w_two_searches)).2
    /\ Forall2 (fun j k => raw_key j = Ok k) out okeys
    /\ sublist (zip okeys out) (zip three_keys (concat batches_two_searches))
    /\ NoDup okeys
    /\ (forall k, k ∈ three_keys -> k ∈ okeys)
    /\ (forall i k j, three_keys !! i = Some k ->
          concat batches_two_searches !! i = Some j ->
          k ∉ take i three_keys -> (k, j) ∈ zip okeys out).
Proof.
  apply (dedupe_first_seen_order sample_rt sample_cfg w_two_searches
           (search_all sample_rt sample_cfg searches (∅, [])
              (run_start sample_cfg w_two_searches)).2
           u"contents of cv.txt" u"contents of preferences.txt"
           batches_two_searches three_keys).
  - reflexivity.
  - reflexivity.
  - cbn [fetched searches batches_two_searches].
    repeat (eexists _, _; split; [vm_compute; reflexivity|split; [reflexivity|]]).
    vm_compute. reflexivity.
  - repeat constructor.
Defined.

(** Across two searches of one run, the repost that the second search
    finds is dropped. *)
Example dedupe_across_searches :
  match (search_all sample_rt sample_cfg searches (∅, [])
           (run_start sample_cfg w_two_searches)).1 with
  | Ok st => st.2 = [ raw_a; raw_b ]
  | Raise _ => False
  end.
Proof. vm_compute. reflexivity. Qed.

(** ** Ranking: the sort of [select_top_jobs] *)

Section Sorting.

Context {A : Type} (key : A -> Z).
Implicit Types (x : A) (l : list A).

Lemma insert_asc_perm x l : insert_asc key x l ≡ₚ x :: l.
Proof.
  induction l as [|y l IH]; cbn; [done|].
  destruct (key y <? key x); [|done].
  rewrite IH. apply Permutation_swap.
Qed.

Lemma sort_asc_perm l : sort_asc key l ≡ₚ l.
Proof.
  induction l as [|x l IH]; cbn; [done|].
  by rewrite insert_asc_perm, IH.
Qed.




Lemma sort_desc_perm l : sort_desc key l ≡ₚ l.
Proof. unfold sort_desc. by rewrite reverse_Permutation, sort_asc_perm, reverse_Permutation. Qed.


Lemma sort_desc_length l : length (sort_desc key l) = length l.
Proof. by rewrite sort_desc_perm. Qed.

End Sorting.

Section SortedReverse.

Context (rt : runtime) (keyfn : pyval -> result pyval) (key : pyval -> Z).

Let keyed (x : pyval) : pyval * pyval := (PInt (key x), x).
Let lt_key (a b : pyval * pyval) : result bool := Py.lt rt a.1 b.1.

Lemma insert_by_int x ys :
  Py.insert_by lt_key (keyed x) (keyed <$> ys) = Ok (keyed <$> insert_asc key x ys).
Proof.
  induction ys as [|y ys IH]; [done|].
  cbn [Py.insert_by fmap list_fmap insert_asc].
  change (lt_key (keyed y) (keyed x)) with (Ok (A:=bool) (key y <? key x)).
  cbn [rbind]. destruct (key y <? key x); [|done].
  fold (fmap (M:=list) keyed ys). rewrite IH. done.
Qed.

Lemma sort_by_int l :
  Py.sort_by lt_key (keyed <$> l) = Ok (keyed <$> sort_asc key l).
Proof.
  induction l as [|x l IH]; [done|].
  cbn [Py.sort_by fmap list_fmap sort_asc].
  fold (fmap (M:=list) keyed l). rewrite IH. cbn [rbind]. apply insert_by_int.
Qed.

Lemma keys_int l :
  Forall (fun x => keyfn x = Ok (PInt (key x))) l ->
  rmap (fun x => let? k := keyfn x in Ok (k, x)) l = Ok (keyed <$> l).
Proof.
  induction 1 as [|x l Hx _ IH]; [done|].
  cbn [rmap]. rewrite Hx, IH. done.
Qed.

(** On integer keys [sorted(..., reverse=True)] is the stable descending
    sort. *)
Lemma sorted_reverse_int l :
  Forall (fun x => keyfn x = Ok (PInt (key x))) l ->
  Py.sorted_reverse rt keyfn l = Ok (sort_desc key l).
Proof.
  intros H. unfold Py.sorted_reverse. rewrite (keys_int _ H). cbn [rbind].
  rewrite <- fmap_reverse. fold lt_key. rewrite sort_by_int. cbn [rbind].
  rewrite <- fmap_reverse, <- list_fmap_compose. f_equal.
  unfold sort_desc. apply list_fmap_id.
Qed.

End SortedReverse.

(** ** Ranking: [select_top_jobs] *)

Section Ranking.

Context (rt : runtime).
Implicit Types (jobs : list listing) (r : pyval) (items : list pyval).

Lemma int_field_Some k r z :
  int_field k r = Some z <-> Py.getitem r k = Ok (PInt z).
Proof.
  unfold int_field. destruct (Py.getitem r k) as [[]|]; split; congruence.
Qed.

Lemma ranking_entry_fields r :
  ranking_entry r ->
  Py.getitem r u"index" = Ok (PInt (index_of r))
  /\ Py.getitem r u"score" = Ok (PInt (score_of r))
  /\ exists v, Py.getitem r u"reason" = Ok v.
Proof.
  intros ([i Hi] & [s Hs] & Hr). unfold index_of, score_of.
  rewrite Hi, Hs. apply int_field_Some in Hi, Hs. auto.
Qed.

Lemma list_getitem_in_range {B} (l : list B) (k : Z) :
  0 <= k < Z.of_nat (length l) ->
  exists b, Py.list_getitem l k = Ok b /\ l !! Z.to_nat k = Some b.
Proof.
  intros Hk. unfold Py.list_getitem.
  destruct (Z.ltb_spec k 0); [lia|].
  destruct (Z.ltb_spec k 0); [lia|].
  destruct (Z.leb_spec (Z.of_nat (length l)) k); [lia|]. cbn.
  destruct (lookup_lt_is_Some_2 l (Z.to_nat k)) as [b Hb]; [lia|].
  rewrite Hb. eauto.
Qed.

Lemma list_getitem_too_large {B} (l : list B) (k : Z) :
  Z.of_nat (length l) <= k -> Py.list_getitem l k = Raise IndexError.
Proof.
  intros Hk. unfold Py.list_getitem.
  destruct (Z.ltb_spec k 0); [lia|].
  destruct (Z.ltb_spec k 0); [lia|].
  destruct (Z.leb_spec (Z.of_nat (length l)) k); [|lia]. done.
Qed.

(** Whatever its integer index, a list lookup returns or raises IndexError. *)
Lemma list_getitem_cases {B} (l : list B) (k : Z) :
  (exists b, Py.list_getitem l k = Ok b) \/ Py.list_getitem l k = Raise IndexError.
Proof.
  unfold Py.list_getitem.
  destruct (_ || _); [by right|].
  destruct (l !! _); [left; eauto|by right].
Qed.

Lemma rank_entry_index jobs r :
  ranking_entry r ->
  rank_entry jobs r =
    let? job := Py.list_getitem jobs (index_of r - 1) in
    let? reason := Py.getitem r u"reason" in
    Ok {| e_job := job; e_score := PInt (score_of r); e_reason := reason |}.
Proof.
  intros (Hi & Hs & _)%ranking_entry_fields.
  unfold rank_entry. rewrite Hi, Hs. reflexivity.
Qed.

Lemma rank_entry_in_range jobs r :
  ranking_entry r -> 1 <= index_of r <= Z.of_nat (length jobs) ->
  exists o, rank_entry jobs r = Ok o /\ ranks jobs r o.
Proof.
  intros Hr Hi. rewrite (rank_entry_index _ _ Hr).
  destruct (list_getitem_in_range jobs (index_of r - 1)) as (job & -> & Hjob); [lia|].
  destruct Hr as (_ & _ & [v Hv]). rewrite Hv. cbn.
  eexists. split; [done|]. by repeat split.
Qed.

Lemma rank_entry_too_large jobs r :
  ranking_entry r -> Z.of_nat (length jobs) < index_of r ->
  rank_entry jobs r = Raise IndexError.
Proof.
  intros Hr Hi. rewrite (rank_entry_index _ _ Hr).
  by rewrite list_getitem_too_large by lia.
Qed.

Lemma rank_entry_cases jobs r :
  ranking_entry r ->
  (exists o, rank_entry jobs r = Ok o) \/ rank_entry jobs r = Raise IndexError.
Proof.
  intros Hr. rewrite (rank_entry_index _ _ Hr).
  destruct Hr as (_ & _ & [v Hv]). rewrite Hv.
  destruct (list_getitem_cases jobs (index_of r - 1)) as [[b ->]| ->]; cbn; eauto.
Qed.

Lemma rmap_rank_in_range jobs items :
  Forall ranking_entry items ->
  Forall (fun r => 1 <= index_of r <= Z.of_nat (length jobs)) items ->
  exists out, rmap (rank_entry jobs) items = Ok out /\ Forall2 (ranks jobs) items out.
Proof.
  induction 1 as [|r items Hr _ IH]; intros Hi.
  - exists []. by split; [|constructor].
  - apply Forall_cons_1 in Hi as [Hi His].
    destruct (rank_entry_in_range jobs r Hr Hi) as (o & Ho & Hro).
    destruct (IH His) as (out & Hout & Hall).
    exists (o :: out). cbn [rmap]. rewrite Ho, Hout. by split; [|constructor].
Qed.

Lemma rmap_rank_too_large jobs items :
  Forall ranking_entry items ->
  Exists (fun r => Z.of_nat (length jobs) < index_of r) items ->
  rmap (rank_entry jobs) items = Raise IndexError.
Proof.
  induction 1 as [|r items Hr _ IH]; intros Hex; [by apply Exists_nil in Hex|].
  cbn [rmap].
  destruct (rank_entry_cases jobs r Hr) as [[o Ho]|Hraise]; [|by rewrite Hraise].
  rewrite Ho. cbn [rbind].
  apply Exists_cons in Hex as [Hbig|Hex].
  - rewrite (rank_entry_too_large _ _ Hr Hbig) in Ho. discriminate.
  - by rewrite IH.
Qed.

Lemma kept_entries items : Forall ranking_entry items -> Forall ranking_entry (kept items).
Proof.
  intros H. unfold kept. apply Forall_take.
  by rewrite sort_desc_perm.
Qed.

(** Lines 123-124 on a list of well-formed entries. *)
Lemma top_of_rankings_entries jobs items :
  Forall ranking_entry items ->
  top_of_rankings rt jobs (PList items) = rmap (rank_entry jobs) (kept items).
Proof.
  intros H. unfold top_of_rankings. cbn [Py.iter rbind].
  rewrite (sorted_reverse_int rt _ score_of); [done|].
  eapply Forall_impl; [exact H|]. cbn. by intros r (_ & ? & _)%ranking_entry_fields.
Qed.

(** [select_top_jobs] on a non-empty list of jobs, when the model answers
    with a text that parses to [v]. *)
Lemma select_top_jobs_parsed jobs cv preferences w v :
  jobs <> [] ->
  model_answers rt w (ranking_request rt jobs cv preferences) v ->
  select_top_jobs rt jobs cv preferences w =
    (top_of_rankings rt jobs v,
     record (EvModel (ranking_request rt jobs cv preferences)) w).
Proof.
  intros Hne (content & text & text' & Hm & Ht & Hf & Hj).
  destruct jobs as [|j jobs]; [done|].
  unfold select_top_jobs, bind, messages_create, lift. rewrite Hm, Ht, Hf, Hj.
  reflexivity.
Qed.

End Ranking.

(** ** Ranking: the sort on scores that are numbers *)

Section SortedNumbers.

Context (rt : runtime).






Context (key : pyval * pyval -> Z).

Let lt_key (a b : pyval * pyval) : result bool := Py.lt rt a.1 b.1.



End SortedNumbers.

Section ScoreOrder.

Context (rt : runtime).







End ScoreOrder.


(** C2, as the code has it: with well-formed entries, [select_top_jobs]
    returns when every kept entry (the ten highest scores) has its index
    between 1 and the number of listings, each result carrying the listing
    at that 1-based position; it raises IndexError when a kept entry has an
    index above the number of listings. *)
Theorem select_top_jobs_index_lookup (rt : runtime) (jobs : list listing)
    (cv preferences : str) (w : world) (items : list pyval) :
  jobs <> [] ->
  model_answers rt w (ranking_request rt jobs cv preferences) (PList items) ->
  Forall ranking_entry items ->
  (Forall (fun r => 1 <= index_of r <= Z.of_nat (length jobs)) (kept items) ->
   exists out,
     select_top_jobs rt jobs cv preferences w =
       (Ok out, record (EvModel (ranking_request rt jobs cv preferences)) w)
     /\ Forall2 (ranks jobs) (kept items) out)
  /\ (Exists (fun r => Z.of_nat (length jobs) < index_of r) (kept items) ->
      select_top_jobs rt jobs cv preferences w =
        (Raise IndexError, record (EvModel (ranking_request rt jobs cv preferences)) w)).
Proof.
  intros Hne Hm Hwf.
  rewrite (select_top_jobs_parsed rt _ _ _ _ _ Hne Hm).
  rewrite (top_of_rankings_entries rt _ _ Hwf).
  split.
  - intros Hin.
    destruct (rmap_rank_in_range jobs (kept items) (kept_entries _ Hwf) Hin)
      as (out & -> & Hall).
    by exists out.
  - intros Hex. by rewrite (rmap_rank_too_large jobs _ (kept_entries _ Hwf) Hex).
Qed.



(** With a bool for a score and the index 0 the ranking returns: the bool
    counts as 1, below the score 90, and the index 0 is the last
    listing. *)
Example ranking_with_bool_score :
  (select_top_jobs (rt_parsing (PList items_mixed)) two_jobs u"cv" u"prefs" w_prose).1 =
    Ok [ {| e_job := job_a; e_score := PInt 90; e_reason := PStr u"fit" |};
         {| e_job := job_b; e_score := PBool true; e_reason := PStr u"low" |} ].
Proof. vm_compute. reflexivity. Qed.

Lemma select_top_jobs_index_lookup_witness :
  (exists out,
     select_top_jobs sample_rt two_jobs u"cv" u"prefs" w_two =
       (Ok out, record (EvModel req_two) w_two)
     /\ Forall2 (ranks two_jobs) (kept items_two) out)
  /\ select_top_jobs sample_rt two_jobs u"cv" u"prefs" w_far =
       (Raise IndexError, record (EvModel req_two) w_far).
Proof.
  assert (H1 : two_jobs <> []) by discriminate.
  assert (H2 : model_answers sample_rt w_two req_two (PList items_two)).
  { eexists _, _, _. repeat split; vm_compute; reflexivity. }
  assert (H3 : Forall ranking_entry items_two).
  { repeat constructor; vm_compute; eauto. }
  assert (H4 : Forall (fun r => 1 <= index_of r <= Z.of_nat (length two_jobs))
                 (kept items_two)).
  { repeat constructor; vm_compute; discriminate. }
  assert (H5 : model_answers sample_rt w_far req_two (PList [ entry 7 50 u"x" ])).
  { eexists _, _, _. repeat split; vm_compute; reflexivity. }
  assert (H6 : Forall ranking_entry [ entry 7 50 u"x" ]).
  { repeat constructor; vm_compute; eauto. }
  assert (H7 : Exists (fun r => Z.of_nat (length two_jobs) < index_of r)
                 (kept [ entry 7 50 u"x" ])).
  { apply Exists_cons_hd. vm_compute. reflexivity. }
  split.
  - exact (proj1 (select_top_jobs_index_lookup sample_rt two_jobs u"cv" u"prefs"
                    w_two items_two H1 H2 H3) H4).
  - exact (proj2 (select_top_jobs_index_lookup sample_rt two_jobs u"cv" u"prefs"
                    w_far [ entry 7 50 u"x" ] H1 H5 H6) H7).
Defined.

(** C2 as stated fails twice.  The index 0 lies outside 1..2 and raises
    nothing: Python counts it from the end and the last listing is returned.
    And among eleven entries the index 99 of the entry with the lowest score
    raises nothing either: the entry is cut before the lookup. *)
Lemma index_out_of_range_without_error :
  (model_answers sample_rt w_zero req_two (PList [ entry 0 50 u"x" ])
   /\ index_of (entry 0 50 u"x") = 0
   /\ select_top_jobs sample_rt two_jobs u"cv" u"prefs" w_zero =
        (Ok [ {| e_job := job_b; e_score := PInt 50; e_reason := PStr u"x" |} ],
         record (EvModel req_two) w_zero))
  /\ (model_answers sample_rt w_eleven req_two (PList items_eleven)
      /\ index_of (entry 99 1 u"k") = 99
      /\ entry 99 1 u"k" ∈ items_eleven
      /\ exists out,
           select_top_jobs sample_rt two_jobs u"cv" u"prefs" w_eleven =
             (Ok out, record (EvModel req_two) w_eleven)
           /\ length out = 10%nat).
Proof.
  split.
  - split; [eexists _, _, _; repeat split; vm_compute; reflexivity|].
    split; vm_compute; reflexivity.
  - split; [eexists _, _, _; repeat split; vm_compute; reflexivity|].
    split; [vm_compute; reflexivity|].
    split; [by left|].
    eexists. split; vm_compute; reflexivity.
Qed.

(** ** Fetching: [fetch_linkedin_jobs] *)

Section Fetch.

Context (rt : runtime) (cfg : config).

(** One turn of the loop: one request, then either the tier's batch or the
    logged error and the empty list. *)
Lemma fetch_tier_turn keywords location limit date_posted w :
  let req := search_request cfg keywords location date_posted in
  fetch_tier rt cfg keywords location limit date_posted w =
    match tier_outcome (http w (count is_http (trace w)) req) limit with
    | Ok b => (Ok (if Py.truthy b then Some b else None), record (EvHttpGet req) w)
    | Raise e =>
        (Ok (Some (PList [])), logged_fetch_error rt e (record (EvHttpGet req) w))
    end.
Proof.
  cbn zeta. unfold fetch_tier, try_except, bind at 1, requests_get, tier_outcome.
  destruct (http w _ _) as [e|r]; [reflexivity|].
  unfold bind, lift.
  destruct (raise_for_status r) as [[]|e]; [|reflexivity]. cbn [rbind].
  destruct (json_body r) as [data|e]; [|reflexivity]. cbn [rbind].
  destruct (Py.get data _ _) as [found|e]; [|reflexivity]. cbn [rbind].
  destruct (Py.slice found limit) as [jobs|e]; reflexivity.
Qed.

End Fetch.

(** C9: [fetch_linkedin_jobs] asks the three-day tier first.  A transport
    error of [requests.get] and an HTTP error status are errors of the tier;
    whatever exception a tier ends in, it is logged and the empty list is
    returned at once, with no second request of that tier and no request of
    the wider tier.  A good answer gives the records under the key data cut
    to the limit; a non-empty batch is returned as it is, after an empty one
    the week tier is asked in the same way, and when it is empty too the
    result is the empty list. *)
Theorem fetch_linkedin_jobs_tiers (rt : runtime) (cfg : config)
    (keywords location : str) (limit : Z) (w : world) :
  let req1 := search_request cfg keywords location u"3days" in
  let req2 := search_request cfg keywords location u"week" in
  let n := count is_http (trace w) in
  let w1 := record (EvHttpGet req1) w in
  let w2 := record (EvHttpGet req2) w1 in
  let fetched := fetch_linkedin_jobs rt cfg keywords location limit w in
  (forall e, tier_outcome (HttpRaise e) limit = Raise e)
  /\ (forall r, 400 <= status_code r < 600 ->
        tier_outcome (HttpReturn r) limit = Raise (HTTPError (status_code r)))
  /\ (forall r kv l,
        ~ 400 <= status_code r < 600 -> json_body r = Ok (PDict kv) ->
        Py.dict_lookup u"data" kv = Some (PList l) -> 0 <= limit ->
        tier_outcome (HttpReturn r) limit = Ok (PList (take (Z.to_nat limit) l)))
  /\ (forall e, tier_outcome (http w n req1) limit = Raise e ->
        fetched = (Ok (PList []), logged_fetch_error rt e w1))
  /\ (forall b, tier_outcome (http w n req1) limit = Ok b -> Py.truthy b = true ->
        fetched = (Ok b, w1))
  /\ (forall b, tier_outcome (http w n req1) limit = Ok b -> Py.truthy b = false ->
        (forall e, tier_outcome (http w (S n) req2) limit = Raise e ->
           fetched = (Ok (PList []), logged_fetch_error rt e w2))
        /\ (forall b2, tier_outcome (http w (S n) req2) limit = Ok b2 ->
              Py.truthy b2 = true -> fetched = (Ok b2, w2))
        /\ (forall b2, tier_outcome (http w (S n) req2) limit = Ok b2 ->
              Py.truthy b2 = false -> fetched = (Ok (PList []), w2))).
Proof.
  intros req1 req2 n w1 w2 fetched.
  assert (Hstep : fetched =
    match tier_outcome (http w n req1) limit with
    | Raise e => (Ok (PList []), logged_fetch_error rt e w1)
    | Ok b =>
        if Py.truthy b then (Ok b, w1)
        else
          match tier_outcome (http w (S n) req2) limit with
          | Raise e => (Ok (PList []), logged_fetch_error rt e w2)
          | Ok b2 => if Py.truthy b2 then (Ok b2, w2) else (Ok (PList []), w2)
          end
    end).
  { subst fetched. unfold fetch_linkedin_jobs. cbn [fetch_tiers].
    unfold bind at 1. rewrite fetch_tier_turn. fold req1 n w1.
    destruct (tier_outcome (http w n req1) limit) as [b|e]; [|reflexivity].
    destruct (Py.truthy b); [reflexivity|].
    unfold bind at 1. rewrite fetch_tier_turn. fold req2.
    replace (count is_http (trace w1)) with (S n)
      by (subst w1 n; rewrite count_record; cbn; lia).
    change (http w1) with (http w). fold w2.
    destruct (tier_outcome (http w (S n) req2) limit) as [b2|e]; [|reflexivity].
    destruct (Py.truthy b2); reflexivity. }
  split; [reflexivity|].
  split.
  { intros r Hr. unfold tier_outcome, raise_for_status.
    destruct (Z.leb_spec 400 (status_code r)); [|lia].
    destruct (Z.ltb_spec (status_code r) 600); [|lia]. reflexivity. }
  split.
  { intros r kv l Hr Hb Hd Hl. unfold tier_outcome, raise_for_status.
    destruct (Z.leb_spec 400 (status_code r)), (Z.ltb_spec (status_code r) 600);
      try lia; cbn [andb rbind]; rewrite Hb; cbn [rbind Py.get]; rewrite Hd;
      cbn [rbind Py.slice]; unfold slice_to;
      (destruct (Z.leb_spec 0 limit); [reflexivity|lia]). }
  rewrite Hstep. clear Hstep.
  split; [by intros e ->|].
  split; [by intros b -> ->|].
  intros b -> ->.
  split; [by intros e ->|].
  split; [by intros b2 -> ->|by intros b2 -> ->].
Qed.

Lemma fetch_linkedin_jobs_tiers_witness :
  fetch_linkedin_jobs sample_rt sample_cfg u"HR" u"Milan" 15 w_down =
    (Ok (PList []),
     logged_fetch_error sample_rt (LibraryError u"ConnectionError" u"unreachable")
       (record (EvHttpGet (search_request sample_cfg u"HR" u"Milan" u"3days")) w_down))
  /\ fetch_linkedin_jobs sample_rt sample_cfg u"HR" u"Milan" 2 w_second_tier =
       (Ok (PList [ raw_a; raw_b ]),
        record (EvHttpGet (search_request sample_cfg u"HR" u"Milan" u"week"))
          (record (EvHttpGet (search_request sample_cfg u"HR" u"Milan" u"3days"))
             w_second_tier)).
Proof.
  split.
  - destruct (fetch_linkedin_jobs_tiers sample_rt sample_cfg u"HR" u"Milan" 15 w_down)
      as (_ & _ & _ & Herr & _).
    apply Herr. reflexivity.
  - destruct (fetch_linkedin_jobs_tiers sample_rt sample_cfg u"HR" u"Milan" 2
                w_second_tier) as (_ & _ & _ & _ & _ & Hnext).
    destruct (Hnext (PList [])) as (_ & Hbatch & _);
      [vm_compute; reflexivity | reflexivity |].
    apply Hbatch; vm_compute; reflexivity.
Defined.

(** ** Rendering: [build_email] *)

Section Escaping.

Lemma startswith_nil (s : str) : PyStr.startswith s [] = true.
Proof. by destruct s. Qed.

(** Replacing a one-character pattern works character by character. *)
Lemma replace_char (s : str) (c : char) (new : str) :
  PyStr.replace s [c] new = s ≫= (fun x => if (x =? c)%N then new else [x]).
Proof.
  unfold PyStr.replace. induction s as [|x s IH]; [done|].
  rewrite bind_cons. cbn [PyStr.replace_go PyStr.startswith].
  rewrite startswith_nil, andb_true_r, N.eqb_sym.
  destruct (x =? c)%N; cbn [length Nat.sub app]; by rewrite IH.
Qed.

Lemma bind_bind {A B C} (f : A -> list B) (g : B -> list C) (l : list A) :
  (l ≫= f) ≫= g = l ≫= (fun x => f x ≫= g).
Proof.
  induction l as [|x l IH]; [done|].
  by rewrite !bind_cons, bind_app, IH.
Qed.

Lemma bind_ext_all {A B} (f g : A -> list B) (l : list A) :
  (forall x, f x = g x) -> l ≫= f = l ≫= g.
Proof.
  intros H. induction l as [|x l IH]; [done|].
  by rewrite !bind_cons, H, IH.
Qed.

(** Line 202, character by character. *)
Lemma escape_cv_chars (t : str) : escape_cv t = t ≫= esc_char.
Proof.
  unfold escape_cv.
  change (u"<") with [60%N]. change (u">") with [62%N].
  change (u"
") with [10%N].
  rewrite !replace_char, !bind_bind.
  apply bind_ext_all. intros x. unfold esc_char.
  destruct (N.eqb_spec x 60) as [->|H60]; [reflexivity|].
  rewrite bind_singleton.
  destruct (N.eqb_spec x 62) as [->|H62]; [reflexivity|].
  rewrite bind_singleton. reflexivity.
Qed.

(** No character of the escaped CV is the [<] or [>] of the tailored text:
    outside the [<br>] that stand for its line ends, the escaped CV has
    neither. *)
Lemma escape_cv_no_markup (t : str) :
  10%N ∉ t -> (60%N ∉ escape_cv t) /\ (62%N ∉ escape_cv t).
Proof.
  rewrite escape_cv_chars. induction t as [|x t IH]; intros Hnl.
  - split; apply not_elem_of_nil.
  - apply not_elem_of_cons in Hnl as [Hx Hnl]. destruct (IH Hnl) as [IH1 IH2].
    rewrite bind_cons. unfold esc_char at 1 3.
    destruct (N.eqb_spec x 60) as [->|H60].
    { split; intros [H|H]%elem_of_app; try done;
        vm_compute in H; repeat (apply elem_of_cons in H as [H|H]; [discriminate|]);
        by apply elem_of_nil in H. }
    destruct (N.eqb_spec x 62) as [->|H62].
    { split; intros [H|H]%elem_of_app; try done;
        vm_compute in H; repeat (apply elem_of_cons in H as [H|H]; [discriminate|]);
        by apply elem_of_nil in H. }
    destruct (N.eqb_spec x 10) as [->|H10]; [done|].
    split; intros [H|H]%elem_of_app; try done;
      apply list_elem_of_singleton in H; congruence.
Qed.

End Escaping.

Section Rendering.

Context (rt : runtime).

Lemma records_nil w : records [] w = w.
Proof. destruct w. unfold records. cbn. by rewrite app_nil_r. Qed.

Lemma tailor_cv_run cv job w content text :
  model w (count is_model (trace w)) (tailor_request rt cv job) = ModelMessage content ->
  first_text content = Ok text ->
  tailor_cv rt cv job w =
    (Ok (PyStr.strip text), record (EvModel (tailor_request rt cv job)) w).
Proof.
  intros Hm Ht. unfold tailor_cv, bind, messages_create, lift. by rewrite Hm, Ht.
Qed.

Lemma suggest_contacts_run job preferences w content text text' v :
  model w (count is_model (trace w)) (contacts_request rt job preferences)
    = ModelMessage content ->
  first_text content = Ok text ->
  strip_fences (PyStr.strip text) = Ok text' ->
  json_loads rt text' = Ok v ->
  suggest_contacts rt job preferences w =
    (Ok v, record (EvModel (contacts_request rt job preferences)) w).
Proof.
  intros Hm Ht Hf Hj. unfold suggest_contacts, bind, messages_create, lift.
  by rewrite Hm, Ht, Hf, Hj.
Qed.

(** The loop of [build_email] renders the tailored results the model
    returns. *)
Lemma build_sections_run cv preferences n rs : forall i w,
  tailored_from rt (model w) (count is_model (trace w)) cv preferences rs ->
  build_sections rt cv preferences n i (t_entry <$> rs) w =
    (render_sections rt i rs,
     records (tailoring_events rt cv preferences n i rs) w).
Proof.
  induction rs as [|r rs IH]; intros i w Hrs.
  - cbn. by rewrite records_nil.
  - destruct Hrs as [[(c1 & t1 & Hm1 & Ht1 & Hcv) (c2 & t2 & t2' & Hm2 & Ht2 & Hf2 & Hj2)] Hrs].
    cbn [fmap list_fmap build_sections render_sections tailoring_events].
    unfold bind at 1. cbn [log].
    unfold bind at 1.
    rewrite (tailor_cv_run _ _ _ c1 t1);
      [|by rewrite count_record; cbn; rewrite Nat.add_0_r|done].
    unfold bind at 1. cbn [log].
    unfold bind at 1.
    rewrite (suggest_contacts_run _ _ _ c2 t2 t2' (t_contacts r));
      [|by rewrite !count_record; cbn; rewrite !Nat.add_0_r, Nat.add_1_r|done..].
    unfold bind at 1, lift at 1.
    rewrite !record_records, !records_records. cbn [app].
    destruct (render_contacts rt (t_contacts r)) as [ch|e]; [|done].
    cbn [rbind]. unfold bind at 1.
    fold (fmap (M:=list) t_entry rs). rewrite IH.
    + rewrite Hcv, records_records. cbn [app].
      by destruct (render_sections rt (S i) rs).
    + cbn [records model trace]. rewrite count_app. cbn.
      by rewrite Nat.add_comm.
Qed.

(** [build_email] reads the clock, obtains the tailored results from the
    model and renders them. *)
Lemma build_email_run cv preferences rs w :
  tailored_from rt (model w) (count is_model (trace w)) cv preferences rs ->
  build_email rt (t_entry <$> rs) cv preferences w =
    (render_digest rt rs (clock w (count is_now (trace w)) heading_format),
     records (EvNow heading_format
                :: tailoring_events rt cv preferences (length rs) 1 rs) w).
Proof.
  intros Hrs. unfold build_email. unfold bind at 1. cbn [now_strftime].
  unfold bind at 1. rewrite length_fmap, build_sections_run.
  - rewrite record_records, records_records. cbn [app]. unfold render_digest.
    by destruct (render_sections rt 1 rs).
  - by rewrite count_record; cbn; rewrite Nat.add_0_r.
Qed.

(** A contact with four strings is rendered with them as they are. *)
Lemma contact_block_strings c p y s m :
  Py.getitem c u"profile_type" = Ok (PStr p) ->
  Py.getitem c u"why" = Ok (PStr y) ->
  Py.getitem c u"search_tip" = Ok (PStr s) ->
  Py.getitem c u"message_template" = Ok (PStr m) ->
  contact_block rt c =
    Ok (contact_open ++ p ++ contact_why ++ y ++ contact_find ++ s
        ++ contact_message ++ m ++ contact_close).
Proof.
  intros Hp Hy Hs Hm. unfold contact_block. by rewrite Hp, Hy, Hs, Hm.
Qed.

End Rendering.

Lemma imap_zip_fmap_r {A B C D} (f : nat -> A * C -> D) (g : B -> C)
    (l : list A) (k : list B) :
  imap f (zip l (g <$> k)) = imap (fun i p => f i (p.1, g p.2)) (zip l k).
Proof.
  revert f k. induction l as [|a l IH]; intros f [|b k]; try reflexivity.
  cbn [fmap list_fmap zip zip_with imap fst snd]. f_equal. apply (IH (f ∘ S)).
Qed.

Section Digest.

Context (rt : runtime).

Lemma section_html_escaped i r ch :
  section_html rt i (t_entry r) (escape_cv (t_cv r)) ch = section_escaped rt i r ch.
Proof. unfold section_html, section_escaped. by rewrite escape_cv_chars. Qed.

Lemma render_sections_closed rs : forall chs i,
  Forall2 (fun r ch => render_contacts rt (t_contacts r) = Ok ch) rs chs ->
  render_sections rt i rs =
    Ok (imap (fun k rc => section_escaped rt (i + k) rc.1 rc.2) (zip rs chs)).
Proof.
  induction rs as [|r rs IH]; intros chs i H.
  - by apply Forall2_nil_inv_l in H as ->.
  - apply Forall2_cons_inv_l in H as (ch & chs' & Hch & H & ->).
    cbn [render_sections zip zip_with imap]. rewrite Hch. cbn [rbind].
    rewrite (IH _ _ H). cbn [rbind fst snd].
    rewrite section_html_escaped, Nat.add_0_r. do 2 f_equal.
    apply imap_ext. intros k rc _. cbn. by rewrite Nat.add_succ_r.
Qed.

(** The digest in closed form, when the contacts of every job render. *)
Lemma build_email_closed rs chs cv preferences w :
  tailored_from rt (model w) (count is_model (trace w)) cv preferences rs ->
  Forall2 (fun r ch => render_contacts rt (t_contacts r) = Ok ch) rs chs ->
  (build_email rt (t_entry <$> rs) cv preferences w).1 =
    Ok (body_open (clock w (count is_now (trace w)) heading_format) (length rs)
        ++ concat (imap (fun k rc => section_escaped rt (S k) rc.1 rc.2) (zip rs chs))
        ++ body_close).
Proof.
  intros Hrs Hch. rewrite (build_email_run rt _ _ _ _ Hrs). cbn [fst].
  unfold render_digest. by rewrite (render_sections_closed _ _ _ Hch).
Qed.

Lemma render_contacts_verbatim cs fs :
  Forall2 contact_fields cs fs ->
  render_contacts rt (PList cs) = Ok (concat (contact_verbatim <$> fs)).
Proof.
  intros H. unfold render_contacts. cbn [Py.iter rbind].
  assert (Hmap : rmap (contact_block rt) cs = Ok (contact_verbatim <$> fs)).
  { induction H as [|c [[[p y] s] m] cs fs (Hp & Hy & Hs & Hm) _ IH]; [done|].
    cbn [rmap]. rewrite (contact_block_strings rt c p y s m Hp Hy Hs Hm), IH.
    cbn [rbind]. rewrite fmap_cons. unfold contact_verbatim at 2. reflexivity. }
  by rewrite Hmap.
Qed.

End Digest.

(** C1, as the code has it: the HTML [build_email] returns is a function of
    the tailored results and the date.  Two runs in which the model returns
    the same tailored CVs and contacts for the same ranked jobs, and the
    clock the same date, return the same value, the rendering of these
    results; the CV and the preferences of the two runs may even differ.
    [build_email] obtains the results itself: it reads the clock once and,
    for every job, logs twice and calls the model twice. *)
Theorem build_email_function_of_results (rt : runtime)
    (rs : list tailored_result)
    (cv1 preferences1 : str) (w1 : world) (cv2 preferences2 : str) (w2 : world) :
  tailored_from rt (model w1) (count is_model (trace w1)) cv1 preferences1 rs ->
  tailored_from rt (model w2) (count is_model (trace w2)) cv2 preferences2 rs ->
  clock w1 (count is_now (trace w1)) heading_format
    = clock w2 (count is_now (trace w2)) heading_format ->
  (build_email rt (t_entry <$> rs) cv1 preferences1 w1).1
    = (build_email rt (t_entry <$> rs) cv2 preferences2 w2).1
  /\ (build_email rt (t_entry <$> rs) cv1 preferences1 w1).1
       = render_digest rt rs (clock w1 (count is_now (trace w1)) heading_format)
  /\ trace (build_email rt (t_entry <$> rs) cv1 preferences1 w1).2
       = trace w1 ++ EvNow heading_format
                     :: tailoring_events rt cv1 preferences1 (length rs) 1 rs.
Proof.
  intros H1 H2 Hclock.
  rewrite (build_email_run rt _ _ _ _ H1), (build_email_run rt _ _ _ _ H2).
  cbn [fst snd]. unfold heading_format in *. by rewrite Hclock.
Qed.

(** C7: in the HTML [build_email] returns, the block of every job holds the
    tailored CV with each of its characters escaped on its own: [<] as
    [&lt;], [>] as [&gt;], a line end as [<br>], any other character as
    itself; no other part of the document depends on the CV text. *)
Theorem build_email_escapes_cv (rt : runtime) (rs : list tailored_result)
    (chs : list str) (cv preferences : str) (w : world) :
  tailored_from rt (model w) (count is_model (trace w)) cv preferences rs ->
  Forall2 (fun r ch => render_contacts rt (t_contacts r) = Ok ch) rs chs ->
  (build_email rt (t_entry <$> rs) cv preferences w).1 =
    Ok (body_open (clock w (count is_now (trace w)) heading_format) (length rs)
        ++ concat
             (imap (fun k rc =>
                      section_open rt (S k) (t_entry rc.1)
                      ++ (t_cv rc.1 ≫= esc_char)
                      ++ section_cv_close ++ rc.2 ++ section_close)
                (zip rs chs))
        ++ body_close).
Proof.
  intros Hrs Hch. rewrite (build_email_closed rt rs chs cv preferences w Hrs Hch).
  unfold section_escaped. reflexivity.
Qed.

(** C10: the four fields of a contact suggestion, when the model returns
    strings, stand in the HTML [build_email] returns as they are, between the
    fixed parts of the contact block: no character of them is escaped,
    whereas the tailored CV of the same block goes through [escape_cv]. *)
Theorem build_email_contacts_verbatim (rt : runtime) (rs : list tailored_result)
    (fss : list (list (str * str * str * str))) (cv preferences : str) (w : world) :
  tailored_from rt (model w) (count is_model (trace w)) cv preferences rs ->
  Forall2 (fun r fs => exists cs, t_contacts r = PList cs /\ Forall2 contact_fields cs fs)
    rs fss ->
  (build_email rt (t_entry <$> rs) cv preferences w).1 =
    Ok (body_open (clock w (count is_now (trace w)) heading_format) (length rs)
        ++ concat
             (imap (fun k rf =>
                      section_open rt (S k) (t_entry rf.1)
                      ++ escape_cv (t_cv rf.1)
                      ++ section_cv_close
                      ++ concat (contact_verbatim <$> rf.2)
                      ++ section_close)
                (zip rs fss))
        ++ body_close).
Proof.
  intros Hrs Hf.
  assert (Hch : Forall2 (fun r ch => render_contacts rt (t_contacts r) = Ok ch)
                  rs ((fun fs => concat (contact_verbatim <$> fs)) <$> fss)).
  { apply Forall2_fmap_r. eapply Forall2_impl; [exact Hf|].
    intros r fs (cs & -> & Hcs). by apply render_contacts_verbatim. }
  rewrite (build_email_closed rt rs _ cv preferences w Hrs Hch).
  rewrite imap_zip_fmap_r. do 4 f_equal.
  apply imap_ext. intros k rf _. unfold section_escaped. cbn [fst snd].
  by rewrite escape_cv_chars.
Qed.

Lemma build_email_function_of_results_witness :
  (build_email sample_rt (t_entry <$> [ result_a ]) u"cv" u"prefs" w_digest).1
    = (build_email sample_rt (t_entry <$> [ result_a ]) u"another cv" u"none"
         (record (EvSleep 5) w_digest)).1
  /\ (build_email sample_rt (t_entry <$> [ result_a ]) u"cv" u"prefs" w_digest).1
       = render_digest sample_rt [ result_a ]
           (clock w_digest (count is_now (trace w_digest)) heading_format)
  /\ trace (build_email sample_rt (t_entry <$> [ result_a ]) u"cv" u"prefs" w_digest).2
       = trace w_digest ++ EvNow heading_format
           :: tailoring_events sample_rt u"cv" u"prefs" (length [ result_a ]) 1
                [ result_a ].
Proof.
  apply (build_email_function_of_results sample_rt [ result_a ]
           u"cv" u"prefs" w_digest u"another cv" u"none" (record (EvSleep 5) w_digest)).
  - split; [split|exact I].
    + exists [ TextBlock (u"  " ++ cv_markup ++ u"  ") ], (u"  " ++ cv_markup ++ u"  ").
      repeat split; vm_compute; reflexivity.
    + exists [ TextBlock text_contact ], text_contact, text_contact.
      repeat split; vm_compute; reflexivity.
  - split; [split|exact I].
    + exists [ TextBlock (u"  " ++ cv_markup ++ u"  ") ], (u"  " ++ cv_markup ++ u"  ").
      repeat split; vm_compute; reflexivity.
    + exists [ TextBlock text_contact ], text_contact, text_contact.
      repeat split; vm_compute; reflexivity.
  - vm_compute. reflexivity.
Defined.

(** C1 as stated fails: on one job [build_email] calls the model twice and
    reads the clock once; and with the same arguments and the same date its
    HTML changes with the answers of the model. *)
Lemma build_email_calls_the_model :
  count is_model (trace w_digest) = 0%nat
  /\ count is_model
       (trace (build_email sample_rt [ entry_a ] u"cv" u"prefs" w_digest).2) = 2%nat
  /\ count is_now
       (trace (build_email sample_rt [ entry_a ] u"cv" u"prefs" w_digest).2) = 1%nat
  /\ clock w_digest = clock w_digest_other
  /\ (build_email sample_rt [ entry_a ] u"cv" u"prefs" w_digest).1
       <> (build_email sample_rt [ entry_a ] u"cv" u"prefs" w_digest_other).1.
Proof.
  split; [vm_compute; reflexivity|].
  split; [vm_compute; reflexivity|].
  split; [vm_compute; reflexivity|].
  split; [reflexivity|].
  intros H.
  apply (f_equal (fun r => match r with
                           | Ok h => contains h u"Another CV"
                           | Raise _ => false
                           end)) in H.
  vm_compute in H. discriminate.
Qed.

Lemma build_email_escapes_cv_witness :
  (build_email sample_rt (t_entry <$> [ result_a ]) u"cv" u"prefs" w_digest).1 =
    Ok (body_open (clock w_digest (count is_now (trace w_digest)) heading_format)
          (length [ result_a ])
        ++ concat
             (imap (fun k rc =>
                      section_open sample_rt (S k) (t_entry rc.1)
                      ++ (t_cv rc.1 ≫= esc_char)
                      ++ section_cv_close ++ rc.2 ++ section_close)
                (zip [ result_a ] [ contact_verbatim fields_markup ]))
        ++ body_close).
Proof.
  apply (build_email_escapes_cv sample_rt [ result_a ]
           [ contact_verbatim fields_markup ] u"cv" u"prefs" w_digest).
  - split; [split|exact I].
    + exists [ TextBlock (u"  " ++ cv_markup ++ u"  ") ], (u"  " ++ cv_markup ++ u"  ").
      repeat split; vm_compute; reflexivity.
    + exists [ TextBlock text_contact ], text_contact, text_contact.
      repeat split; vm_compute; reflexivity.
  - constructor; [vm_compute; reflexivity|constructor].
Defined.

(** The markup of the tailored CV reaches the digest escaped, and not as it
    was. *)
Example digest_cv_escaped :
  match (build_email sample_rt [ entry_a ] u"cv" u"prefs" w_digest).1 with
  | Ok html =>
      contains html u"Skills: a&lt;b&gt; & c<br>Done" = true
      /\ contains html u"a<b>" = false
  | Raise _ => False
  end.
Proof. vm_compute. split; reflexivity. Qed.

Lemma build_email_contacts_verbatim_witness :
  (build_email sample_rt (t_entry <$> [ result_a ]) u"cv" u"prefs" w_digest).1 =
    Ok (body_open (clock w_digest (count is_now (trace w_digest)) heading_format)
          (length [ result_a ])
        ++ concat
             (imap (fun k rf =>
                      section_open sample_rt (S k) (t_entry rf.1)
                      ++ escape_cv (t_cv rf.1)
                      ++ section_cv_close
                      ++ concat (contact_verbatim <$> rf.2)
                      ++ section_close)
                (zip [ result_a ] [ [ fields_markup ] ]))
        ++ body_close).
Proof.
  apply (build_email_contacts_verbatim sample_rt [ result_a ] [ [ fields_markup ] ]
           u"cv" u"prefs" w_digest).
  - split; [split|exact I].
    + exists [ TextBlock (u"  " ++ cv_markup ++ u"  ") ], (u"  " ++ cv_markup ++ u"  ").
      repeat split; vm_compute; reflexivity.
    + exists [ TextBlock text_contact ], text_contact, text_contact.
      repeat split; vm_compute; reflexivity.
  - constructor; [|constructor].
    exists [ contact u"HR <b>Lead</b>" u"hires > 10" u"Acme HR" u"Hi <name>" ].
    split; [reflexivity|].
    constructor; [|constructor].
    repeat split; vm_compute; reflexivity.
Defined.

(** The markup of a contact field reaches the digest as it was. *)
Example digest_contact_markup :
  match (build_email sample_rt [ entry_a ] u"cv" u"prefs" w_digest).1 with
  | Ok html =>
      contains html u"<strong>🔗 HR <b>Lead</b></strong>" = true
      /\ contains html u"<em>Message:</em> ~Hi <name>~" = true
  | Raise _ => False
  end.
Proof. vm_compute. split; reflexivity. Qed.

(** ** The run *)

Section NoSmtp.

Lemma no_smtp_ret {A} (a : A) : no_smtp (ret a).
Proof. intros w. exists []. by rewrite records_nil. Qed.

Lemma no_smtp_lift {A} (r : result A) : no_smtp (lift r).
Proof. intros w. exists []. by rewrite records_nil. Qed.

Lemma no_smtp_bind {A B} (c : M A) (k : A -> M B) :
  no_smtp c -> (forall a, no_smtp (k a)) -> no_smtp (bind c k).
Proof.
  intros Hc Hk w. destruct (Hc w) as (evs1 & E1 & C1). unfold bind.
  destruct (c w) as [[a|e] w1]; cbn [snd] in E1; subst w1.
  - destruct (Hk a (records evs1 w)) as (evs2 & E2 & C2).
    exists (evs1 ++ evs2). rewrite E2, records_records, count_app, C1, C2. done.
  - by exists evs1.
Qed.

Lemma no_smtp_try_except {A} (body : M A) (handler : exn -> M A) :
  no_smtp body -> (forall e, no_smtp (handler e)) -> no_smtp (try_except body handler).
Proof.
  intros Hb Hh w. destruct (Hb w) as (evs1 & E1 & C1). unfold try_except.
  destruct (body w) as [[a|e] w1]; cbn [snd] in E1; subst w1.
  - by exists evs1.
  - destruct (Hh e (records evs1 w)) as (evs2 & E2 & C2).
    exists (evs1 ++ evs2). rewrite E2, records_records, count_app, C1, C2. done.
Qed.

Lemma no_smtp_log lvl msg : no_smtp (log lvl msg).
Proof. intros w. by exists [ EvLog lvl msg ]. Qed.

Lemma no_smtp_sleep secs : no_smtp (sleep secs).
Proof. intros w. by exists [ EvSleep secs ]. Qed.

Lemma no_smtp_load_file path : no_smtp (load_file path).
Proof. intros w. by exists [ EvReadFile path ]. Qed.

Lemma no_smtp_requests_get req : no_smtp (requests_get req).
Proof.
  intros w. exists [ EvHttpGet req ]. unfold requests_get.
  by destruct (http w _ _).
Qed.

Lemma no_smtp_messages_create req : no_smtp (messages_create req).
Proof.
  intros w. exists [ EvModel req ]. unfold messages_create.
  by destruct (model w _ _).
Qed.

End NoSmtp.

Create HintDb no_smtp.

#[local] Hint Resolve no_smtp_ret no_smtp_lift no_smtp_log no_smtp_sleep
  no_smtp_load_file no_smtp_requests_get no_smtp_messages_create : no_smtp.

Ltac no_smtp_steps :=
  repeat first
    [ apply no_smtp_bind; [|intros ?]
    | apply no_smtp_try_except; [|intros ?]
    | solve [ auto with no_smtp ] ].

Section Run.

Context (rt : runtime) (cfg : config).

Lemma no_smtp_fetch keywords location limit :
  no_smtp (fetch_linkedin_jobs rt cfg keywords location limit).
Proof.
  unfold fetch_linkedin_jobs.
  induction [ u"3days"; u"week" ] as [|date_posted tiers IH]; cbn [fetch_tiers].
  - no_smtp_steps.
  - apply no_smtp_bind; [unfold fetch_tier; no_smtp_steps|].
    intros [jobs|]; [no_smtp_steps|exact IH].
Qed.

Lemma no_smtp_select jobs cv preferences :
  no_smtp (select_top_jobs rt jobs cv preferences).
Proof. unfold select_top_jobs. destruct jobs; no_smtp_steps. Qed.

Lemma no_smtp_search_all ss : forall st, no_smtp (search_all rt cfg ss st).
Proof.
  induction ss as [|[keywords location] ss IH]; intros st; cbn [search_all].
  - no_smtp_steps.
  - apply no_smtp_bind; [no_smtp_steps|intros _].
    apply no_smtp_bind; [apply no_smtp_fetch|intros results].
    no_smtp_steps.
Qed.

Lemma no_smtp_run_ranking : no_smtp (run_ranking rt cfg).
Proof.
  unfold run_ranking.
  repeat first
    [ apply no_smtp_search_all
    | apply no_smtp_select
    | solve [ auto with no_smtp ]
    | apply no_smtp_bind; [|intros ?] ].
Qed.

(** [run] is [run_ranking] followed by the test of line 292. *)
Lemma run_after_ranking w :
  run rt cfg w =
    match run_ranking rt cfg w with
    | (Ok (cv, preferences, top_jobs), w') =>
        match top_jobs with
        | [] => (Ok tt, record skip_warning w')
        | _ :: _ =>
            bind (build_email rt top_jobs cv preferences)
              (fun html => bind (send_email cfg html)
                 (fun _ => log INFO u"Done ✅")) w'
        end
    | (Raise e, w') => (Raise e, w')
    end.
Proof.
  unfold run, run_ranking.
  unfold bind at 1 11. cbn [log].
  unfold bind at 1 10.
  destruct (load_file (CV_PATH cfg) _) as [[cv|e] w1]; [|reflexivity].
  unfold bind at 1 9.
  destruct (load_file (PREFERENCES_PATH cfg) _) as [[preferences|e] w2]; [|reflexivity].
  unfold bind at 1 8.
  destruct (search_all rt cfg searches _ _) as [[st|e] w3]; [|reflexivity].
  unfold bind at 1 7. cbn [log].
  unfold bind at 1 6, lift.
  destruct (parse_jobs st.2) as [jobs|e]; [|reflexivity].
  unfold bind at 1 5.
  destruct (select_top_jobs rt jobs cv preferences _) as [[top_jobs|e] w4];
    [|reflexivity].
  unfold bind at 1 4. cbn [log]. unfold ret.
  destruct top_jobs; reflexivity.
Qed.

End Run.

(** C8: when the ranking step of a run selects no job, [run] logs the
    warning and returns normally: it raises nothing, the warning is the last
    entry of the trace, and no SMTP step has been performed since the run
    began. *)
Theorem run_skips_email_when_nothing_selected (rt : runtime) (cfg : config)
    (w w' : world) (cv preferences : str) :
  run_ranking rt cfg w = (Ok (cv, preferences, []), w') ->
  run rt cfg w = (Ok tt, record skip_warning w')
  /\ count is_smtp (trace (run rt cfg w).2) = count is_smtp (trace w).
Proof.
  intros H. rewrite run_after_ranking, H. split; [reflexivity|].
  cbn [snd]. rewrite count_record. cbn [skip_warning is_smtp].
  destruct (no_smtp_run_ranking rt cfg w) as (evs & Hw & Hc).
  rewrite H in Hw. cbn [snd] in Hw. rewrite Hw. cbn [records trace].
  rewrite count_app, Hc. lia.
Qed.

Lemma run_skips_email_when_nothing_selected_witness :
  run sample_rt sample_cfg w_nothing =
    (Ok tt, record skip_warning (run_ranking sample_rt sample_cfg w_nothing).2)
  /\ count is_smtp (trace (run sample_rt sample_cfg w_nothing).2)
       = count is_smtp (trace w_nothing).
Proof.
  apply (run_skips_email_when_nothing_selected sample_rt sample_cfg w_nothing
           (run_ranking sample_rt sample_cfg w_nothing).2
           u"contents of cv.txt" u"contents of preferences.txt").
  vm_compute. reflexivity.
Defined.

(** End to end: every search comes back empty, six requests are made, no
    job is selected, the model is not called and no mail is sent. *)
Example run_with_empty_searches :
  (run sample_rt sample_cfg w_nothing).1 = Ok tt
  /\ count is_http (trace (run sample_rt sample_cfg w_nothing).2) = 6%nat
  /\ count is_model (trace (run sample_rt sample_cfg w_nothing).2) = 0%nat
  /\ count is_smtp (trace (run sample_rt sample_cfg w_nothing).2) = 0%nat.
Proof. vm_compute. repeat split. Qed.

(** ** Further properties: [parse_jobs] *)

Section Normalisation.

Lemma or_text_nil (s : str) : or_text s [] = s.
Proof. by destruct s. Qed.

Lemma slice_to_3000 {A} (l : list A) : slice_to 3000 l = take 3000 l.
Proof. reflexivity. Qed.

(** What [j.get(k)] gives on a field that is missing, text or false, and
    what [or] makes of it. *)
Lemma get_text_or_false kv k :
  text_or_false k kv ->
  exists v,
    Py.get (PDict kv) k PNone = Ok v
    /\ (forall d, Py.or v (PStr d) = PStr (or_text (text_of k kv) d))
    /\ (Py.truthy v = true -> v = PStr (text_of k kv))
    /\ (Py.truthy v = false -> text_of k kv = []).
Proof.
  unfold text_or_false, text_of, Py.get.
  destruct (Py.dict_lookup k kv) as [v|]; [|intros _; by exists PNone].
  intros [[s ->]|Hf].
  - exists (PStr s). split; [done|]. destruct s; repeat split; done.
  - exists v. split; [done|]. unfold Py.or. rewrite Hf.
    repeat split; try done; by destruct v as [| | |[]| |].
Qed.

Lemma parse_job_textual kv : textual kv -> parse_job (PDict kv) = Ok (normalised kv).
Proof.
  intros H. unfold textual, optional_keys in H.
  repeat (apply Forall_cons_1 in H; destruct H as [?%get_text_or_false H]).
  repeat match goal with
         | H : exists v, _ |- _ => destruct H as (? & ? & ? & ? & ?)
         end.
  unfold parse_job, normalised.
  repeat match goal with
         | H : Py.get _ _ _ = Ok _ |- _ => rewrite H; clear H; cbn [rbind]
         | H : forall d, Py.or _ _ = _ |- _ => rewrite !H; cbn [rbind Py.add]
         end.
  rewrite !or_text_nil, <- app_assoc. cbn [Py.slice rbind]. rewrite slice_to_3000.
  match goal with
  | |- context [if Py.truthy ?a then _ else _] => destruct (Py.truthy a) eqn:Ht
  end; cbn [rbind].
  - match goal with
    | H : true = true -> _ = PStr _ |- _ => rewrite (H eq_refl) in Ht |- *
    end.
    destruct (text_of u"job_apply_link" kv); [discriminate|reflexivity].
  - match goal with
    | H : false = false -> text_of _ _ = [] |- _ => rewrite (H eq_refl)
    end.
    reflexivity.
Qed.

Lemma slice_seq_len v k d :
  0 <= k -> Py.slice v k = Ok d ->
  exists n, seq_len d = Some n /\ (n <= Z.to_nat k)%nat.
Proof.
  intros Hk. unfold Py.slice, slice_to.
  destruct (Z.leb_spec 0 k); [|lia].
  destruct v; intros [= <-]; cbn [seq_len];
    (eexists; split; [reflexivity|]); rewrite length_take; lia.
Qed.

Lemma parse_job_description r j :
  parse_job r = Ok j -> exists d, Py.slice d 3000 = Ok (j_description j).
Proof.
  unfold parse_job. intros H.
  repeat match type of H with
         | rbind ?c _ = Ok _ =>
             let E := fresh "E" in
             destruct c eqn:E; cbn [rbind] in H; [|discriminate]
         end.
  injection H as <-. cbn [j_description]. eauto.
Qed.

End Normalisation.

(** X1: on raw records whose fields are missing, strings or
    values that count as false, [parse_jobs] returns one listing per
    record, in order: title and company are the text or Unknown, the
    location is city, comma, space, country, the url is the apply link or
    else the Google link, the description is the first 3000 characters, and
    a null, 0, false or empty field is read as a missing one. *)
Theorem parse_jobs_textual (kvs : list (list (str * pyval))) :
  Forall textual kvs ->
  parse_jobs (PDict <$> kvs) = Ok (normalised <$> kvs).
Proof.
  unfold parse_jobs. induction 1 as [|kv kvs Hkv _ IH]; [reflexivity|].
  cbn [fmap list_fmap rmap]. rewrite (parse_job_textual kv Hkv).
  cbn [rbind]. fold (fmap (M:=list) PDict kvs). rewrite IH. reflexivity.
Qed.

Lemma parse_jobs_textual_witness :
  parse_jobs [ PDict raw_full ] =
    Ok [ {| j_title := PStr u"HR Manager";
            j_company := PStr u"Unknown";
            j_location := PStr u"Milan, IT";
            j_url := PStr u"https://example.org/g";
            j_description := PStr u"People operations";
            j_posted := PStr [] |} ].
Proof.
  apply (parse_jobs_textual [ raw_full ]).
  constructor; [|constructor].
  unfold textual, optional_keys.
  repeat (apply Forall_cons_2); try apply Forall_nil_2; vm_compute;
    first [ exact I | left; eexists; reflexivity | right; reflexivity ].
Defined.

(** X2: whenever [parse_jobs] returns, it returns as
    many listings as there were raw records, and the description of every
    listing is a str or a list of at most 3000 items. *)
Theorem parse_jobs_description_cap (raw_jobs : list pyval) (jobs : list listing) :
  parse_jobs raw_jobs = Ok jobs ->
  length jobs = length raw_jobs
  /\ Forall (fun j => exists n, seq_len (j_description j) = Some n /\ (n <= 3000)%nat)
       jobs.
Proof.
  intros H%rmap_length. split; [symmetry; by eapply Forall2_length|].
  induction H as [|r j raw_jobs jobs Hj _ IH]; constructor; [|exact IH].
  apply parse_job_description in Hj as [d Hd].
  apply slice_seq_len in Hd as (n & Hn & Hle); [|lia].
  exists n. split; [exact Hn|]. change (Z.to_nat 3000) with 3000%nat in Hle. exact Hle.
Qed.

Lemma parse_jobs_description_cap_witness :
  length [ normalised raw_full ] = length [ PDict raw_full ]
  /\ Forall (fun j => exists n, seq_len (j_description j) = Some n /\ (n <= 3000)%nat)
       [ normalised raw_full ].
Proof.
  apply (parse_jobs_description_cap [ PDict raw_full ] [ normalised raw_full ]).
  vm_compute. reflexivity.
Defined.

(** X3: a raw record that is not an object (a string, a
    number, null, an array) makes [parse_jobs] raise AttributeError when
    the records before it parse: nothing is returned for the records that
    did. *)
Theorem parse_jobs_not_a_dict (raw1 : list pyval) (jobs1 : list listing)
    (v : pyval) (raw2 : list pyval) :
  parse_jobs raw1 = Ok jobs1 ->
  (forall kv, v <> PDict kv) ->
  parse_jobs (raw1 ++ v :: raw2) = Raise AttributeError.
Proof.
  intros H1%rmap_length Hv. unfold parse_jobs. apply rmap_raise_at.
  - induction H1; constructor; eauto.
  - destruct v; try reflexivity. by destruct (Hv kv).
Qed.

Lemma parse_jobs_not_a_dict_witness :
  parse_jobs ([ PDict raw_full ] ++ PStr u"quota exceeded" :: [ PDict [] ])
    = Raise AttributeError.
Proof.
  apply (parse_jobs_not_a_dict [ PDict raw_full ] [ normalised raw_full ]).
  - vm_compute. reflexivity.
  - discriminate.
Defined.

(** ** Further properties: the code fences of the model's answers *)

Section Fences.

Lemma split_go_nonempty sep s : forall skip cur, PyStr.split_go sep s skip cur <> [].
Proof.
  induction s as [|c s IH]; intros skip cur; cbn [PyStr.split_go]; [done|].
  destruct skip; [|apply IH].
  destruct (PyStr.startswith (c :: s) sep); [done|apply IH].
Qed.

(** A text that starts with the separator splits in at least two pieces,
    the first of them empty. *)
Lemma split_leading sep text :
  sep <> [] -> PyStr.startswith text sep = true ->
  exists p ps, PyStr.split text sep = [] :: p :: ps.
Proof.
  intros Hsep Hs. unfold PyStr.split.
  destruct text as [|c s]; [by destruct sep|].
  cbn [PyStr.split_go]. rewrite Hs.
  pose proof (split_go_nonempty sep s (length sep - 1) []) as Hne.
  destruct (PyStr.split_go sep s (length sep - 1) []) as [|p ps]; [done|].
  by exists p, ps.
Qed.

Lemma split_go_cons sep c s skip cur :
  PyStr.split_go sep (c :: s) skip cur =
    match skip with
    | S k => PyStr.split_go sep s k cur
    | O =>
        if PyStr.startswith (c :: s) sep
        then reverse cur :: PyStr.split_go sep s (length sep - 1) []
        else PyStr.split_go sep s 0 (c :: cur)
    end.
Proof. reflexivity. Qed.

Lemma startswith_app (p s : str) : PyStr.startswith (p ++ s) p = true.
Proof.
  induction p as [|a p IH]; [apply startswith_nil|].
  cbn [app PyStr.startswith]. by rewrite N.eqb_refl, IH.
Qed.

Lemma startswith_fence_ne (c : char) (s : str) :
  backtick <> c -> PyStr.startswith (c :: s) fence = false.
Proof.
  intros Hc. change fence with [backtick; backtick; backtick].
  cbn [PyStr.startswith]. by destruct (N.eqb_spec backtick c).
Qed.

(** With [skip] at two, the two other backticks of a fence are passed
    over. *)
Lemma split_go_after_fence s cur :
  PyStr.split_go fence (fence ++ s) 0 cur =
    reverse cur :: PyStr.split_go fence s 0 [].
Proof.
  change (fence ++ s) with (backtick :: backtick :: backtick :: s).
  rewrite split_go_cons.
  change (backtick :: backtick :: backtick :: s) with (fence ++ s).
  rewrite startswith_app. change (length fence - 1)%nat with 2%nat.
  by rewrite !split_go_cons.
Qed.

(** Up to the next fence, a text without backtick is one piece. *)
Lemma split_go_fence inner rest : forall cur,
  backtick ∉ inner ->
  PyStr.split_go fence (inner ++ fence ++ rest) 0 cur =
    reverse (reverse inner ++ cur) :: PyStr.split_go fence rest 0 [].
Proof.
  induction inner as [|c inner IH]; intros cur Hn.
  - rewrite app_nil_l, split_go_after_fence. reflexivity.
  - apply not_elem_of_cons in Hn as [Hc Hn].
    rewrite <- app_comm_cons, split_go_cons, (startswith_fence_ne _ _ Hc).
    rewrite (IH (c :: cur) Hn), reverse_cons, <- app_assoc. reflexivity.
Qed.

(** The pieces of a text that starts with a fence, when the text up to
    the next fence has no backtick. *)
Lemma split_fenced inner rest :
  backtick ∉ inner ->
  exists tail, PyStr.split (fence ++ inner ++ fence ++ rest) fence = [] :: inner :: tail.
Proof.
  intros Hn. unfold PyStr.split.
  rewrite split_go_after_fence, (split_go_fence inner rest [] Hn).
  rewrite app_nil_r, reverse_involutive. by eexists.
Qed.

End Fences.

(** X4: the fence stripping of lines 118-121 and 173-176
    never raises: a text that does not start with a fence is left as it is,
    and a text that starts with one always has a piece after it, so the
    index 1 of line 119 is never out of range. *)
Theorem strip_fences_returns (text : str) :
  exists t, strip_fences text = Ok t
    /\ (PyStr.startswith text fence = false -> t = text).
Proof.
  unfold strip_fences. fold fence.
  destruct (PyStr.startswith text fence) eqn:Hs; [|by exists text].
  destruct (split_leading fence text) as (p & ps & ->); [done|exact Hs|].
  unfold str in *.
  destruct (list_getitem_in_range ([] :: p :: ps) 1) as (b & -> & _);
    [cbn [length]; lia|].
  cbn [rbind]. destruct (PyStr.startswith b _); eexists; (split; [reflexivity|done]).
Qed.

(** X5: of a text that starts with a fence, where the
    text up to the next fence has no backtick, what is kept is exactly that
    text, without its four first characters when it starts with json;
    whatever follows the closing fence is dropped. *)
Theorem strip_fences_fenced (inner rest : str) :
  backtick ∉ inner ->
  strip_fences (fence ++ inner ++ fence ++ rest) =
    Ok (if PyStr.startswith inner u"json" then drop 4 inner else inner).
Proof.
  intros Hn. unfold strip_fences. fold fence.
  rewrite startswith_app. destruct (split_fenced inner rest Hn) as [tail ->].
  unfold str in *.
  destruct (list_getitem_in_range ([] :: inner :: tail) 1) as (b & -> & Hb);
    [cbn [length]; lia|].
  injection Hb as <-. cbn [rbind].
  destruct (PyStr.startswith inner _); reflexivity.
Qed.

Lemma strip_fences_fenced_witness :
  strip_fences text_fenced_tail = Ok u"
[]
".
Proof.
  apply (strip_fences_fenced u"json
[]
" u"
That is all.").
  vm_compute. intros H.
  repeat (apply elem_of_cons in H as [H|H]; [discriminate|]).
  by apply elem_of_nil in H.
Defined.

(** ** Further properties: the ranking of [select_top_jobs] *)

Section Stability.

Context {A : Type} (key : A -> Z) (s : Z).

Lemma filter_insert_asc x ys :
  filter (fun y => key y = s) (insert_asc key x ys)
    = filter (fun y => key y = s) (x :: ys).
Proof.
  induction ys as [|y ys IH]; [done|]. cbn [insert_asc].
  destruct (Z.ltb_spec (key y) (key x)) as [Hlt|_]; [|done].
  rewrite (filter_cons _ y), IH, !(filter_cons _ x), (filter_cons _ y).
  destruct (decide (key y = s)), (decide (key x = s)); try done; lia.
Qed.

Lemma filter_sort_asc l :
  filter (fun y => key y = s) (sort_asc key l) = filter (fun y => key y = s) l.
Proof.
  induction l as [|x l IH]; [done|]. cbn [sort_asc].
  by rewrite filter_insert_asc, !(filter_cons _ x), IH.
Qed.

(** The descending sort keeps the items of one key in the order they had. *)
Lemma filter_sort_desc l :
  filter (fun y => key y = s) (sort_desc key l) = filter (fun y => key y = s) l.
Proof.
  unfold sort_desc.
  by rewrite filter_reverse, filter_sort_asc, filter_reverse, reverse_involutive.
Qed.

End Stability.

(** X6: the sort of line 123 is stable although it is
    descending: among the entries of one score, the order of the model's
    array is kept, so that on a tie the entry the model listed first ranks
    first and is the one that survives the cut to ten. *)
Theorem sorted_ties_keep_order (rt : runtime) (jobs : list listing)
    (items : list pyval) :
  Forall ranking_entry items ->
  exists sorted,
    Py.sorted_reverse rt (fun x => Py.getitem x u"score") items = Ok sorted
    /\ top_of_rankings rt jobs (PList items) = rmap (rank_entry jobs) (take 10 sorted)
    /\ forall s, filter (fun r => score_of r = s) sorted
                 = filter (fun r => score_of r = s) items.
Proof.
  intros H. exists (sort_desc score_of items).
  split; [|split].
  - apply sorted_reverse_int.
    eapply Forall_impl; [exact H|]. cbn. by intros r (_ & ? & _)%ranking_entry_fields.
  - by rewrite (top_of_rankings_entries rt _ _ H).
  - intros s. apply filter_sort_desc.
Qed.

Lemma sorted_ties_keep_order_witness :
  exists sorted,
    Py.sorted_reverse sample_rt (fun x => Py.getitem x u"score") items_tie = Ok sorted
    /\ top_of_rankings sample_rt two_jobs (PList items_tie)
         = rmap (rank_entry two_jobs) (take 10 sorted)
    /\ forall s, filter (fun r => score_of r = s) sorted
                 = filter (fun r => score_of r = s) items_tie.
Proof.
  apply (sorted_ties_keep_order sample_rt two_jobs items_tie).
  repeat constructor; vm_compute; eauto.
Defined.

(** X7: [select_top_jobs] catches nothing: when the
    call of the model raises, and when the model's text is not JSON, the
    exception leaves [select_top_jobs] as it is, after the one call of the
    model; no second call is made. *)
Theorem select_top_jobs_uncaught (rt : runtime) (jobs : list listing)
    (cv preferences : str) (w : world) :
  jobs <> [] ->
  (forall e,
     model w (count is_model (trace w)) (ranking_request rt jobs cv preferences)
       = ModelRaise e ->
     select_top_jobs rt jobs cv preferences w =
       (Raise e, record (EvModel (ranking_request rt jobs cv preferences)) w))
  /\ (forall content text text' e,
        model w (count is_model (trace w)) (ranking_request rt jobs cv preferences)
          = ModelMessage content ->
        first_text content = Ok text ->
        strip_fences (PyStr.strip text) = Ok text' ->
        json_loads rt text' = Raise e ->
        select_top_jobs rt jobs cv preferences w =
          (Raise e, record (EvModel (ranking_request rt jobs cv preferences)) w)).
Proof.
  intros Hne. destruct jobs as [|j jobs]; [done|].
  split.
  - intros e Hm. unfold select_top_jobs, bind, messages_create. by rewrite Hm.
  - intros content text text' e Hm Ht Hf Hj.
    unfold select_top_jobs, bind, messages_create, lift. by rewrite Hm, Ht, Hf, Hj.
Qed.

Lemma select_top_jobs_uncaught_witness :
  select_top_jobs sample_rt two_jobs u"cv" u"prefs" w_model_down =
    (Raise (LibraryError u"APIConnectionError" u"Connection error."),
     record (EvModel req_two) w_model_down)
  /\ select_top_jobs sample_rt two_jobs u"cv" u"prefs" w_prose =
       (Raise (LibraryError u"JSONDecodeError" u"Expecting value"),
        record (EvModel req_two) w_prose).
Proof.
  assert (Hne : two_jobs <> []) by discriminate.
  split.
  - apply (proj1 (select_top_jobs_uncaught sample_rt two_jobs u"cv" u"prefs"
                    w_model_down Hne)).
    reflexivity.
  - apply (proj2 (select_top_jobs_uncaught sample_rt two_jobs u"cv" u"prefs"
                    w_prose Hne)
             [ TextBlock u"I cannot rank these jobs." ] u"I cannot rank these jobs."
             u"I cannot rank these jobs."); vm_compute; reflexivity.
Defined.

(** X8: an entry of the model's array that is an
    object without the key score makes [select_top_jobs] raise KeyError,
    wherever it stands in the array and whatever its score would have been:
    the keys are read from all entries before the cut to ten. *)
Theorem select_top_jobs_missing_score (rt : runtime) (jobs : list listing)
    (cv preferences : str) (w : world)
    (items1 : list pyval) (kv : list (str * pyval)) (items2 : list pyval) :
  jobs <> [] ->
  model_answers rt w (ranking_request rt jobs cv preferences)
    (PList (items1 ++ PDict kv :: items2)) ->
  Forall (fun r => exists v, Py.getitem r u"score" = Ok v) items1 ->
  Py.dict_lookup u"score" kv = None ->
  select_top_jobs rt jobs cv preferences w =
    (Raise KeyError, record (EvModel (ranking_request rt jobs cv preferences)) w).
Proof.
  intros Hne Hm H1 Hkv.
  rewrite (select_top_jobs_parsed rt _ _ _ _ _ Hne Hm). f_equal.
  unfold top_of_rankings, Py.sorted_reverse. cbn [Py.iter rbind].
  rewrite (rmap_raise_at _ items1 items2 (PDict kv) KeyError); [done| |].
  - eapply Forall_impl; [exact H1|]. cbn. intros r [v ->]. cbn. eauto.
  - cbn [Py.getitem]. by rewrite Hkv.
Qed.

Lemma select_top_jobs_missing_score_witness :
  select_top_jobs (rt_parsing (PList (items_eleven ++ PDict entry_no_score :: [])))
    two_jobs u"cv" u"prefs" w_prose =
    (Raise KeyError,
     record (EvModel (ranking_request
                        (rt_parsing (PList (items_eleven ++ PDict entry_no_score :: [])))
                        two_jobs u"cv" u"prefs")) w_prose).
Proof.
  apply (select_top_jobs_missing_score
           (rt_parsing (PList (items_eleven ++ PDict entry_no_score :: [])))
           two_jobs u"cv" u"prefs" w_prose items_eleven entry_no_score []).
  - discriminate.
  - eexists _, _, _. repeat split; vm_compute; reflexivity.
  - repeat constructor; vm_compute; eauto.
  - vm_compute. reflexivity.
Defined.

(** X9: when the model answers with a JSON object
    instead of an array, line 123 sorts the keys of the object: with at
    least one key [select_top_jobs] raises TypeError (a str has no item
    score), and on the empty object it returns no job. *)
Theorem select_top_jobs_object_answer (rt : runtime) (jobs : list listing)
    (cv preferences : str) (w : world) (kv : list (str * pyval)) :
  jobs <> [] ->
  model_answers rt w (ranking_request rt jobs cv preferences) (PDict kv) ->
  select_top_jobs rt jobs cv preferences w =
    (match kv with [] => Ok [] | _ :: _ => Raise TypeError end,
     record (EvModel (ranking_request rt jobs cv preferences)) w).
Proof.
  intros Hne Hm.
  rewrite (select_top_jobs_parsed rt _ _ _ _ _ Hne Hm). f_equal.
  unfold top_of_rankings, Py.sorted_reverse. cbn [Py.iter rbind].
  destruct kv as [|[k v] kv]; reflexivity.
Qed.

Lemma select_top_jobs_object_answer_witness :
  select_top_jobs (rt_parsing (PDict [ (u"rankings", PList items_two) ]))
    two_jobs u"cv" u"prefs" w_prose =
    (Raise TypeError,
     record (EvModel (ranking_request
                        (rt_parsing (PDict [ (u"rankings", PList items_two) ]))
                        two_jobs u"cv" u"prefs")) w_prose).
Proof.
  apply (select_top_jobs_object_answer
           (rt_parsing (PDict [ (u"rankings", PList items_two) ]))
           two_jobs u"cv" u"prefs" w_prose [ (u"rankings", PList items_two) ]).
  - discriminate.
  - eexists _, _, _. repeat split; vm_compute; reflexivity.
Defined.

(** ** Further properties: tailoring and rendering *)

Section Strip.

Lemma lstrip_split (s : str) : exists pre, s = pre ++ PyStr.lstrip s /\ blank pre.
Proof.
  induction s as [|c s (pre & Hs & Hpre)];
    [exists []; split; [done|constructor]|].
  cbn [PyStr.lstrip]. destruct (PyStr.is_space c) eqn:Hc.
  - exists (c :: pre). split; [cbn [app]; by f_equal|by constructor].
  - exists []. split; [done|constructor].
Qed.

Lemma lstrip_head (s : str) c t : PyStr.lstrip s = c :: t -> PyStr.is_space c = false.
Proof.
  induction s as [|a s IH]; [done|]. cbn [PyStr.lstrip].
  destruct (PyStr.is_space a) eqn:Ha; [exact IH|]. by intros [= <- _].
Qed.

Lemma rstrip_split (s : str) : exists post, s = PyStr.rstrip s ++ post /\ blank post.
Proof.
  destruct (lstrip_split (reverse s)) as (pre & Hs & Hpre).
  exists (reverse pre). split; [|by apply Forall_reverse].
  unfold PyStr.rstrip. by rewrite <- reverse_app, <- Hs, reverse_involutive.
Qed.

Lemma rstrip_last (s : str) c : last (PyStr.rstrip s) = Some c -> PyStr.is_space c = false.
Proof.
  unfold PyStr.rstrip. rewrite last_reverse.
  destruct (PyStr.lstrip (reverse s)) as [|a t] eqn:E; [done|].
  intros [= <-]. by eapply lstrip_head.
Qed.

(** [s.strip()] is [s] without the white space before its first and after
    its last character that is not white space. *)
Lemma strip_spec (s : str) :
  exists pre post,
    s = pre ++ PyStr.strip s ++ post
    /\ blank pre /\ blank post
    /\ (forall c, head (PyStr.strip s) = Some c -> PyStr.is_space c = false)
    /\ (forall c, last (PyStr.strip s) = Some c -> PyStr.is_space c = false).
Proof.
  destruct (lstrip_split s) as (pre & Hs & Hpre).
  destruct (rstrip_split (PyStr.lstrip s)) as (post & Hl & Hpost).
  exists pre, post. fold (PyStr.strip s) in Hl.
  split; [by rewrite <- Hl|]. split; [done|]. split; [done|].
  split; [|apply rstrip_last].
  intros c Hc. destruct (PyStr.strip s) as [|a t]; [done|].
  injection Hc as ->. by apply (lstrip_head s c (t ++ post)).
Qed.

End Strip.

(** X10: when the model answers, [tailor_cv] makes that one
    call and returns the text of the first block without the white space
    around it: the text is the result between two runs of white space, and
    the result neither starts nor ends with a white-space character. *)
Theorem tailor_cv_stripped (rt : runtime) (cv : str) (job : listing) (w : world)
    (content : list content_block) (text : str) :
  model w (count is_model (trace w)) (tailor_request rt cv job) = ModelMessage content ->
  first_text content = Ok text ->
  exists pre t post,
    tailor_cv rt cv job w = (Ok t, record (EvModel (tailor_request rt cv job)) w)
    /\ text = pre ++ t ++ post
    /\ blank pre /\ blank post
    /\ (forall c, head t = Some c -> PyStr.is_space c = false)
    /\ (forall c, last t = Some c -> PyStr.is_space c = false).
Proof.
  intros Hm Ht. destruct (strip_spec text) as (pre & post & Hs).
  exists pre, (PyStr.strip text), post.
  split; [|exact Hs]. exact (tailor_cv_run rt cv job w content text Hm Ht).
Qed.

Lemma tailor_cv_stripped_witness :
  exists pre t post,
    tailor_cv sample_rt u"cv" job_a (sample_world [] [ cv_spaced ]) =
      (Ok t, record (EvModel (tailor_request sample_rt u"cv" job_a))
               (sample_world [] [ cv_spaced ]))
    /\ cv_spaced = pre ++ t ++ post
    /\ blank pre /\ blank post
    /\ (forall c, head t = Some c -> PyStr.is_space c = false)
    /\ (forall c, last t = Some c -> PyStr.is_space c = false).
Proof.
  apply (tailor_cv_stripped sample_rt u"cv" job_a (sample_world [] [ cv_spaced ])
           [ TextBlock cv_spaced ] cv_spaced); reflexivity.
Defined.


Section Calls.

Context (rt : runtime).

Lemma count_cons p (e : event) (t : list event) :
  count p (e :: t) = ((if p e then 1 else 0) + count p t)%nat.
Proof. cbn [count]. by destruct (p e). Qed.

Lemma trace_records evs w : trace (records evs w) = trace w ++ evs.
Proof. reflexivity. Qed.

(** The calls of the loop of [build_email] over jobs whose contacts
    render: two log lines and two model calls per job. *)
Lemma count_tailoring_events (p : event -> bool) (a b : nat) cv preferences n rs :
  (forall lvl msg, (if p (EvLog lvl msg) then 1 else 0)%nat = a) ->
  (forall req, (if p (EvModel req) then 1 else 0)%nat = b) ->
  forall i chs,
    Forall2 (fun r ch => render_contacts rt (t_contacts r) = Ok ch) rs chs ->
    count p (tailoring_events rt cv preferences n i rs) = ((2 * a + 2 * b) * length rs)%nat.
Proof.
  intros Ha Hb i chs H. revert i.
  induction H as [|r ch rs chs Hch _ IH]; intros i; [cbn; lia|].
  cbn [tailoring_events]. rewrite Hch, !count_cons, !Ha, !Hb, IH. cbn [length]. lia.
Qed.

(** The loop stops at the first job whose contacts do not render. *)
Lemma render_sections_raise rs1 r rs2 e : forall i,
  Forall (fun r' => exists ch, render_contacts rt (t_contacts r') = Ok ch) rs1 ->
  render_contacts rt (t_contacts r) = Raise e ->
  render_sections rt i (rs1 ++ r :: rs2) = Raise e.
Proof.
  intros i H He. revert i.
  induction H as [|r' rs1 [ch Hch] _ IH]; intros i; cbn [app render_sections].
  - by rewrite He.
  - by rewrite Hch, IH.
Qed.

Lemma count_tailoring_events_raise cv preferences n rs1 r rs2 e : forall i,
  Forall (fun r' => exists ch, render_contacts rt (t_contacts r') = Ok ch) rs1 ->
  render_contacts rt (t_contacts r) = Raise e ->
  count is_model (tailoring_events rt cv preferences n i (rs1 ++ r :: rs2))
    = (2 * (length rs1 + 1))%nat.
Proof.
  intros i H He. revert i.
  induction H as [|r' rs1 [ch Hch] _ IH]; intros i; cbn [app tailoring_events].
  - rewrite He. reflexivity.
  - rewrite Hch, !count_cons, IH. cbn [is_model length]. lia.
Qed.

End Calls.

(** X11: when the model answers and the contacts of
    every job render, [build_email] reads the clock once and, for each of
    the jobs, writes two log lines and calls the model twice; it makes no
    HTTP request and takes no SMTP step. *)
Theorem build_email_two_calls_per_job (rt : runtime) (rs : list tailored_result)
    (chs : list str) (cv preferences : str) (w : world) :
  tailored_from rt (model w) (count is_model (trace w)) cv preferences rs ->
  Forall2 (fun r ch => render_contacts rt (t_contacts r) = Ok ch) rs chs ->
  let after := trace (build_email rt (t_entry <$> rs) cv preferences w).2 in
  count is_model after = (count is_model (trace w) + 2 * length rs)%nat
  /\ count is_log after = (count is_log (trace w) + 2 * length rs)%nat
  /\ count is_now after = S (count is_now (trace w))
  /\ count is_http after = count is_http (trace w)
  /\ count is_smtp after = count is_smtp (trace w).
Proof.
  intros Hrs Hch after. subst after.
  rewrite (build_email_run rt _ _ _ _ Hrs). cbn [snd].
  rewrite trace_records, !count_app, !count_cons.
  rewrite (count_tailoring_events rt is_model 0 1 _ _ _ _ ltac:(done) ltac:(done) _ _ Hch).
  rewrite (count_tailoring_events rt is_log 1 0 _ _ _ _ ltac:(done) ltac:(done) _ _ Hch).
  rewrite (count_tailoring_events rt is_now 0 0 _ _ _ _ ltac:(done) ltac:(done) _ _ Hch).
  rewrite (count_tailoring_events rt is_http 0 0 _ _ _ _ ltac:(done) ltac:(done) _ _ Hch).
  rewrite (count_tailoring_events rt is_smtp 0 0 _ _ _ _ ltac:(done) ltac:(done) _ _ Hch).
  cbn [is_model is_log is_now is_http is_smtp]. lia.
Qed.

Lemma build_email_two_calls_per_job_witness :
  count is_model
    (trace (build_email sample_rt (t_entry <$> [ result_a ]) u"cv" u"prefs" w_digest).2)
    = (count is_model (trace w_digest) + 2 * length [ result_a ])%nat
  /\ count is_log
       (trace (build_email sample_rt (t_entry <$> [ result_a ]) u"cv" u"prefs" w_digest).2)
       = (count is_log (trace w_digest) + 2 * length [ result_a ])%nat
  /\ count is_now
       (trace (build_email sample_rt (t_entry <$> [ result_a ]) u"cv" u"prefs" w_digest).2)
       = S (count is_now (trace w_digest))
  /\ count is_http
       (trace (build_email sample_rt (t_entry <$> [ result_a ]) u"cv" u"prefs" w_digest).2)
       = count is_http (trace w_digest)
  /\ count is_smtp
       (trace (build_email sample_rt (t_entry <$> [ result_a ]) u"cv" u"prefs" w_digest).2)
       = count is_smtp (trace w_digest).
Proof.
  apply (build_email_two_calls_per_job sample_rt [ result_a ]
           [ contact_verbatim fields_markup ] u"cv" u"prefs" w_digest).
  - split; [split|exact I].
    + exists [ TextBlock (u"  " ++ cv_markup ++ u"  ") ], (u"  " ++ cv_markup ++ u"  ").
      repeat split; vm_compute; reflexivity.
    + exists [ TextBlock text_contact ], text_contact, text_contact.
      repeat split; vm_compute; reflexivity.
  - constructor; [vm_compute; reflexivity|constructor].
Defined.

(** X12: [build_email] raises what the rendering
    of a job's contacts raises (KeyError for a suggestion without one of
    its four keys), at the first such job: no document is returned, and
    the model has been called twice for that job and each job before it,
    never for the jobs after it. *)
Theorem build_email_aborts_on_contacts (rt : runtime)
    (rs1 : list tailored_result) (r : tailored_result) (rs2 : list tailored_result)
    (cv preferences : str) (w : world) (e : exn) :
  tailored_from rt (model w) (count is_model (trace w)) cv preferences
    (rs1 ++ r :: rs2) ->
  Forall (fun r' => exists ch, render_contacts rt (t_contacts r') = Ok ch) rs1 ->
  render_contacts rt (t_contacts r) = Raise e ->
  (build_email rt (t_entry <$> (rs1 ++ r :: rs2)) cv preferences w).1 = Raise e
  /\ count is_model
       (trace (build_email rt (t_entry <$> (rs1 ++ r :: rs2)) cv preferences w).2)
     = (count is_model (trace w) + 2 * (length rs1 + 1))%nat.
Proof.
  intros Hrs H1 He.
  rewrite (build_email_run rt _ _ _ _ Hrs). cbn [fst snd]. split.
  - unfold render_digest. by rewrite (render_sections_raise rt _ _ _ e 1 H1 He).
  - rewrite trace_records, count_app, count_cons.
    rewrite (count_tailoring_events_raise rt _ _ _ _ _ _ e 1 H1 He).
    cbn [is_model]. lia.
Qed.

Lemma build_email_aborts_on_contacts_witness :
  (build_email (rt_parsing (PList [ contact_no_why ]))
     (t_entry <$> ([] ++ result_bad :: [ result_bad ])) u"cv" u"prefs"
     (sample_world [] [ cv_markup; u"[]"; cv_markup; u"[]" ])).1 = Raise KeyError
  /\ count is_model
       (trace (build_email (rt_parsing (PList [ contact_no_why ]))
                 (t_entry <$> ([] ++ result_bad :: [ result_bad ])) u"cv" u"prefs"
                 (sample_world [] [ cv_markup; u"[]"; cv_markup; u"[]" ])).2)
     = (count is_model (trace (sample_world [] [ cv_markup; u"[]"; cv_markup; u"[]" ]))
        + 2 * (length (@nil tailored_result) + 1))%nat.
Proof.
  apply (build_email_aborts_on_contacts (rt_parsing (PList [ contact_no_why ]))
           [] result_bad [ result_bad ] u"cv" u"prefs"
           (sample_world [] [ cv_markup; u"[]"; cv_markup; u"[]" ]) KeyError).
  - repeat split; try (eexists _, _; repeat split; vm_compute; reflexivity);
      eexists _, _, _; repeat split; vm_compute; reflexivity.
  - constructor.
  - vm_compute. reflexivity.
Defined.

(** ** Further properties: the escaping of line 202 *)

Section EscapedPieces.

Lemma bind_concat {A B} (f : A -> list B) (l : list A) : l ≫= f = concat (f <$> l).
Proof.
  induction l as [|x l IH]; [done|].
  by rewrite bind_cons, fmap_cons, concat_cons, IH.
Qed.

Lemma esc_char_piece (c : char) : esc_char c = u"<br>" \/ no_angle (esc_char c).
Proof.
  unfold esc_char, no_angle.
  destruct (N.eqb_spec c 60) as [->|H60].
  { right. split; vm_compute; intros H;
      repeat (apply elem_of_cons in H as [H|H]; [discriminate|]);
      by apply elem_of_nil in H. }
  destruct (N.eqb_spec c 62) as [->|H62].
  { right. split; vm_compute; intros H;
      repeat (apply elem_of_cons in H as [H|H]; [discriminate|]);
      by apply elem_of_nil in H. }
  destruct (N.eqb_spec c 10) as [->|H10]; [by left|].
  right. split; intros H; apply list_elem_of_singleton in H; congruence.
Qed.

End EscapedPieces.

(** X13: the only angle brackets of the escaped CV are those
    of the [<br>] that stand for its line ends: the escaped text is made of
    pieces, one per character of the tailored CV, each of them [<br>] or a
    text without [<] and [>]. *)
Theorem escape_cv_only_br (t : str) :
  exists pieces,
    escape_cv t = concat pieces
    /\ length pieces = length t
    /\ Forall (fun p => p = u"<br>" \/ no_angle p) pieces.
Proof.
  exists (esc_char <$> t).
  split; [by rewrite escape_cv_chars, bind_concat|].
  split; [by rewrite length_fmap|].
  apply Forall_fmap, Forall_forall. intros c _. apply esc_char_piece.
Qed.

(** X14: line 202 leaves the ampersand as it is, so
    the escaping cannot be undone: a tailored CV that holds the four
    characters of the entity [&lt;] and one that holds [<] at the same
    place are escaped to the same text, and the escaping of a text is the
    escaping of its parts. *)
Theorem escape_cv_keeps_ampersand (s t : str) :
  escape_cv (s ++ t) = escape_cv s ++ escape_cv t
  /\ escape_cv (s ++ u"&lt;" ++ t) = escape_cv (s ++ u"<" ++ t)
  /\ escape_cv (s ++ u"&" ++ t) = escape_cv s ++ u"&" ++ escape_cv t.
Proof.
  rewrite !escape_cv_chars, !bind_app. repeat split.
Qed.

(** ** Further properties: records without identity *)

Section Keyless.

Lemma keyless_key j : keyless j -> raw_key j = Ok empty_key.
Proof.
  intros (kv & -> & Hid & Hlink). unfold raw_key, identity_key, Py.get.
  destruct (Py.dict_lookup u"job_id" kv) as [id|]; cbn [rbind].
  - rewrite Hid. destruct (Py.dict_lookup u"job_apply_link" kv) as [v|]; [|done].
    by rewrite Hlink.
  - cbn [Py.truthy]. destruct (Py.dict_lookup u"job_apply_link" kv) as [v|]; [|done].
    by rewrite Hlink.
Qed.

(** Once the empty key is in [seen_ids], records without identity are
    dropped. *)
Lemma dedupe_keyless_seen l : forall seen out,
  Forall keyless l -> empty_key ∈ seen ->
  rfold dedupe_step (seen, out) l = Ok (seen, out).
Proof.
  induction l as [|j l IH]; intros seen out H Hin; [done|].
  apply Forall_cons_1 in H as [Hj H]. cbn [rfold].
  rewrite (dedupe_step_key _ _ _ _ (keyless_key j Hj)), decide_True by done.
  cbn [rbind]. by apply IH.
Qed.

End Keyless.

(** X15: raw records that have neither a provider id nor
    an apply link all get the empty string as identity key, so the loop of
    lines 279-283 keeps the first of them only, and none when such a record
    was kept before: distinct jobs without identity count as duplicates of
    one another. *)
Theorem dedupe_keyless_collapse (l : list pyval) (seen : gset Py.hkey)
    (out : list pyval) :
  Forall keyless l ->
  rfold dedupe_step (seen, out) l =
    Ok (if decide (empty_key ∈ seen) then (seen, out)
        else match l with
             | [] => (seen, out)
             | j :: _ => ({[ empty_key ]} ∪ seen, out ++ [j])
             end).
Proof.
  intros H. destruct (decide (empty_key ∈ seen)) as [Hin|Hin].
  - by apply dedupe_keyless_seen.
  - destruct l as [|j l]; [done|].
    apply Forall_cons_1 in H as [Hj H]. cbn [rfold].
    rewrite (dedupe_step_key _ _ _ _ (keyless_key j Hj)), decide_False by done.
    cbn [rbind]. apply dedupe_keyless_seen; [done|set_solver].
Qed.

Lemma dedupe_keyless_collapse_witness :
  rfold dedupe_step (no_keys, [ raw_a ]) [ raw_keyless_a; raw_keyless_b ] =
    Ok (if decide (empty_key ∈ no_keys) then (no_keys, [ raw_a ])
        else ({[ empty_key ]} ∪ no_keys, [ raw_a ] ++ [ raw_keyless_a ])).
Proof.
  apply (dedupe_keyless_collapse [ raw_keyless_a; raw_keyless_b ] no_keys [ raw_a ]).
  repeat constructor; eexists; (split; [reflexivity|]); split; vm_compute; done.
Defined.

(** ** Further properties: what [fetch_linkedin_jobs] never does *)

Section FetchTotal.

Context (rt : runtime) (cfg : config).

Lemma tier_outcome_len o limit b :
  0 <= limit -> tier_outcome o limit = Ok b ->
  exists n, seq_len b = Some n /\ (n <= Z.to_nat limit)%nat.
Proof.
  intros Hl. unfold tier_outcome. destruct o as [e|r]; [done|].
  destruct (raise_for_status r); [|done]. cbn [rbind].
  destruct (json_body r) as [data|]; [|done]. cbn [rbind].
  destruct (Py.get data _ _) as [found|]; [|done]. cbn [rbind].
  by apply slice_seq_len.
Qed.

(** The tiers of [fetch_linkedin_jobs], one after the other. *)
Lemma fetch_linkedin_jobs_steps keywords location limit w :
  let req1 := search_request cfg keywords location u"3days" in
  let req2 := search_request cfg keywords location u"week" in
  let n := count is_http (trace w) in
  fetch_linkedin_jobs rt cfg keywords location limit w =
    match tier_outcome (http w n req1) limit with
    | Raise e =>
        (Ok (PList []),
         records [ EvHttpGet req1; EvLog ERROR (u"Job fetch error: " ++ exn_str rt e) ] w)
    | Ok b =>
        if Py.truthy b then (Ok b, records [ EvHttpGet req1 ] w)
        else
          match tier_outcome (http w (S n) req2) limit with
          | Raise e =>
              (Ok (PList []),
               records [ EvHttpGet req1; EvHttpGet req2;
                         EvLog ERROR (u"Job fetch error: " ++ exn_str rt e) ] w)
          | Ok b2 =>
              if Py.truthy b2 then (Ok b2, records [ EvHttpGet req1; EvHttpGet req2 ] w)
              else (Ok (PList []), records [ EvHttpGet req1; EvHttpGet req2 ] w)
          end
    end.
Proof.
  intros req1 req2 n. unfold fetch_linkedin_jobs. cbn [fetch_tiers].
  unfold bind at 1. rewrite fetch_tier_turn. fold req1 n.
  destruct (tier_outcome (http w n req1) limit) as [b|e].
  2:{ unfold logged_fetch_error. by rewrite !record_records, records_records. }
  destruct (Py.truthy b); [reflexivity|].
  unfold bind at 1. rewrite fetch_tier_turn. fold req2.
  replace (count is_http (trace (record (EvHttpGet req1) w))) with (S n)
    by (subst n; rewrite count_record; cbn; lia).
  change (http (record (EvHttpGet req1) w)) with (http w).
  destruct (tier_outcome (http w (S n) req2) limit) as [b2|e].
  2:{ unfold logged_fetch_error. by rewrite !record_records, !records_records. }
  destruct (Py.truthy b2); cbv beta iota; unfold ret;
    by rewrite !record_records, records_records.
Qed.

End FetchTotal.

(** X16: [fetch_linkedin_jobs] never raises: whatever
    the search service does, it returns a str or a list of at most [limit]
    items, after one or two requests and nothing else than requests and at
    most one log line. *)
Theorem fetch_linkedin_jobs_returns (rt : runtime) (cfg : config)
    (keywords location : str) (limit : Z) (w : world) :
  0 <= limit ->
  exists v evs,
    fetch_linkedin_jobs rt cfg keywords location limit w = (Ok v, records evs w)
    /\ (exists n, seq_len v = Some n /\ (n <= Z.to_nat limit)%nat)
    /\ (1 <= count is_http evs <= 2)%nat
    /\ (count is_log evs <= 1)%nat
    /\ length evs = (count is_http evs + count is_log evs)%nat.
Proof.
  intros Hl. rewrite fetch_linkedin_jobs_steps.
  assert (Hnil : exists n, seq_len (PList []) = Some n /\ (n <= Z.to_nat limit)%nat)
    by (exists 0%nat; split; [done|lia]).
  destruct (tier_outcome (http w _ _) limit) as [b|e] eqn:E1.
  - destruct (Py.truthy b).
    + eexists _, _. split; [reflexivity|].
      split; [by eapply tier_outcome_len|]. cbn. lia.
    + destruct (tier_outcome (http w (S _) _) limit) as [b2|e] eqn:E2.
      * destruct (Py.truthy b2); eexists _, _; (split; [reflexivity|]);
          (split; [first [by eapply tier_outcome_len | exact Hnil]|cbn; lia]).
      * eexists _, _. split; [reflexivity|]. split; [exact Hnil|cbn; lia].
  - eexists _, _. split; [reflexivity|]. split; [exact Hnil|cbn; lia].
Qed.

Lemma fetch_linkedin_jobs_returns_witness :
  exists v evs,
    fetch_linkedin_jobs sample_rt sample_cfg u"HR" u"Milan" 2 w_second_tier
      = (Ok v, records evs w_second_tier)
    /\ (exists n, seq_len v = Some n /\ (n <= Z.to_nat 2)%nat)
    /\ (1 <= count is_http evs <= 2)%nat
    /\ (count is_log evs <= 1)%nat
    /\ length evs = (count is_http evs + count is_log evs)%nat.
Proof.
  apply (fetch_linkedin_jobs_returns sample_rt sample_cfg u"HR" u"Milan" 2
           w_second_tier).
  lia.
Defined.

(** ** Further properties: [send_email] *)

Section Smtp.

Lemma smtp_do_records step evs w :
  smtp_do step (records evs w) =
    (match smtp w (count is_smtp (trace w) + count is_smtp evs) step with
     | Some e => Raise e
     | None => Ok tt
     end,
     records (evs ++ [ EvSmtp step ]) w).
Proof.
  unfold smtp_do. rewrite trace_records, count_app. cbn [records smtp].
  rewrite record_records, records_records.
  by destruct (smtp w _ step).
Qed.

Context (cfg : config) (html_body : str) (w : world).

Let n := count is_smtp (trace w).
Let msg := digest_mail cfg (clock w (count is_now (trace w)) subject_format) html_body.

(** [send_email], by the body and the answers of the server to its
    steps. *)
Lemma send_email_steps :
  send_email cfg html_body w =
    if has_surrogate html_body
    then (Raise encode_error, records [ EvNow subject_format ] w)
    else
      match smtp w (n + 0) (SmtpConnect (SMTP_HOST cfg) (SMTP_PORT cfg)) with
      | Some e => (Raise e, records (EvNow subject_format
                                       :: (EvSmtp <$> take 1 (smtp_session cfg msg))) w)
      | None =>
          match smtp w (n + 1) SmtpStartTls with
          | Some e =>
              (closing (smtp w (n + 2) SmtpQuit) (Raise e),
               records (EvNow subject_format
                          :: (EvSmtp <$> take 2 (smtp_session cfg msg))
                          ++ [ EvSmtp SmtpQuit ]) w)
          | None =>
              match smtp w (n + 2) (SmtpLogin (SMTP_USER cfg) (SMTP_PASSWORD cfg)) with
              | Some e =>
                  (closing (smtp w (n + 3) SmtpQuit) (Raise e),
                   records (EvNow subject_format
                              :: (EvSmtp <$> take 3 (smtp_session cfg msg))
                              ++ [ EvSmtp SmtpQuit ]) w)
              | None =>
                  match smtp w (n + 3)
                          (SmtpSendmail (FROM_EMAIL cfg) (TO_EMAIL cfg) msg) with
                  | Some e =>
                      (closing (smtp w (n + 4) SmtpQuit) (Raise e),
                       records (EvNow subject_format
                                  :: (EvSmtp <$> smtp_session cfg msg)
                                  ++ [ EvSmtp SmtpQuit ]) w)
                  | None =>
                      match smtp w (n + 4) SmtpQuit with
                      | Some e =>
                          (Raise e,
                           records (EvNow subject_format
                                      :: (EvSmtp <$> smtp_session cfg msg)
                                      ++ [ EvSmtp SmtpQuit ]) w)
                      | None =>
                          (Ok tt,
                           records (EvNow subject_format
                                      :: (EvSmtp <$> smtp_session cfg msg)
                                      ++ [ EvSmtp SmtpQuit; sent_line cfg ]) w)
                      end
                  end
              end
          end
      end.
Proof.
  unfold send_email. unfold bind at 1. cbn [now_strftime].
  fold subject_format.
  fold (digest_mail cfg (clock w (count is_now (trace w)) subject_format) html_body).
  fold msg. rewrite record_records.
  unfold bind at 1, lift at 1, mime_text. fold encode_error.
  destruct (has_surrogate html_body); [reflexivity|].
  unfold bind at 1. rewrite smtp_do_records. cbn [count is_smtp app]. fold n.
  destruct (smtp w (n + 0) _) as [e|]; [reflexivity|].
  unfold bind at 1, finally.
  unfold bind at 1. rewrite smtp_do_records. cbn [count is_smtp app]. fold n.
  destruct (smtp w (n + 1) _) as [e|]; cbv beta iota.
  { rewrite smtp_do_records. cbn [count is_smtp app]. fold n.
    by destruct (smtp w (n + 2) SmtpQuit). }
  unfold bind at 1. rewrite smtp_do_records. cbn [count is_smtp app]. fold n.
  destruct (smtp w (n + 2) _) as [e|]; cbv beta iota.
  { rewrite smtp_do_records. cbn [count is_smtp app]. fold n.
    by destruct (smtp w (n + 3) SmtpQuit). }
  rewrite smtp_do_records. cbn [count is_smtp app]. fold n.
  destruct (smtp w (n + 3) _) as [e|]; cbv beta iota.
  { rewrite smtp_do_records. cbn [count is_smtp app]. fold n.
    by destruct (smtp w (n + 4) SmtpQuit). }
  rewrite smtp_do_records. cbn [count is_smtp app]. fold n.
  destruct (smtp w (n + 4) SmtpQuit) as [e|]; cbv beta iota; [reflexivity|].
  unfold log. by rewrite record_records, records_records.
Qed.

End Smtp.

(** X17: for a document without surrogate code point, when
    the server accepts every step and the QUIT that ends the [with] block,
    [send_email] reads the date, connects, starts TLS, logs in and hands
    over one message, in this order; the message has the document as its
    HTML part and the date in its subject; the session is then closed and
    the line Email sent is logged last. *)
Theorem send_email_session (cfg : config) (html_body : str) (w : world) :
  let n := count is_smtp (trace w) in
  let msg := digest_mail cfg (clock w (count is_now (trace w)) subject_format)
               html_body in
  has_surrogate html_body = false ->
  (forall i step, (smtp_session cfg msg ++ [ SmtpQuit ]) !! i = Some step ->
     smtp w (n + i) step = None) ->
  send_email cfg html_body w =
    (Ok tt,
     records (EvNow subject_format :: (EvSmtp <$> smtp_session cfg msg)
              ++ [ EvSmtp SmtpQuit; sent_line cfg ]) w).
Proof.
  intros n msg Hbody H. subst n msg.
  pose proof (send_email_steps cfg html_body w) as Hs. cbv zeta in Hs.
  rewrite Hs, Hbody.
  by rewrite (H 0%nat _ eq_refl), (H 1%nat _ eq_refl), (H 2%nat _ eq_refl),
    (H 3%nat _ eq_refl), (H 4%nat _ eq_refl).
Qed.

Lemma send_email_session_witness :
  send_email sample_cfg u"<p>digest</p>" w_nothing =
    (Ok tt,
     records (EvNow subject_format
              :: (EvSmtp <$> smtp_session sample_cfg
                               (digest_mail sample_cfg u"January 05" u"<p>digest</p>"))
              ++ [ EvSmtp SmtpQuit; sent_line sample_cfg ]) w_nothing).
Proof.
  apply (send_email_session sample_cfg u"<p>digest</p>" w_nothing).
  - vm_compute. reflexivity.
  - intros i step _. reflexivity.
Defined.

(** X18: a document with a surrogate code point makes
    [send_email] raise UnicodeEncodeError when it builds the message, after
    the reading of the date and before any SMTP step.  For a document
    without one, the first step that the server refuses (connect,
    STARTTLS, login, sendmail, or the closing QUIT) ends [send_email] with
    an exception: the later steps are not taken (no message is handed over
    after a refused login), the line Email sent is not logged, the session
    is closed by a QUIT exactly when the connection had been made, and what
    is raised is the exception of the refused step, unless that QUIT
    raises, whose exception then replaces it. *)
Theorem send_email_first_failure (cfg : config) (html_body : str) (w : world)
    (k : nat) (step : smtp_step) (e : exn) :
  let n := count is_smtp (trace w) in
  let msg := digest_mail cfg (clock w (count is_now (trace w)) subject_format)
               html_body in
  (has_surrogate html_body = true ->
   send_email cfg html_body w =
     (Raise encode_error, records [ EvNow subject_format ] w))
  /\ (has_surrogate html_body = false ->
      (forall i s, (i < k)%nat -> (smtp_session cfg msg ++ [ SmtpQuit ]) !! i = Some s ->
         smtp w (n + i) s = None) ->
      (smtp_session cfg msg ++ [ SmtpQuit ]) !! k = Some step ->
      smtp w (n + k) step = Some e ->
      send_email cfg html_body w =
        (match k with
         | O => Raise e
         | S (S (S (S _))) => Raise e
         | S _ => closing (smtp w (n + S k) SmtpQuit) (Raise e)
         end,
         records (EvNow subject_format
                  :: (EvSmtp <$> take (S k) (smtp_session cfg msg ++ [ SmtpQuit ]))
                  ++ match k with
                     | O => []
                     | S (S (S (S _))) => []
                     | S _ => [ EvSmtp SmtpQuit ]
                     end) w)).
Proof.
  intros n msg. subst n msg.
  pose proof (send_email_steps cfg html_body w) as Hs. cbv zeta in Hs.
  rewrite Hs. clear Hs. split; [by intros ->|].
  intros -> H Hk He.
  destruct k as [|[|[|[|[|k]]]]]; [| | | | |done]; injection Hk as <-.
  - rewrite He. by rewrite app_nil_r.
  - by rewrite (H 0%nat _ ltac:(lia) eq_refl), He.
  - by rewrite (H 0%nat _ ltac:(lia) eq_refl), (H 1%nat _ ltac:(lia) eq_refl), He.
  - by rewrite (H 0%nat _ ltac:(lia) eq_refl), (H 1%nat _ ltac:(lia) eq_refl),
      (H 2%nat _ ltac:(lia) eq_refl), He.
  - rewrite (H 0%nat _ ltac:(lia) eq_refl), (H 1%nat _ ltac:(lia) eq_refl),
      (H 2%nat _ ltac:(lia) eq_refl), (H 3%nat _ ltac:(lia) eq_refl), He.
    by rewrite app_nil_r.
Qed.

Lemma send_email_first_failure_witness :
  send_email sample_cfg html_surrogate w_nothing =
    (Raise encode_error, records [ EvNow subject_format ] w_nothing)
  /\ send_email sample_cfg u"<p>digest</p>" w_login_refused =
       (closing (smtp w_login_refused 3 SmtpQuit)
          (Raise (LibraryError u"SMTPAuthenticationError"
                    u"Username and Password not accepted")),
        records (EvNow subject_format
                 :: (EvSmtp <$> take 3 (smtp_session sample_cfg
                                          (digest_mail sample_cfg u"January 05"
                                             u"<p>digest</p>")
                                        ++ [ SmtpQuit ]))
                 ++ [ EvSmtp SmtpQuit ]) w_login_refused).
Proof.
  split.
  - apply (proj1 (send_email_first_failure sample_cfg html_surrogate w_nothing
                    0 SmtpQuit encode_error)).
    vm_compute. reflexivity.
  - apply (proj2 (send_email_first_failure sample_cfg u"<p>digest</p>" w_login_refused 2
                    (SmtpLogin (SMTP_USER sample_cfg) (SMTP_PASSWORD sample_cfg))
                    (LibraryError u"SMTPAuthenticationError"
                       u"Username and Password not accepted"))).
    + vm_compute. reflexivity.
    + intros [|[|i]] s Hi Hs; [| |lia]; injection Hs as <-; reflexivity.
    + reflexivity.
    + reflexivity.
Defined.

(** ** Further properties: the run and the scheduler's job *)

Section Mails.

Lemma count_sendmail_le (evs : list event) :
  (count is_sendmail evs <= count is_smtp evs)%nat.
Proof.
  induction evs as [|e evs IH]; [done|].
  rewrite !count_cons. destruct e as [| | | | | |[]]; cbn [is_sendmail is_smtp]; lia.
Qed.

Lemma no_smtp_mails {A} (c : M A) : no_smtp c -> mails_at_most 0 c.
Proof.
  intros H w. destruct (H w) as (evs & Hw & Hc). exists evs. split; [done|].
  pose proof (count_sendmail_le evs). lia.
Qed.

Lemma mails_bind {A B} (a b : nat) (c : M A) (k : A -> M B) :
  mails_at_most a c -> (forall x, mails_at_most b (k x)) ->
  mails_at_most (a + b) (bind c k).
Proof.
  intros Hc Hk w. destruct (Hc w) as (evs1 & E1 & C1). unfold bind.
  destruct (c w) as [[x|e] w1]; cbn [snd] in E1; subst w1.
  - destruct (Hk x (records evs1 w)) as (evs2 & E2 & C2).
    exists (evs1 ++ evs2). rewrite E2, records_records, count_app. split; [done|lia].
  - exists evs1. split; [done|lia].
Qed.

Lemma send_email_mails cfg html_body : mails_at_most 1 (send_email cfg html_body).
Proof.
  intros w. pose proof (send_email_steps cfg html_body w) as Hs. cbv zeta in Hs.
  rewrite Hs. clear Hs. unfold closing.
  destruct (has_surrogate html_body);
    [exists [ EvNow subject_format ]; split; [reflexivity|cbn; lia]|].
  repeat match goal with
         | |- context [match smtp ?w ?n ?s with _ => _ end] => destruct (smtp w n s)
         end;
    (eexists; split; [reflexivity|]); cbn [fmap list_fmap smtp_session take app];
    rewrite !count_cons; cbn [is_sendmail sent_line count]; lia.
Qed.

Lemma no_smtp_now fmt : no_smtp (now_strftime fmt).
Proof. intros w. by exists [ EvNow fmt ]. Qed.

Lemma no_smtp_build_sections rt cv preferences n entries : forall i,
  no_smtp (build_sections rt cv preferences n i entries).
Proof.
  induction entries as [|entry entries IH]; intros i; cbn [build_sections].
  - apply no_smtp_ret.
  - unfold tailor_cv, suggest_contacts.
    repeat first
      [ apply IH
      | solve [ auto with no_smtp ]
      | apply no_smtp_bind; [|intros ?] ].
Qed.

Lemma no_smtp_build_email rt top_jobs cv preferences :
  no_smtp (build_email rt top_jobs cv preferences).
Proof.
  unfold build_email.
  apply no_smtp_bind; [apply no_smtp_now|intros today].
  apply no_smtp_bind; [apply no_smtp_build_sections|intros sections].
  apply no_smtp_ret.
Qed.

End Mails.

(** X19: when [build_email] raises (the model fails on
    one of the jobs, or an answer cannot be rendered), [run] raises the same
    exception and has taken no SMTP step: no digest is sent for the jobs
    that had been tailored. *)
Theorem run_no_partial_digest (rt : runtime) (cfg : config) (w w1 : world)
    (cv preferences : str) (top_jobs : list ranked) (e : exn) :
  run_ranking rt cfg w = (Ok (cv, preferences, top_jobs), w1) ->
  (build_email rt top_jobs cv preferences w1).1 = Raise e ->
  run rt cfg w = (Raise e, (build_email rt top_jobs cv preferences w1).2)
  /\ count is_smtp (trace (run rt cfg w).2) = count is_smtp (trace w).
Proof.
  intros Hr Hb.
  assert (Hrun : run rt cfg w = (Raise e, (build_email rt top_jobs cv preferences w1).2)).
  { rewrite run_after_ranking, Hr.
    destruct top_jobs as [|entry top_jobs]; [discriminate Hb|].
    unfold bind at 1.
    destruct (build_email rt (entry :: top_jobs) cv preferences w1) as [[html|e'] w2].
    - discriminate Hb.
    - cbn [fst] in Hb. by injection Hb as ->. }
  split; [exact Hrun|]. rewrite Hrun. cbn [snd].
  destruct (no_smtp_build_email rt top_jobs cv preferences w1) as (evs2 & -> & C2).
  destruct (no_smtp_run_ranking rt cfg w) as (evs1 & E1 & C1).
  rewrite Hr in E1. cbn [snd] in E1. subst w1.
  rewrite records_records, trace_records, !count_app. lia.
Qed.

Lemma run_no_partial_digest_witness :
  run sample_rt sample_cfg w_tailoring_fails =
    (Raise (LibraryError u"RateLimitError" u"rate limit"),
     (build_email sample_rt
        (ranked_of (run_ranking sample_rt sample_cfg w_tailoring_fails).1)
        u"contents of cv.txt" u"contents of preferences.txt"
        (run_ranking sample_rt sample_cfg w_tailoring_fails).2).2)
  /\ count is_smtp (trace (run sample_rt sample_cfg w_tailoring_fails).2)
       = count is_smtp (trace w_tailoring_fails).
Proof.
  apply (run_no_partial_digest sample_rt sample_cfg w_tailoring_fails
           (run_ranking sample_rt sample_cfg w_tailoring_fails).2
           u"contents of cv.txt" u"contents of preferences.txt"
           (ranked_of (run_ranking sample_rt sample_cfg w_tailoring_fails).1)).
  - vm_compute. reflexivity.
  - vm_compute. reflexivity.
Defined.

(** X20: when at least one job is selected, [build_email]
    returns a document without surrogate code point and the server accepts
    every step, [run] mails that very document, once, and ends with the
    line Done: after the calls of [build_email] come the reading of the
    date, the SMTP session with the one message whose HTML part is the
    document, the closing of the session, and the two log lines. *)
Theorem run_mails_digest (rt : runtime) (cfg : config) (w w1 w2 : world)
    (cv preferences html : str) (top_jobs : list ranked) :
  run_ranking rt cfg w = (Ok (cv, preferences, top_jobs), w1) ->
  top_jobs <> [] ->
  build_email rt top_jobs cv preferences w1 = (Ok html, w2) ->
  has_surrogate html = false ->
  (forall i step, smtp w2 i step = None) ->
  let msg := digest_mail cfg (clock w2 (count is_now (trace w2)) subject_format) html in
  run rt cfg w =
    (Ok tt,
     records (EvNow subject_format :: (EvSmtp <$> smtp_session cfg msg)
              ++ [ EvSmtp SmtpQuit; sent_line cfg; EvLog INFO u"Done ✅" ]) w2).
Proof.
  intros Hr Hne Hb Hbody Hs msg. subst msg.
  rewrite run_after_ranking, Hr.
  destruct top_jobs as [|entry top_jobs]; [done|].
  unfold bind at 1. rewrite Hb. unfold bind at 1.
  pose proof (send_email_steps cfg html w2) as Hsteps. cbv zeta in Hsteps.
  rewrite Hsteps, Hbody, !Hs. unfold log.
  by rewrite record_records, records_records, <- app_comm_cons, <- app_assoc.
Qed.

Lemma run_mails_digest_witness :
  run sample_rt sample_cfg w_full =
    (Ok tt,
     records
       (EvNow subject_format
        :: (EvSmtp <$>
              smtp_session sample_cfg
                (digest_mail sample_cfg u"January 05"
                   (html_of
                      (build_email sample_rt
                         (ranked_of (run_ranking sample_rt sample_cfg w_full).1)
                         u"contents of cv.txt" u"contents of preferences.txt"
                         (run_ranking sample_rt sample_cfg w_full).2).1)))
        ++ [ EvSmtp SmtpQuit; sent_line sample_cfg; EvLog INFO u"Done ✅" ])
       (build_email sample_rt
          (ranked_of (run_ranking sample_rt sample_cfg w_full).1)
          u"contents of cv.txt" u"contents of preferences.txt"
          (run_ranking sample_rt sample_cfg w_full).2).2).
Proof.
  apply (run_mails_digest sample_rt sample_cfg w_full
           (run_ranking sample_rt sample_cfg w_full).2
           (build_email sample_rt
              (ranked_of (run_ranking sample_rt sample_cfg w_full).1)
              u"contents of cv.txt" u"contents of preferences.txt"
              (run_ranking sample_rt sample_cfg w_full).2).2
           u"contents of cv.txt" u"contents of preferences.txt"
           (html_of
              (build_email sample_rt
                 (ranked_of (run_ranking sample_rt sample_cfg w_full).1)
                 u"contents of cv.txt" u"contents of preferences.txt"
                 (run_ranking sample_rt sample_cfg w_full).2).1)
           (ranked_of (run_ranking sample_rt sample_cfg w_full).1)).
  - vm_compute. reflexivity.
  - vm_compute. discriminate.
  - vm_compute. reflexivity.
  - vm_compute. reflexivity.
  - intros i step. reflexivity.
Defined.

(** X21: whatever the environment answers, a run hands at
    most one message to the SMTP server. *)
Theorem run_at_most_one_mail (rt : runtime) (cfg : config) (w : world) :
  exists evs,
    (run rt cfg w).2 = records evs w /\ (count is_sendmail evs <= 1)%nat.
Proof.
  rewrite run_after_ranking.
  destruct (no_smtp_mails _ (no_smtp_run_ranking rt cfg) w) as (evs1 & E1 & C1).
  destruct (run_ranking rt cfg w) as [[[[cv preferences] top_jobs]|e] w1];
    cbn [snd] in E1; subst w1; [|exists evs1; split; [done|lia]].
  destruct top_jobs as [|entry top_jobs].
  - exists (evs1 ++ [ skip_warning ]). cbn [snd].
    rewrite record_records, records_records, count_app. split; [done|]. cbn. lia.
  - assert (Hm : mails_at_most (0 + (1 + 0))
                   (bind (build_email rt (entry :: top_jobs) cv preferences)
                      (fun html => bind (send_email cfg html)
                                     (fun _ => log INFO u"Done ✅")))).
    { apply mails_bind; [apply no_smtp_mails, no_smtp_build_email|intros html].
      apply mails_bind; [apply send_email_mails|intros _].
      apply no_smtp_mails, no_smtp_log. }
    destruct (Hm (records evs1 w)) as (evs2 & E2 & C2).
    exists (evs1 ++ evs2). rewrite E2, records_records, count_app. split; [done|lia].
Qed.

(** X22: when the CV file cannot be read, [run] raises the
    exception of [open] right after its first log line, before any search,
    model call or mail; the scheduler's [job] logs it as Agent failed and
    returns. *)
Theorem run_unreadable_cv (rt : runtime) (cfg : config) (w : world) (e : exn) :
  files w (count is_read (trace w)) (CV_PATH cfg) = Raise e ->
  run rt cfg w =
    (Raise e,
     records [ EvLog INFO u"Job agent starting…"; EvReadFile (CV_PATH cfg) ] w)
  /\ job rt cfg w =
       (Ok tt,
        records [ EvLog INFO u"Job agent starting…"; EvReadFile (CV_PATH cfg);
                  EvLog ERROR (u"Agent failed: " ++ exn_str rt e) ] w).
Proof.
  intros Hf.
  assert (Hrun : run rt cfg w =
            (Raise e,
             records [ EvLog INFO u"Job agent starting…"; EvReadFile (CV_PATH cfg) ] w)).
  { unfold run. unfold bind at 1. cbn [log]. unfold bind at 1, load_file.
    rewrite count_record. cbn [is_read]. rewrite Nat.add_0_r.
    change (files (record _ w)) with (files w). rewrite Hf.
    by rewrite !record_records, records_records. }
  split; [exact Hrun|].
  unfold job, try_except. rewrite Hrun. unfold log.
  by rewrite record_records, records_records.
Qed.

Lemma run_unreadable_cv_witness :
  run sample_rt sample_cfg w_no_cv =
    (Raise (LibraryError u"FileNotFoundError" u"No such file or directory: 'cv.txt'"),
     records [ EvLog INFO u"Job agent starting…"; EvReadFile (CV_PATH sample_cfg) ]
       w_no_cv)
  /\ job sample_rt sample_cfg w_no_cv =
       (Ok tt,
        records [ EvLog INFO u"Job agent starting…"; EvReadFile (CV_PATH sample_cfg);
                  EvLog ERROR
                    (u"Agent failed: "
                     ++ exn_str sample_rt
                          (LibraryError u"FileNotFoundError"
                             u"No such file or directory: 'cv.txt'")) ] w_no_cv).
Proof.
  apply (run_unreadable_cv sample_rt sample_cfg w_no_cv).
  vm_compute. reflexivity.
Defined.

(** X23: the scheduler's [job] never raises, so that the
    loop of scheduler.py goes on after a failed run: [job] does what [run]
    does and, when [run] raises, adds one line Agent failed with the
    exception to the log. *)
Theorem job_never_raises (rt : runtime) (cfg : config) (w : world) :
  (job rt cfg w).1 = Ok tt
  /\ trace (job rt cfg w).2 =
       trace (run rt cfg w).2
       ++ match (run rt cfg w).1 with
          | Ok _ => []
          | Raise e => [ EvLog ERROR (u"Agent failed: " ++ exn_str rt e) ]
          end.
Proof.
  unfold job, try_except.
  destruct (run rt cfg w) as [[[]|e] w1]; cbn [fst snd].
  - split; [done|]. by rewrite app_nil_r.
  - by split.
Qed.

(** ** Further properties: the numbering of the prompt and the searches *)

(** X24: the number under which the ranking prompt
    lists a job is the index that line 124 maps back to it: the job at
    position [i] of the list (counted from 0) is announced as JOB [i+1],
    and an entry of the model with index [i+1] gets that job. *)
Theorem prompt_numbering_round_trip (rt : runtime) (jobs : list listing)
    (i : nat) (j : listing) (r : pyval) :
  jobs !! i = Some j ->
  ranking_entry r ->
  index_of r = Z.of_nat (S i) ->
  imap (job_entry rt) jobs !! i = Some (job_entry rt i j)
  /\ (exists rest, job_entry rt i j = u"[JOB " ++ PyStr.of_nat (S i) ++ u"]" ++ rest)
  /\ exists o, rank_entry jobs r = Ok o /\ e_job o = j.
Proof.
  intros Hj Hr Hi. split; [|split].
  - by rewrite list_lookup_imap, Hj.
  - unfold job_entry. eexists. do 2 f_equal.
  - pose proof (lookup_lt_Some _ _ _ Hj) as Hlt.
    destruct (rank_entry_in_range jobs r Hr) as (o & Ho & Hjob & _); [lia|].
    exists o. split; [exact Ho|].
    rewrite Hi in Hjob. replace (Z.to_nat (Z.of_nat (S i) - 1)) with i in Hjob by lia.
    congruence.
Qed.

Lemma prompt_numbering_round_trip_witness :
  imap (job_entry sample_rt) two_jobs !! 1%nat = Some (job_entry sample_rt 1 job_b)
  /\ (exists rest, job_entry sample_rt 1 job_b = u"[JOB " ++ PyStr.of_nat 2 ++ u"]" ++ rest)
  /\ exists o, rank_entry two_jobs (entry 2 70 u"ok") = Ok o /\ e_job o = job_b.
Proof.
  apply (prompt_numbering_round_trip sample_rt two_jobs 1 job_b (entry 2 70 u"ok")).
  - reflexivity.
  - repeat split; vm_compute; eauto.
  - vm_compute. reflexivity.
Defined.

Section Searches.

Context (rt : runtime) (cfg : config).

(** A fetch returns, after one or two requests and without a pause. *)
Lemma fetch_http_count keywords location limit w :
  exists v evs,
    fetch_linkedin_jobs rt cfg keywords location limit w = (Ok v, records evs w)
    /\ (1 <= count is_http evs <= 2)%nat
    /\ count is_sleep evs = 0%nat.
Proof.
  rewrite fetch_linkedin_jobs_steps.
  destruct (tier_outcome (http w _ _) limit) as [b|e].
  - destruct (Py.truthy b); [eexists _, _; split; [reflexivity|cbn; lia]|].
    destruct (tier_outcome (http w (S _) _) limit) as [b2|e].
    + destruct (Py.truthy b2); eexists _, _; (split; [reflexivity|cbn; lia]).
    + eexists _, _. split; [reflexivity|cbn; lia].
  - eexists _, _. split; [reflexivity|cbn; lia].
Qed.

End Searches.

(** X25: the loop over the searches of [run] makes at most
    two requests per search and pauses after a search only; when it gets
    through, it has made at least one request for every search and has
    paused once after each of them. *)
Theorem search_all_requests (rt : runtime) (cfg : config) (ss : list (str * str))
    (st : gset Py.hkey * list pyval) (w : world) :
  exists evs,
    (search_all rt cfg ss st w).2 = records evs w
    /\ (count is_http evs <= 2 * length ss)%nat
    /\ (count is_sleep evs <= length ss)%nat
    /\ (forall st', (search_all rt cfg ss st w).1 = Ok st' ->
          count is_sleep evs = length ss /\ (length ss <= count is_http evs)%nat).
Proof.
  revert st w. induction ss as [|[keywords location] ss IH]; intros st w.
  - exists []. cbn [search_all ret snd fst]. rewrite records_nil.
    split; [done|]. cbn. split; [lia|]. split; [lia|]. intros _ _. lia.
  - set (line := EvLog INFO (u"Searching: '" ++ keywords ++ u"' in '" ++ location ++ u"'")).
    assert (Hstep : search_all rt cfg ((keywords, location) :: ss) st w =
      match fetch_linkedin_jobs rt cfg keywords location 15 (record line w) with
      | (Ok results, w1) =>
          match Py.iter results with
          | Ok items =>
              match rfold dedupe_step st items with
              | Ok st1 => search_all rt cfg ss st1 (record (EvSleep 5) w1)
              | Raise e => (Raise e, w1)
              end
          | Raise e => (Raise e, w1)
          end
      | (Raise e, w1) => (Raise e, w1)
      end).
    { cbn [search_all]. unfold bind, lift, log, sleep. fold line.
      destruct (fetch_linkedin_jobs rt cfg keywords location 15 _) as [[results|e] w1];
        [|done].
      destruct (Py.iter results) as [items|e]; [|done].
      by destruct (rfold dedupe_step st items). }
    rewrite Hstep. clear Hstep.
    destruct (fetch_http_count rt cfg keywords location 15 (record line w))
      as (v & evs1 & -> & Hh & Hs).
    destruct (Py.iter v) as [items|e].
    2:{ exists ([ line ] ++ evs1). cbn [fst snd].
        split; [by rewrite record_records, records_records|].
        rewrite !count_app. cbn [length count is_http is_sleep line].
        split; [lia|]. split; [lia|]. intros st' [=]. }
    destruct (rfold dedupe_step st items) as [st1|e].
    2:{ exists ([ line ] ++ evs1). cbn [fst snd].
        split; [by rewrite record_records, records_records|].
        rewrite !count_app. cbn [length count is_http is_sleep line].
        split; [lia|]. split; [lia|]. intros st' [=]. }
    rewrite !record_records, !records_records.
    match goal with
    | |- context [search_all rt cfg ss st1 (records ?evs w)] =>
        destruct (IH st1 (records evs w)) as (evs2 & E2 & Hh2 & Hs2 & Hok);
        exists (evs ++ evs2)
    end.
    rewrite E2, records_records. split; [done|].
    rewrite !count_app. cbn [length count is_http is_sleep line].
    split; [lia|]. split; [lia|].
    intros st' Hst. destruct (Hok st' Hst). lia.
Qed.

(** ** Further properties: fenced answers and empty searches *)

(** X26: when the model wraps its answer in a json code
    fence, with white space around it or text after the closing fence,
    [suggest_contacts] parses exactly the text between the fences, and
    returns what [json.loads] makes of it, or raises what it raises. *)
Theorem suggest_contacts_fenced (rt : runtime) (job : listing) (preferences : str)
    (w : world) (content : list content_block) (text body rest : str) :
  model w (count is_model (trace w)) (contacts_request rt job preferences)
    = ModelMessage content ->
  first_text content = Ok text ->
  PyStr.strip text = fence ++ (u"json" ++ body) ++ fence ++ rest ->
  backtick ∉ body ->
  suggest_contacts rt job preferences w =
    (json_loads rt body, record (EvModel (contacts_request rt job preferences)) w).
Proof.
  intros Hm Ht Hs Hn.
  assert (Hn' : backtick ∉ u"json" ++ body).
  { intros [H|H]%elem_of_app; [|done]. vm_compute in H.
    repeat (apply elem_of_cons in H as [H|H]; [discriminate|]).
    by apply elem_of_nil in H. }
  unfold suggest_contacts, bind, messages_create, lift. rewrite Hm, Ht, Hs.
  unfold strip_fences. fold fence.
  remember (u"json" ++ body) as inner eqn:Hi.
  rewrite startswith_app. destruct (split_fenced inner rest Hn') as [tail ->].
  unfold str in *.
  destruct (list_getitem_in_range ([] :: inner :: tail) 1)
    as (b & -> & Hb); [cbn [length]; lia|].
  injection Hb as <-. cbn [rbind]. subst inner.
  rewrite startswith_app, drop_app_length'; [|reflexivity].
  by destruct (json_loads rt body).
Qed.

Lemma suggest_contacts_fenced_witness :
  suggest_contacts sample_rt job_a u"prefs" (sample_world [] [ text_fenced_spaced ]) =
    (Ok (PList []),
     record (EvModel (contacts_request sample_rt job_a u"prefs"))
       (sample_world [] [ text_fenced_spaced ])).
Proof.
  apply (suggest_contacts_fenced sample_rt job_a u"prefs"
           (sample_world [] [ text_fenced_spaced ])
           [ TextBlock text_fenced_spaced ] text_fenced_spaced u"
[]
" []).
  - reflexivity.
  - reflexivity.
  - vm_compute. reflexivity.
  - vm_compute. intros H.
    repeat (apply elem_of_cons in H as [H|H]; [discriminate|]).
    by apply elem_of_nil in H.
Defined.

Section NothingFound.

Context (rt : runtime) (cfg : config) (w : world).

Hypothesis Hnothing : nothing_found w.

Lemma fetch_nothing keywords location evs0 :
  fetch_linkedin_jobs rt cfg keywords location 15 (records evs0 w) =
    (Ok (PList []),
     records (evs0 ++ [ EvHttpGet (search_request cfg keywords location u"3days");
                        EvHttpGet (search_request cfg keywords location u"week") ]) w).
Proof.
  rewrite fetch_linkedin_jobs_steps. cbn [records http].
  destruct (Hnothing (count is_http (trace (records evs0 w)))
              (search_request cfg keywords location u"3days")) as (b1 & -> & ->).
  destruct (Hnothing (S (count is_http (trace (records evs0 w))))
              (search_request cfg keywords location u"week")) as (b2 & -> & ->).
  by rewrite records_records.
Qed.

Lemma search_all_nothing ss st : forall evs0,
  exists evs,
    search_all rt cfg ss st (records evs0 w) = (Ok st, records (evs0 ++ evs) w)
    /\ count is_http evs = (2 * length ss)%nat
    /\ count is_sleep evs = length ss
    /\ count is_model evs = 0%nat
    /\ count is_smtp evs = 0%nat.
Proof.
  induction ss as [|[keywords location] ss IH]; intros evs0.
  - exists []. by rewrite app_nil_r.
  - cbn [search_all]. unfold bind at 1. cbn [log].
    rewrite record_records, records_records.
    unfold bind at 1. rewrite fetch_nothing.
    unfold bind at 1, lift at 1. cbn [Py.iter].
    unfold bind at 1, lift at 1. cbn [rfold].
    unfold bind at 1. cbn [sleep]. rewrite record_records, records_records.
    match goal with
    | |- context [search_all rt cfg ss st (records ?evs w)] =>
        destruct (IH evs) as (evs2 & -> & Hh & Hs & Hm & Hp)
    end.
    eexists. split; [by rewrite <- !app_assoc|].
    rewrite !count_app, Hh, Hs, Hm, Hp. cbn. lia.
Qed.

End NothingFound.

(** X27: when the two files are read and every search comes
    back without records, [run] makes its six requests, two for each of
    the three searches with a pause after each search, never calls the
    model, takes no SMTP step, and returns after the warning that the
    email is skipped. *)
Theorem run_nothing_found (rt : runtime) (cfg : config) (w : world)
    (cv preferences : str) :
  files w (count is_read (trace w)) (CV_PATH cfg) = Ok cv ->
  files w (S (count is_read (trace w))) (PREFERENCES_PATH cfg) = Ok preferences ->
  nothing_found w ->
  exists evs,
    run rt cfg w = (Ok tt, records evs w)
    /\ count is_http evs = 6%nat
    /\ count is_sleep evs = 3%nat
    /\ count is_model evs = 0%nat
    /\ count is_smtp evs = 0%nat
    /\ last evs = Some skip_warning.
Proof.
  intros Hcv Hpref Hn.
  unfold run. unfold bind at 1. cbn [log]. rewrite record_records.
  unfold bind at 1, load_file at 1. rewrite trace_records, count_app. cbn [records files].
  cbn [count is_read]. rewrite Nat.add_0_r, Hcv, record_records, records_records.
  unfold bind at 1, load_file at 1. rewrite trace_records, count_app. cbn [records files].
  cbn [count is_read app]. rewrite Nat.add_1_r, Hpref, record_records, records_records.
  unfold bind at 1.
  match goal with
  | |- context [search_all rt cfg searches ?st (records ?evs w)] =>
      destruct (search_all_nothing rt cfg w Hn searches st evs)
        as (evs1 & -> & Hh & Hs & Hm & Hp)
  end.
  cbn [snd]. unfold bind at 1. cbn [log]. unfold bind at 1, lift at 1.
  cbn [parse_jobs rmap]. unfold bind at 1. cbn [select_top_jobs ret].
  unfold bind at 1. cbn [log]. unfold log. fold skip_warning.
  rewrite !record_records, !records_records.
  eexists. split; [reflexivity|].
  rewrite !count_app, Hh, Hs, Hm, Hp.
  repeat split; try reflexivity.
  by rewrite !app_assoc, last_snoc.
Qed.

Lemma run_nothing_found_witness :
  exists evs,
    run sample_rt sample_cfg w_nothing = (Ok tt, records evs w_nothing)
    /\ count is_http evs = 6%nat
    /\ count is_sleep evs = 3%nat
    /\ count is_model evs = 0%nat
    /\ count is_smtp evs = 0%nat
    /\ last evs = Some skip_warning.
Proof.
  apply (run_nothing_found sample_rt sample_cfg w_nothing
           u"contents of cv.txt" u"contents of preferences.txt").
  - reflexivity.
  - reflexivity.
  - intros n req. exists (PList []). split; reflexivity.
Defined.

(** ** Further properties: indices from the end, and the calls of a run *)

(** X28: line 124 looks the job up with Python's list
    indexing, which counts an index below zero from the end: an entry whose
    index is 0 gets the last job of the list, an index [-m] the job [m+1]
    places from the end, and only an index at or below minus the number of
    jobs raises IndexError. *)
Theorem rank_entry_negative_index (jobs : list listing) (r : pyval) :
  ranking_entry r ->
  (- Z.of_nat (length jobs) < index_of r <= 0 ->
   exists o,
     rank_entry jobs r = Ok o
     /\ jobs !! Z.to_nat (Z.of_nat (length jobs) + index_of r - 1) = Some (e_job o)
     /\ e_score o = PInt (score_of r))
  /\ (index_of r <= - Z.of_nat (length jobs) -> rank_entry jobs r = Raise IndexError).
Proof.
  intros Hr. rewrite (rank_entry_index _ _ Hr). unfold Py.list_getitem.
  destruct Hr as (_ & _ & [v Hv]). split.
  - intros Hi.
    destruct (Z.ltb_spec (index_of r - 1) 0); [|lia].
    destruct (Z.ltb_spec (index_of r - 1 + Z.of_nat (length jobs)) 0); [lia|].
    destruct (Z.leb_spec (Z.of_nat (length jobs))
                (index_of r - 1 + Z.of_nat (length jobs))); [lia|].
    cbn [orb].
    destruct (lookup_lt_is_Some_2 jobs
                (Z.to_nat (index_of r - 1 + Z.of_nat (length jobs)))) as [job Hjob];
      [lia|].
    rewrite Hjob, Hv. cbn [rbind]. eexists. split; [reflexivity|].
    cbn [e_job e_score]. split; [|done].
    by replace (Z.of_nat (length jobs) + index_of r - 1)
      with (index_of r - 1 + Z.of_nat (length jobs)) by lia.
  - intros Hi.
    destruct (Z.ltb_spec (index_of r - 1) 0); [|lia].
    destruct (Z.ltb_spec (index_of r - 1 + Z.of_nat (length jobs)) 0); [|lia].
    reflexivity.
Qed.

Lemma rank_entry_negative_index_witness :
  (exists o,
     rank_entry two_jobs (entry 0 50 u"x") = Ok o
     /\ two_jobs !! 1%nat = Some (e_job o)
     /\ e_score o = PInt 50)
  /\ rank_entry two_jobs (entry (-2) 50 u"x") = Raise IndexError.
Proof.
  assert (H0 : ranking_entry (entry 0 50 u"x"))
    by (split; [|split]; vm_compute; eauto).
  assert (H2 : ranking_entry (entry (-2) 50 u"x"))
    by (split; [|split]; vm_compute; eauto).
  split.
  - apply (proj1 (rank_entry_negative_index two_jobs (entry 0 50 u"x") H0)).
    vm_compute. split; [reflexivity|discriminate].
  - apply (proj2 (rank_entry_negative_index two_jobs (entry (-2) 50 u"x") H2)).
    vm_compute. discriminate.
Defined.

(** X29: each of the three functions that call the model
    calls it exactly once and does nothing else to the environment,
    whatever the model answers and whether the function returns or raises:
    there is no retry and no fallback. *)
Theorem model_calls_no_retry (rt : runtime) (cv preferences : str)
    (job : listing) (jobs : list listing) (w : world) :
  (tailor_cv rt cv job w).2 = record (EvModel (tailor_request rt cv job)) w
  /\ (suggest_contacts rt job preferences w).2
       = record (EvModel (contacts_request rt job preferences)) w
  /\ (select_top_jobs rt (job :: jobs) cv preferences w).2
       = record (EvModel (ranking_request rt (job :: jobs) cv preferences)) w.
Proof.
  unfold tailor_cv, suggest_contacts, select_top_jobs, bind, messages_create, lift, ret.
  repeat split.
  - destruct (model w _ _) as [e|content]; [done|].
    by destruct (first_text content).
  - destruct (model w _ _) as [e|content]; [done|].
    destruct (first_text content) as [text|e]; [|done].
    by destruct (strip_fences _).
  - destruct (model w _ _) as [e|content]; [done|].
    destruct (first_text content) as [text|e]; [|done].
    destruct (strip_fences _) as [text'|e]; [|done].
    by destruct (json_loads rt text').
Qed.

Section Budget.

Context (p : event -> bool).

Lemma budget_weaken {A} (k k' : nat) (Q Q' : A -> Prop) (c : M A) :
  (k <= k')%nat -> (forall a, Q a -> Q' a) ->
  calls_at_most p k Q c -> calls_at_most p k' Q' c.
Proof.
  intros Hk HQ H w. destruct (H w) as (evs & E & C & Ha).
  exists evs. split; [done|]. split; [lia|]. eauto.
Qed.

Lemma budget_ret {A} (a : A) (Q : A -> Prop) : Q a -> calls_at_most p 0 Q (ret a).
Proof.
  intros HQ w. exists []. rewrite records_nil. split; [done|]. split; [done|].
  by intros a' [= <-].
Qed.

Lemma budget_lift {A} (r : result A) :
  calls_at_most p 0 (fun a => r = Ok a) (lift r).
Proof. intros w. exists []. by rewrite records_nil. Qed.

Lemma budget_lift_any {A} (r : result A) :
  calls_at_most p 0 (fun _ => True) (lift r).
Proof. intros w. exists []. by rewrite records_nil. Qed.

Lemma budget_bind {A B} (a b : nat) (Q : A -> Prop) (R : B -> Prop)
    (c : M A) (k : A -> M B) :
  calls_at_most p a Q c -> (forall x, Q x -> calls_at_most p b R (k x)) ->
  calls_at_most p (a + b) R (bind c k).
Proof.
  intros Hc Hk w. destruct (Hc w) as (evs1 & E1 & C1 & Q1). unfold bind.
  destruct (c w) as [[x|e] w1]; cbn [fst snd] in *; subst w1.
  - destruct (Hk x (Q1 x eq_refl) (records evs1 w)) as (evs2 & E2 & C2 & R2).
    exists (evs1 ++ evs2). rewrite E2, records_records, count_app.
    split; [done|]. split; [lia|done].
  - exists evs1. split; [done|]. split; [lia|done].
Qed.

Lemma budget_try_except {A} (a b : nat) (Q : A -> Prop)
    (body : M A) (handler : exn -> M A) :
  calls_at_most p a Q body -> (forall e, calls_at_most p b Q (handler e)) ->
  calls_at_most p (a + b) Q (try_except body handler).
Proof.
  intros Hb Hh w. destruct (Hb w) as (evs1 & E1 & C1 & Q1). unfold try_except.
  destruct (body w) as [[x|e] w1]; cbn [fst snd] in *; subst w1.
  - exists evs1. split; [done|]. split; [lia|done].
  - destruct (Hh e (records evs1 w)) as (evs2 & E2 & C2 & R2).
    exists (evs1 ++ evs2). rewrite E2, records_records, count_app.
    split; [done|]. split; [lia|done].
Qed.

(** A call that records the one event [e]. *)
Lemma budget_event {A} (e : event) (c : M A) :
  (forall w, (c w).2 = record e w) ->
  calls_at_most p (if p e then 1 else 0) (fun _ => True) c.
Proof.
  intros H w. exists [ e ]. rewrite H. split; [done|].
  rewrite count_cons. cbn [count]. split; [lia|done].
Qed.

Lemma budget_log lvl msg :
  calls_at_most p (if p (EvLog lvl msg) then 1 else 0) (fun _ => True) (log lvl msg).
Proof. by apply budget_event. Qed.

Lemma budget_sleep secs :
  calls_at_most p (if p (EvSleep secs) then 1 else 0) (fun _ => True) (sleep secs).
Proof. by apply budget_event. Qed.

Lemma budget_load_file path :
  calls_at_most p (if p (EvReadFile path) then 1 else 0) (fun _ => True)
    (load_file path).
Proof. by apply budget_event. Qed.

Lemma budget_now fmt :
  calls_at_most p (if p (EvNow fmt) then 1 else 0) (fun _ => True) (now_strftime fmt).
Proof. by apply budget_event. Qed.

Lemma budget_requests_get req :
  calls_at_most p (if p (EvHttpGet req) then 1 else 0) (fun _ => True)
    (requests_get req).
Proof.
  apply budget_event. intros w. unfold requests_get. by destruct (http w _ _).
Qed.

Lemma budget_messages_create req :
  calls_at_most p (if p (EvModel req) then 1 else 0) (fun _ => True)
    (messages_create req).
Proof.
  apply budget_event. intros w. unfold messages_create. by destruct (model w _ _).
Qed.

End Budget.

Section RunBudget.

Context (rt : runtime) (cfg : config) (p : event -> bool) (h m : nat).

Hypothesis Hlog : forall lvl msg, p (EvLog lvl msg) = false.
Hypothesis Hread : forall path, p (EvReadFile path) = false.
Hypothesis Hsleep : forall secs, p (EvSleep secs) = false.
Hypothesis Hnow : forall fmt, p (EvNow fmt) = false.
Hypothesis Hsmtp : forall step, p (EvSmtp step) = false.
Hypothesis Hhttp : forall req, (if p (EvHttpGet req) then 1 else 0)%nat = h.
Hypothesis Hmodel : forall req, (if p (EvModel req) then 1 else 0)%nat = m.

Lemma budget_log0 lvl msg : calls_at_most p 0 (fun _ => True) (log lvl msg).
Proof. pose proof (budget_log p lvl msg) as H. by rewrite Hlog in H. Qed.

Lemma budget_sleep0 secs : calls_at_most p 0 (fun _ => True) (sleep secs).
Proof. pose proof (budget_sleep p secs) as H. by rewrite Hsleep in H. Qed.

Lemma budget_load_file0 path : calls_at_most p 0 (fun _ => True) (load_file path).
Proof. pose proof (budget_load_file p path) as H. by rewrite Hread in H. Qed.

Lemma budget_now0 fmt : calls_at_most p 0 (fun _ => True) (now_strftime fmt).
Proof. pose proof (budget_now p fmt) as H. by rewrite Hnow in H. Qed.

Lemma budget_model req : calls_at_most p m (fun _ => True) (messages_create req).
Proof. pose proof (budget_messages_create p req) as H. by rewrite Hmodel in H. Qed.

Lemma budget_fetch keywords location limit :
  calls_at_most p (2 * h) (fun _ => True)
    (fetch_linkedin_jobs rt cfg keywords location limit).
Proof.
  intros w. rewrite fetch_linkedin_jobs_steps.
  destruct (tier_outcome (http w _ _) limit) as [b|e].
  - destruct (Py.truthy b).
    { eexists. split; [reflexivity|]. rewrite !count_cons, !Hhttp. cbn. split; [lia|done]. }
    destruct (tier_outcome (http w (S _) _) limit) as [b2|e].
    + destruct (Py.truthy b2); eexists; (split; [reflexivity|]);
        rewrite !count_cons, !Hhttp; cbn; (split; [lia|done]).
    + eexists. split; [reflexivity|].
      rewrite !count_cons, !Hhttp, Hlog. cbn. split; [lia|done].
  - eexists. split; [reflexivity|].
    rewrite !count_cons, !Hhttp, Hlog. cbn. split; [lia|done].
Qed.

Lemma budget_search_all ss : forall st,
  calls_at_most p (length ss * (2 * h)) (fun _ => True) (search_all rt cfg ss st).
Proof.
  induction ss as [|[keywords location] ss IH]; intros st; cbn [search_all].
  - by apply budget_ret.
  - eapply budget_weaken; cycle 2.
    { eapply budget_bind; [apply budget_log0|intros _ _].
      eapply budget_bind; [apply budget_fetch|intros results _].
      eapply budget_bind; [apply budget_lift|intros items _].
      eapply budget_bind; [apply budget_lift|intros st' _].
      eapply budget_bind; [apply budget_sleep0|intros _ _].
      apply IH. }
    { cbn [length Nat.mul]. lia. }
    { done. }
Qed.

Lemma top_of_rankings_length jobs v out :
  top_of_rankings rt jobs v = Ok out -> (length out <= 10)%nat.
Proof.
  unfold top_of_rankings.
  destruct (Py.iter v) as [items|]; [|done]. cbn [rbind].
  destruct (Py.sorted_reverse rt _ items) as [sorted|]; [|done]. cbn [rbind].
  intros H%rmap_length%Forall2_length. rewrite <- H, length_take. lia.
Qed.

Lemma budget_select jobs cv preferences :
  calls_at_most p m (fun top => (length top <= 10)%nat)
    (select_top_jobs rt jobs cv preferences).
Proof.
  destruct jobs as [|j jobs]; cbn [select_top_jobs].
  - apply (budget_weaken p 0 m (fun top => (length top <= 10)%nat)
             (fun top => (length top <= 10)%nat)); [lia|done|].
    apply budget_ret. cbn. lia.
  - eapply (budget_weaken p _ m (fun top => (length top <= 10)%nat)); cycle 2.
    { eapply budget_bind; [apply budget_model|intros content _].
      eapply budget_bind; [apply budget_lift|intros text _].
      eapply budget_bind; [apply budget_lift|intros text' _].
      eapply budget_bind; [apply budget_lift|intros rankings _].
      eapply (budget_weaken p 0 0); [lia| |apply budget_lift].
      intros top Htop. exact (top_of_rankings_length _ _ _ Htop). }
    { lia. }
    { done. }
Qed.

Lemma budget_build_sections cv preferences n entries : forall i,
  calls_at_most p (length entries * (2 * m)) (fun _ => True)
    (build_sections rt cv preferences n i entries).
Proof.
  induction entries as [|entry entries IH]; intros i; cbn [build_sections].
  - by apply budget_ret.
  - unfold tailor_cv, suggest_contacts.
    eapply budget_weaken; cycle 2.
    { eapply budget_bind; [apply budget_log0|intros _ _].
      eapply budget_bind.
      { eapply budget_bind; [apply budget_model|intros content _].
        eapply budget_bind; [apply budget_lift|intros text _].
        by apply (budget_ret p _ (fun _ => True)). }
      intros tailored _.
      eapply budget_bind; [apply budget_log0|intros _ _].
      eapply budget_bind.
      { eapply budget_bind; [apply budget_model|intros content _].
        eapply budget_bind; [apply budget_lift|intros text _].
        eapply budget_bind; [apply budget_lift|intros text' _].
        apply budget_lift_any. }
      intros contacts _.
      eapply budget_bind; [apply budget_lift|intros contact_html _].
      eapply budget_bind; [apply IH|intros more _].
      by apply (budget_ret p _ (fun _ => True)). }
    { cbn [length Nat.mul]. lia. }
    { done. }
Qed.

Lemma budget_build_email top_jobs cv preferences :
  calls_at_most p (length top_jobs * (2 * m)) (fun _ => True)
    (build_email rt top_jobs cv preferences).
Proof.
  unfold build_email. eapply budget_weaken; cycle 2.
  { eapply budget_bind; [apply budget_now0|intros today _].
    eapply budget_bind; [apply budget_build_sections|intros sections _].
    by apply (budget_ret p _ (fun _ => True)). }
  { lia. }
  { done. }
Qed.

Lemma budget_send_email html_body :
  calls_at_most p 0 (fun _ => True) (send_email cfg html_body).
Proof.
  intros w. pose proof (send_email_steps cfg html_body w) as Hs. cbv zeta in Hs.
  rewrite Hs. clear Hs. unfold closing.
  destruct (has_surrogate html_body).
  { exists [ EvNow subject_format ]. split; [done|].
    rewrite count_cons, Hnow. cbn [count]. split; [lia|done]. }
  repeat match goal with
         | |- context [match smtp ?w ?n ?s with _ => _ end] => destruct (smtp w n s)
         end;
    (eexists; split; [reflexivity|]); cbn [fmap list_fmap smtp_session take app];
    unfold sent_line; rewrite !count_cons, ?Hnow, ?Hsmtp, ?Hlog; cbn [count];
    (split; [lia|done]).
Qed.

(** The calls of a run: two per search at most, one for the ranking and
    two for each of the ten jobs at most. *)
Lemma budget_run :
  calls_at_most p (6 * h + 21 * m) (fun _ => True) (run rt cfg).
Proof.
  unfold run. eapply budget_weaken; cycle 2.
  { eapply budget_bind; [apply budget_log0|intros _ _].
    eapply budget_bind; [apply budget_load_file0|intros cv _].
    eapply budget_bind; [apply budget_load_file0|intros preferences _].
    eapply budget_bind; [apply budget_search_all|intros st _].
    eapply budget_bind; [apply budget_log0|intros _ _].
    eapply budget_bind; [apply budget_lift|intros jobs _].
    eapply budget_bind; [apply budget_select|intros top_jobs Htop].
    eapply budget_bind; [apply budget_log0|intros _ _].
    apply (budget_weaken p (length top_jobs * (2 * m)) (20 * m)
             (fun _ => True) (fun _ => True));
      [pose proof (Nat.mul_le_mono_r _ _ (2 * m) Htop); lia|done|].
    destruct top_jobs as [|entry top_jobs].
    - eapply budget_weaken; cycle 2; [apply budget_log0|lia|done].
    - eapply budget_weaken; cycle 2.
      { eapply budget_bind; [apply budget_build_email|intros html _].
        eapply budget_bind; [apply budget_send_email|intros _ _].
        apply budget_log0. }
      { lia. }
      { done. } }
  { cbn [searches length]. lia. }
  { done. }
Qed.

End RunBudget.

(** X30: whatever the environment answers, a run makes at
    most six requests to the search service (two for each of its three
    searches) and at most twenty-one calls of the model (one for the
    ranking and two for each of the ten jobs kept at most). *)
Theorem run_call_budget (rt : runtime) (cfg : config) (w : world) :
  exists evs,
    (run rt cfg w).2 = records evs w
    /\ (count is_http evs <= 6)%nat
    /\ (count is_model evs <= 21)%nat.
Proof.
  destruct (budget_run rt cfg is_http 1 0 ltac:(done) ltac:(done) ltac:(done)
              ltac:(done) ltac:(done) ltac:(done) ltac:(done) w)
    as (evs & E & Hh & _).
  destruct (budget_run rt cfg is_model 0 1 ltac:(done) ltac:(done) ltac:(done)
              ltac:(done) ltac:(done) ltac:(done) ltac:(done) w)
    as (evs' & E' & Hm & _).
  assert (evs' = evs) as ->.
  { rewrite E in E'. apply (f_equal trace) in E'. rewrite !trace_records in E'.
    by apply app_inv_head in E'. }
  exists evs. split; [done|]. split; lia.
Qed.
